(** * RangeGuard: route / hunting-zone conflict detection and notification fan-out

    A shallow embedding of [backend/server.py] and the properties of its
    conflict classifier, zone activity filter and notification fan-out.

    Conventions of the embedding.
    - Python exceptions are values of [exn]; code that can raise returns a
      [result].  A [try: ... except Exception: ...] is a [match] on it.
    - A float is an IEEE 754 double ([pyfloat]): the overlap percentage is
      computed with the processor's rounding after each operation, and
      [round(x, 1)] is Python's.  Coordinates and the buffer distance, which
      only the geometry library reads, are the rationals they denote.
    - A character of a [string] is a code point, below 256: [s[:n]] keeps
      the first [n] of them, and the order of two strings is that of
      their UTF-8 bytes.
    - The [shapely] calls ([shape], [mapping], [buffer], [contains],
      [intersects], [intersection], [length]) are the operations of the
      class [Shapely]; every statement is proved for an arbitrary instance.
      [Planar] is a partial instance, for axis-aligned rectangles, their
      buffers and horizontal segments, on which the scenarios are
      evaluated.
    - The MongoDB collections are lists in insertion order;
      [find(q).to_list(n)] is [firstn n (filter q ...)].  [logger.error] is
      not modelled.  [asyncio.create_task] adds a [Task] to the list of
      background tasks the request leaves behind. *)

From Stdlib Require Import ZArith QArith Qround Qabs Qpower Lia Lqa Bool Ascii
  String List.
From stdpp Require Import base gmap strings list.

Open Scope string_scope.
Open Scope list_scope.

(** ** Python values and exceptions *)

Inductive exn : Type :=
| PyException (msg : string)
| HTTPException (status_code : Z) (detail : string).

Inductive result (A : Type) : Type :=
| Ok (a : A)
| Raise (e : exn).

Arguments Ok {A} a.
Arguments Raise {A} e.

Definition bind {A B : Type} (m : result A) (k : A -> result B) : result B :=
  match m with
  | Ok a => k a
  | Raise e => Raise e
  end.

Notation "'let!' x ':=' m 'in' k" := (bind m (fun x => k))
  (at level 10, x name, m at level 100, k at level 200,
   format "'[v' 'let!'  x  ':='  m  'in' '/' k ']'").

(** [str(e)] of an exception. *)
Definition exn_str (e : exn) : string :=
  match e with
  | PyException msg => msg
  | HTTPException _ detail => detail
  end.

(** *** Floats

    A Python float is an IEEE 754 binary64 number.  A finite one is kept
    as the rational it denotes, so that every operation below returns the
    double the processor returns: the exact result rounded to the nearest
    double, ties to the even significand, and to an infinity past the
    largest double.  The two zeros are one value: a length is not
    negative, and no negative zero arises from the arithmetic on lengths. *)
Inductive pyfloat : Type :=
| Finite (q : Q)
| PosInf
| NegInf
| NaN.

Coercion Finite : Q >-> pyfloat.
Bind Scope Q_scope with pyfloat.

Definition Qltb (a b : Q) : bool := negb (Qle_bool b a).

Definition round_half_even (q : Q) : Z :=
  let f := Qfloor q in
  match Qcompare (q - inject_Z f) (1 # 2) with
  | Lt => f
  | Gt => (f + 1)%Z
  | Eq => if Z.even f then f else (f + 1)%Z
  end.

Definition pow2 (e : Z) : Q := Qpower 2 e.

(** The integer part of the binary logarithm of a positive rational. *)
Definition Qlog2 (q : Q) : Z :=
  let k := (Z.log2 (Qnum q) - Z.log2 (Zpos (Qden q)))%Z in
  if Qle_bool (pow2 k) q then k else (k - 1)%Z.

(** The double nearest to [q]: a significand of 53 bits, or fewer below
    [2^-1022] where the spacing stays [2^-1074]; [2^1024] and beyond is an
    infinity. *)
Definition fl (q : Q) : pyfloat :=
  if Qeq_bool q 0 then Finite 0
  else
    let a := Qabs q in
    let e := Z.max (Qlog2 a - 52) (-1074) in
    let m := round_half_even (a / pow2 e) in
    let v := Qred (inject_Z m * pow2 e) in
    if Qle_bool (pow2 1024) v
    then if Qle_bool 0 q then PosInf else NegInf
    else Finite (if Qle_bool 0 q then v else Qred (- v)).

(** [a < b]; false as soon as one side is not a number. *)
Definition float_ltb (a b : pyfloat) : bool :=
  match a, b with
  | NaN, _ | _, NaN => false
  | _, NegInf => false
  | PosInf, _ => false
  | NegInf, _ => true
  | Finite _, PosInf => true
  | Finite p, Finite q => Qltb p q
  end.

Definition float_is_zero (a : pyfloat) : bool :=
  match a with
  | Finite q => Qeq_bool q 0
  | _ => false
  end.

(** The infinity of the given sign. *)
Definition inf_of_sign (positive : bool) : pyfloat :=
  if positive then PosInf else NegInf.

(** [a / b] of the processor, for a divisor that is not zero. *)
Definition float_div (a b : pyfloat) : pyfloat :=
  match a, b with
  | NaN, _ | _, NaN => NaN
  | Finite p, Finite q => fl (p / q)
  | Finite _, (PosInf | NegInf) => Finite 0
  | PosInf, Finite q => inf_of_sign (Qle_bool 0 q)
  | NegInf, Finite q => inf_of_sign (negb (Qle_bool 0 q))
  | (PosInf | NegInf), (PosInf | NegInf) => NaN
  end.

(** [a * b]. *)
Definition float_mul (a b : pyfloat) : pyfloat :=
  match a, b with
  | NaN, _ | _, NaN => NaN
  | Finite p, Finite q => fl (p * q)
  | Finite p, PosInf | PosInf, Finite p =>
      if Qeq_bool p 0 then NaN else inf_of_sign (Qle_bool 0 p)
  | Finite p, NegInf | NegInf, Finite p =>
      if Qeq_bool p 0 then NaN else inf_of_sign (negb (Qle_bool 0 p))
  | PosInf, PosInf | NegInf, NegInf => PosInf
  | PosInf, NegInf | NegInf, PosInf => NegInf
  end.

(** [a / b] on floats: Python raises on a zero divisor. *)
Definition py_truediv (a b : pyfloat) : result pyfloat :=
  if float_is_zero b then Raise (PyException "float division by zero")
  else Ok (float_div a b).

(** [round(x, 1)]: the decimal with one digit nearest to the exact value
    of [x], ties to the even digit, read back as a double; an infinity or
    a NaN rounds to itself. *)
Definition py_round1 (x : pyfloat) : pyfloat :=
  match x with
  | Finite q => fl (round_half_even (q * 10) # 10)
  | other => other
  end.

(** A Python number: [min(round(x, 1), 100)] yields either the float or the
    int literal. *)
Inductive pynum : Type :=
| PyFloat (x : pyfloat)
| PyInt (z : Z).

(** The value of a number in a comparison: an int is compared exactly. *)
Definition pynum_val (n : pynum) : pyfloat :=
  match n with
  | PyFloat x => x
  | PyInt z => Finite (inject_Z z)
  end.

(** [min(a, b)]: the first argument unless the second is strictly smaller. *)
Definition py_min (a b : pynum) : pynum :=
  if float_ltb (pynum_val b) (pynum_val a) then b else a.

(** [s] is falsy when it is [None] or the empty string. *)
Definition str_truthy (s : option string) : option string :=
  match s with
  | Some EmptyString => None
  | other => other
  end.

(** ** The geometry library

    [geojson] is the type of the GeoJSON-like dicts the documents carry,
    [geom] that of the shapely geometry objects. *)

Class Shapely (geojson geom : Type) : Type := {
  (** [bool(d)] of a dict: false on the empty dict *)
  geojson_truthy : geojson -> bool;
  (** [{"type": "LineString", "coordinates": coords}] *)
  LineString_dict : list (Q * Q) -> geojson;
  shape : geojson -> result geom;
  mapping : geom -> result geojson;
  buffer : geom -> Q -> result geom;
  (** [a.contains(b)], [a.intersects(b)], [a.intersection(b)] with the
      receiver first *)
  contains : geom -> geom -> result bool;
  intersects : geom -> geom -> result bool;
  intersection : geom -> geom -> result geom;
  (** [g.length]; every shapely geometry has the attribute, so the
      [hasattr(intersection, 'length')] test of the source is always true *)
  geom_length : geom -> pyfloat
}.

(** ** GPX files *)

Record GPX : Type := {
  gpx_name : option string;
  (** tracks, their segments, their points as (longitude, latitude) *)
  gpx_tracks : list (list (list (Q * Q)));
  gpx_waypoints : list (Q * Q)
}.

Section Server.

Context {geojson geom : Type} {K : Shapely geojson geom}.

(** [datetime.now(timezone.utc).isoformat()] *)
Variable utcnow : string.
(** [str(uuid.uuid4())], by the number of identifiers drawn so far *)
Variable uuid4 : nat -> string.
(** [gpxpy.parse] *)
Variable gpx_parse : string -> result GPX.
(** the text of a number inside an f-string *)
Variable py_format : pynum -> string.

(** ** Documents *)

Record User : Type := {
  u_id : string;
  u_name : string;
  u_role : string;
  u_organization_name : option string
}.

Record Zone : Type := {
  z_id : string;
  z_name : string;
  z_description : string;
  z_geometry : geojson;
  z_buffered_geometry : option geojson;
  z_start_time : string;
  z_end_time : string;
  z_buffer_meters : option Z;
  z_created_by : string;
  z_association_name : option string;
  z_created_at : string
}.

Record Route : Type := {
  r_id : string;
  r_name : string;
  r_geometry : geojson;
  r_user_id : string;
  r_file_name : option string;
  r_is_public : bool;
  r_owner_name : string;
  r_created_at : string
}.

Record Favorite : Type := {
  f_id : string;
  f_user_id : string;
  f_route_id : string
}.

Record NotifData : Type := {
  d_route_id : string;
  d_route_name : string;
  d_zone_id : string;
  d_zone_name : string;
  d_conflict_type : string;
  d_zone_start : string;
  d_zone_end : string
}.

(** The arguments of one [create_notification] call. *)
Record Draft : Type := {
  dr_user_id : string;
  dr_notif_type : string;
  dr_title : string;
  dr_message : string;
  dr_data : NotifData
}.

Record Notification : Type := {
  n_id : string;
  n_draft : Draft;
  n_read : bool;
  n_created_at : string
}.

Record Database : Type := {
  db_zones : list Zone;
  db_routes : list Route;
  db_favorites : list Favorite;
  db_notifications : list Notification;
  (** how many [uuid4()] identifiers were drawn *)
  db_uuids : nat
}.

Inductive Task : Type :=
| CheckRoutesAgainstNewZone (zone_doc : Zone)
| CheckUploadedRouteAgainstZones (route_doc : Route) (user_id : string).

(** ** Zones *)

(** [compute_buffer(geometry, buffer_meters)] *)
Definition compute_buffer (geometry : geojson) (buffer_meters : Z) : geojson :=
  match (let! g := shape geometry in
         let buffer_deg := (inject_Z buffer_meters / 111320)%Q in
         let! buffered := buffer g buffer_deg in
         mapping buffered) with
  | Ok d => d
  | Raise _ => geometry
  end.

Record ZoneCreate : Type := {
  zc_name : string;
  zc_description : option string;
  zc_geometry : geojson;
  zc_start_time : string;
  zc_end_time : string;
  zc_buffer_meters : Z
}.

Definition draw_uuid (db : Database) : string * Database :=
  (uuid4 (db_uuids db),
   {| db_zones := db_zones db; db_routes := db_routes db;
      db_favorites := db_favorites db;
      db_notifications := db_notifications db;
      db_uuids := S (db_uuids db) |}).

(** [create_zone(data, user)]: the zone document, the database after the
    insert and the background task it starts. *)
Definition create_zone (data : ZoneCreate) (user : User) (db : Database)
  : result (Zone * Database * list Task) :=
  if negb (String.eqb (u_role user) "admin")
  then Raise (HTTPException 403 "Only admins can create zones")
  else
    let '(zone_id, db1) := draw_uuid db in
    let buffered_geom := compute_buffer (zc_geometry data) (zc_buffer_meters data) in
    let zone_doc :=
      {| z_id := zone_id;
         z_name := zc_name data;
         z_description := default EmptyString (str_truthy (zc_description data));
         z_geometry := zc_geometry data;
         z_buffered_geometry := Some buffered_geom;
         z_start_time := zc_start_time data;
         z_end_time := zc_end_time data;
         z_buffer_meters := Some (zc_buffer_meters data);
         z_created_by := u_id user;
         z_association_name :=
           Some (default (u_name user) (u_organization_name user));
         z_created_at := utcnow |} in
    Ok (zone_doc,
        {| db_zones := db_zones db1 ++ [zone_doc];
           db_routes := db_routes db1;
           db_favorites := db_favorites db1;
           db_notifications := db_notifications db1;
           db_uuids := db_uuids db1 |},
        [CheckRoutesAgainstNewZone zone_doc]).

(** The query [{"start_time": {"$lte": t}, "end_time": {"$gte": t}}]:
    strings are compared byte by byte. *)
Definition active_at (check_time : string) (zone : Zone) : bool :=
  String.leb (z_start_time zone) check_time
  && String.leb check_time (z_end_time zone).

(** [get_zones(active, date)] *)
Definition get_zones (active : option bool) (date : option string)
    (db : Database) : list Zone :=
  match active, str_truthy date with
  | _, Some d => firstn 1000 (List.filter (active_at d) (db_zones db))
  | Some true, None =>
      firstn 1000 (List.filter (active_at utcnow) (db_zones db))
  | _, None => firstn 1000 (db_zones db)
  end.

(** ** Intersection check *)

Record Conflict : Type := {
  c_zone_id : string;
  c_zone_name : string;
  c_association : string;
  c_start_time : string;
  c_end_time : string;
  c_overlap_percentage : pynum;
  c_conflict_type : string;
  c_buffer_meters : Z;
  c_geometry : geojson;
  c_buffered_geometry : option geojson
}.

(** [zone.get("buffered_geometry", zone["geometry"])] *)
Definition zone_geom (zone : Zone) : geojson :=
  default (z_geometry zone) (z_buffered_geometry zone).

(** [route_shape.length if route_shape.length > 0 else 1] *)
Definition route_length (route_shape : geom) : pyfloat :=
  if float_ltb 0 (geom_length route_shape) then geom_length route_shape
  else 1.

(** [min(round((overlap_length / route_length) * 100, 1), 100)] for the
    given intersection length. *)
Definition overlap_of_length (overlap_length : pyfloat) (route_shape : geom)
  : result pynum :=
  let! ratio := py_truediv overlap_length (route_length route_shape) in
  Ok (py_min (PyFloat (py_round1 (float_mul ratio 100))) (PyInt 100)).

(** The four lines that every caller repeats:
    [intersection = route_shape.intersection(zone_shape)],
    [overlap_length], [route_length], [overlap_pct]. *)
Definition overlap_pct (route_shape zone_shape : geom) : result pynum :=
  let! inter := intersection route_shape zone_shape in
  overlap_of_length (geom_length inter) route_shape.

Definition mk_conflict (zone : Zone) (pct : pynum) (conflict_type : string)
  : Conflict :=
  {| c_zone_id := z_id zone;
     c_zone_name := z_name zone;
     c_association := default EmptyString (z_association_name zone);
     c_start_time := z_start_time zone;
     c_end_time := z_end_time zone;
     c_overlap_percentage := pct;
     c_conflict_type := conflict_type;
     c_buffer_meters := default 200%Z (z_buffer_meters zone);
     c_geometry := z_geometry zone;
     c_buffered_geometry := z_buffered_geometry zone |}.

(** [original_zone_shape.contains(route_shape) or
     zone_shape.contains(route_shape)] *)
Definition is_contained_of (original_zone_shape zone_shape route_shape : geom)
  : result bool :=
  let! c := contains original_zone_shape route_shape in
  if c then Ok true else contains zone_shape route_shape.

(** [(not original_zone_shape.intersects(route_shape)) and
     zone_shape.intersects(route_shape)] *)
Definition is_within_buffer_of (original_zone_shape zone_shape route_shape : geom)
  : result bool :=
  let! i := intersects original_zone_shape route_shape in
  if negb i then intersects zone_shape route_shape else Ok false.

(** The body of the [try] of [check_route_against_zones] for one zone:
    the conflict it appends, if any. *)
Definition check_zone (route_shape : geom) (zone : Zone)
  : result (option Conflict) :=
  let! zone_shape := shape (zone_geom zone) in
  let! original_zone_shape := shape (z_geometry zone) in
  let! is_contained :=
    is_contained_of original_zone_shape zone_shape route_shape in
  let! is_intersecting := intersects route_shape zone_shape in
  let! is_within_buffer :=
    is_within_buffer_of original_zone_shape zone_shape route_shape in
  if is_contained || is_intersecting then
    if is_contained then
      Ok (Some (mk_conflict zone (PyFloat 100) "contained"))
    else if is_within_buffer then
      let! pct := overlap_pct route_shape zone_shape in
      Ok (Some (mk_conflict zone pct "buffer"))
    else
      let! pct := overlap_pct route_shape zone_shape in
      Ok (Some (mk_conflict zone pct "intersects"))
  else Ok None.

(** [check_route_against_zones(route_shape, active_zones)] *)
Fixpoint check_route_against_zones (route_shape : geom)
    (active_zones : list Zone) : list Conflict :=
  match active_zones with
  | [] => []
  | zone :: rest =>
      match check_zone route_shape zone with
      | Ok (Some conflict) =>
          conflict :: check_route_against_zones route_shape rest
      | Ok None => check_route_against_zones route_shape rest
      | Raise _ => check_route_against_zones route_shape rest
      end
  end.

Record IntersectionRequest : Type := {
  ir_route_id : option string;
  ir_route_geometry : option geojson;
  ir_check_time : option string
}.

Record IntersectionResult : Type := {
  res_intersects : bool;
  res_zones : list Conflict;
  res_safe_message : string
}.

Definition MSG_NO_ACTIVE : string :=
  "No active hunting zones at the selected time.".
Definition MSG_CRITICAL : string :=
  "CRITICAL: Your entire route is inside an active hunting zone!".
Definition MSG_WARNING : string :=
  "WARNING: Your route crosses active hunting zones!".
Definition MSG_CAUTION : string :=
  "CAUTION: Your route enters a buffer/safety zone near hunting areas.".
Definition MSG_SAFE : string :=
  "Safe: No conflicts with active hunting zones.".

Definition has_type (conflict_type : string) (conflicts : list Conflict) : bool :=
  existsb (fun c => String.eqb (c_conflict_type c) conflict_type) conflicts.

(** The tail of [check_intersection], from the conflicts on. *)
Definition intersection_result (conflicts : list Conflict) : IntersectionResult :=
  let has_contained := has_type "contained" conflicts in
  let has_intersect := has_type "intersects" conflicts in
  let msg :=
    if has_contained then MSG_CRITICAL
    else if has_intersect then MSG_WARNING
    else match conflicts with
         | _ :: _ => MSG_CAUTION
         | [] => MSG_SAFE
         end in
  {| res_intersects := (0 <? List.length conflicts)%nat;
     res_zones := conflicts;
     res_safe_message := msg |}.

(** [find({"start_time": {"$lte": t}, "end_time": {"$gte": t}}).to_list(1000)] *)
Definition active_zones_at (check_time : string) (db : Database) : list Zone :=
  firstn 1000 (List.filter (active_at check_time) (db_zones db)).

(** [check_intersection(data)] *)
Definition check_intersection (data : IntersectionRequest) (db : Database)
  : result IntersectionResult :=
  let check_time := default utcnow (str_truthy (ir_check_time data)) in
  let! route_geom_data :=
    match str_truthy (ir_route_id data) with
    | Some route_id =>
        match List.find (fun r => String.eqb (r_id r) route_id) (db_routes db) with
        | None => Raise (HTTPException 404 "Route not found")
        | Some route => Ok (Some (r_geometry route))
        end
    | None => Ok (ir_route_geometry data)
    end in
  match route_geom_data with
  | None => Raise (HTTPException 400 "No route geometry provided")
  | Some g =>
      if negb (geojson_truthy g)
      then Raise (HTTPException 400 "No route geometry provided")
      else
        let active_zones := active_zones_at check_time db in
        match active_zones with
        | [] => Ok {| res_intersects := false;
                      res_zones := [];
                      res_safe_message := MSG_NO_ACTIVE |}
        | _ :: _ =>
            match shape g with
            | Raise e =>
                Raise (HTTPException 400
                         ("Invalid route geometry: " +:+ exn_str e))
            | Ok route_shape =>
                Ok (intersection_result
                      (check_route_against_zones route_shape active_zones))
            end
        end
  end.

(** ** Notifications *)

(** [create_notification(user_id, notif_type, title, message, data)] *)
Definition create_notification (db : Database) (draft : Draft) : Database :=
  let '(notif_id, db1) := draw_uuid db in
  let notif_doc :=
    {| n_id := notif_id; n_draft := draft; n_read := false;
       n_created_at := utcnow |} in
  {| db_zones := db_zones db1;
     db_routes := db_routes db1;
     db_favorites := db_favorites db1;
     db_notifications := db_notifications db1 ++ [notif_doc];
     db_uuids := db_uuids db1 |}.

Definition nl : string := String "010"%char EmptyString.

(** [s[:16]] *)
Definition first16 (s : string) : string := String.substring 0 16 s.

(** The classification both fan-outs compute for one pair: [None] when the
    [if is_contained or is_intersecting] test fails, else [is_contained]
    and, for a route that is not contained, [overlap_pct]. *)
Definition fanout_conflict (original_zone_shape zone_shape route_shape : geom)
  : result (option (bool * option pynum)) :=
  let! is_contained :=
    is_contained_of original_zone_shape zone_shape route_shape in
  let! is_intersecting := intersects route_shape zone_shape in
  if is_contained || is_intersecting then
    if is_contained then Ok (Some (true, None))
    else
      let! pct := overlap_pct route_shape zone_shape in
      Ok (Some (false, Some pct))
  else Ok None.

Definition ANONYMOUS : string := "anonymous".

(** [users_to_notify]: the owner unless anonymous, and whoever has the
    route among their favourites (at most 5000 favourites are read).
    A Python set has no specified iteration order; [elements] fixes one,
    and no statement below depends on it. *)
Definition users_to_notify (route : Route) (db : Database) : gset string :=
  let owner : gset string :=
    if String.eqb (r_user_id route) ANONYMOUS then ∅
    else {[ r_user_id route ]} in
  let favs :=
    firstn 5000
      (List.filter (fun fav => String.eqb (f_route_id fav) (r_id route))
         (db_favorites db)) in
  owner ∪ list_to_set (map f_user_id favs).

Definition whose (is_owner : bool) : string :=
  if is_owner then "Your" else "Favorite".

(** The notification of [check_routes_against_new_zone] for one user. *)
Definition zone_draft (zone_doc : Zone) (route : Route)
    (verdict : bool * option pynum) (uid : string) : Draft :=
  let '(is_contained, pct) := verdict in
  let conflict_type := if is_contained then "contained" else "intersects" in
  let overlap_pct := default (PyFloat 100) pct in
  let is_owner := String.eqb uid (r_user_id route) in
  let assoc := default EmptyString (z_association_name zone_doc) in
  let active :=
    "Active: " +:+ first16 (z_start_time zone_doc) +:+ " - "
    +:+ first16 (z_end_time zone_doc) +:+ "." +:+ nl in
  let title :=
    if is_contained then
      "CRITICAL: " +:+ whose is_owner +:+ " route '" +:+ r_name route
      +:+ "' inside new zone"
    else
      "WARNING: " +:+ whose is_owner +:+ " route '" +:+ r_name route
      +:+ "' crosses new zone" in
  let message :=
    if is_contained then
      whose is_owner +:+ " route '" +:+ r_name route
      +:+ "' is completely inside " +:+ "the new hunting zone '"
      +:+ z_name zone_doc +:+ "' (" +:+ assoc +:+ ")." +:+ nl +:+ active
      +:+ "Do NOT use this route during hunting hours."
    else
      whose is_owner +:+ " route '" +:+ r_name route +:+ "' intersects ("
      +:+ py_format overlap_pct +:+ "%) " +:+ "with the new hunting zone '"
      +:+ z_name zone_doc +:+ "' (" +:+ assoc +:+ ")." +:+ nl +:+ active
      +:+ "Review this route before heading out." in
  {| dr_user_id := uid;
     dr_notif_type := "zone_conflict";
     dr_title := title;
     dr_message := message;
     dr_data :=
       {| d_route_id := r_id route;
          d_route_name := r_name route;
          d_zone_id := z_id zone_doc;
          d_zone_name := z_name zone_doc;
          d_conflict_type := conflict_type;
          d_zone_start := z_start_time zone_doc;
          d_zone_end := z_end_time zone_doc |} |}.

(** The body of the inner [try] of [check_routes_against_new_zone]: the
    notifications one route gives rise to. *)
Definition zone_route_drafts (zone_doc : Zone)
    (original_zone_shape zone_shape : geom) (db : Database) (route : Route)
  : result (list Draft) :=
  let! route_shape := shape (r_geometry route) in
  let! verdict :=
    fanout_conflict original_zone_shape zone_shape route_shape in
  match verdict with
  | Some v =>
      Ok (map (zone_draft zone_doc route v)
            (elements (users_to_notify route db)))
  | None => Ok []
  end.

(** One turn of the [for route in all_routes] loop, with its [except]. *)
Definition zone_route_step (zone_doc : Zone)
    (original_zone_shape zone_shape : geom) (db : Database) (route : Route)
  : Database :=
  match zone_route_drafts zone_doc original_zone_shape zone_shape db route with
  | Ok drafts => fold_left create_notification drafts db
  | Raise _ => db
  end.

(** [check_routes_against_new_zone(zone_doc)] *)
Definition check_routes_against_new_zone (zone_doc : Zone) (db : Database)
  : Database :=
  match (let! zone_shape := shape (zone_geom zone_doc) in
         let! original_zone_shape := shape (z_geometry zone_doc) in
         Ok (zone_shape, original_zone_shape)) with
  | Ok (zone_shape, original_zone_shape) =>
      let all_routes := firstn 5000 (db_routes db) in
      fold_left (zone_route_step zone_doc original_zone_shape zone_shape)
        all_routes db
  | Raise _ => db
  end.

(** The notification of [check_uploaded_route_against_zones] for one zone. *)
Definition upload_draft (route_doc : Route) (user_id : string) (zone : Zone)
    (verdict : bool * option pynum) : Draft :=
  let '(is_contained, pct) := verdict in
  let conflict_type := if is_contained then "contained" else "intersects" in
  let overlap_pct := default (PyFloat 100) pct in
  let assoc := default EmptyString (z_association_name zone) in
  let active :=
    "Active period: " +:+ first16 (z_start_time zone) +:+ " - "
    +:+ first16 (z_end_time zone) +:+ "." +:+ nl in
  let title :=
    if is_contained then
      "CRITICAL: '" +:+ r_name route_doc +:+ "' is inside hunting zone '"
      +:+ z_name zone +:+ "'"
    else
      "WARNING: '" +:+ r_name route_doc +:+ "' crosses hunting zone '"
      +:+ z_name zone +:+ "'" in
  let message :=
    if is_contained then
      "Your newly uploaded route '" +:+ r_name route_doc
      +:+ "' is completely inside " +:+ "the hunting zone '" +:+ z_name zone
      +:+ "' (" +:+ assoc +:+ ")." +:+ nl +:+ active
      +:+ "Do NOT use this route during hunting hours."
    else
      "Your route '" +:+ r_name route_doc +:+ "' intersects ("
      +:+ py_format overlap_pct +:+ "%) with " +:+ "the hunting zone '"
      +:+ z_name zone +:+ "' (" +:+ assoc +:+ ")." +:+ nl +:+ active
      +:+ "Avoid this area during hunting hours." in
  {| dr_user_id := user_id;
     dr_notif_type := "route_warning";
     dr_title := title;
     dr_message := message;
     dr_data :=
       {| d_route_id := r_id route_doc;
          d_route_name := r_name route_doc;
          d_zone_id := z_id zone;
          d_zone_name := z_name zone;
          d_conflict_type := conflict_type;
          d_zone_start := z_start_time zone;
          d_zone_end := z_end_time zone |} |}.

(** The body of the inner [try] of [check_uploaded_route_against_zones]. *)
Definition upload_zone_drafts (route_doc : Route) (user_id : string)
    (route_shape : geom) (zone : Zone) : result (list Draft) :=
  let! zone_shape := shape (zone_geom zone) in
  let! original_zone_shape := shape (z_geometry zone) in
  let! verdict :=
    fanout_conflict original_zone_shape zone_shape route_shape in
  match verdict with
  | Some v => Ok [upload_draft route_doc user_id zone v]
  | None => Ok []
  end.

Definition upload_zone_step (route_doc : Route) (user_id : string)
    (route_shape : geom) (db : Database) (zone : Zone) : Database :=
  match upload_zone_drafts route_doc user_id route_shape zone with
  | Ok drafts => fold_left create_notification drafts db
  | Raise _ => db
  end.

(** [find({"end_time": {"$gte": now}}).to_list(5000)] *)
Definition upcoming_zones (db : Database) : list Zone :=
  firstn 5000
    (List.filter (fun zone => String.leb utcnow (z_end_time zone))
       (db_zones db)).

(** [check_uploaded_route_against_zones(route_doc, user_id)] *)
Definition check_uploaded_route_against_zones (route_doc : Route)
    (user_id : string) (db : Database) : Database :=
  match shape (r_geometry route_doc) with
  | Ok route_shape =>
      fold_left (upload_zone_step route_doc user_id route_shape)
        (upcoming_zones db) db
  | Raise _ => db
  end.

(** What a background task does once it runs. *)
Definition run_task (task : Task) (db : Database) : Database :=
  match task with
  | CheckRoutesAgainstNewZone zone_doc =>
      check_routes_against_new_zone zone_doc db
  | CheckUploadedRouteAgainstZones route_doc user_id =>
      check_uploaded_route_against_zones route_doc user_id db
  end.

(** ** Route upload *)

(** [upload_route(file, name, authorization)]: [user] is what
    [get_optional_user] returned, [content_str] the decoded file. *)
Definition upload_route (content_str : string) (filename : option string)
    (name : string) (user : option User) (db : Database)
  : result (Route * Database * list Task) :=
  match gpx_parse content_str with
  | Raise e => Raise (HTTPException 400 ("Invalid GPX file: " +:+ exn_str e))
  | Ok gpx =>
      let track_points := concat (concat (gpx_tracks gpx)) in
      let coordinates :=
        if (List.length track_points <? 2)%nat
        then track_points ++ gpx_waypoints gpx
        else track_points in
      if (List.length coordinates <? 2)%nat
      then Raise (HTTPException 400 "GPX file has insufficient points")
      else
        let geometry := LineString_dict coordinates in
        let route_name :=
          default "Unnamed Route"
            (match str_truthy (Some name) with
             | Some n => Some n
             | None =>
                 match str_truthy (gpx_name gpx) with
                 | Some n => Some n
                 | None => str_truthy filename
                 end
             end) in
        let '(route_id, db1) := draw_uuid db in
        let user_id :=
          match user with Some u => u_id u | None => ANONYMOUS end in
        let route_doc :=
          {| r_id := route_id;
             r_name := route_name;
             r_geometry := geometry;
             r_user_id := user_id;
             r_file_name := filename;
             r_is_public := true;
             r_owner_name :=
               match user with Some u => u_name u | None => "Anonymous" end;
             r_created_at := utcnow |} in
        let db2 :=
          {| db_zones := db_zones db1;
             db_routes := db_routes db1 ++ [route_doc];
             db_favorites := db_favorites db1;
             db_notifications := db_notifications db1;
             db_uuids := db_uuids db1 |} in
        let tasks :=
          match user with
          | Some _ =>
              if negb (String.eqb user_id ANONYMOUS)
              then [CheckUploadedRouteAgainstZones route_doc user_id]
              else []
          | None => []
          end in
        Ok (route_doc, db2, tasks)
  end.

End Server.

(** ** The other endpoints

    The routes of the API that read and write the same collections.  The
    caller's [user] is what [get_current_user] returned.  The unique
    indexes that [startup_db] asks the database for are not modelled:
    where a statement needs identifiers to be distinct, it says so. *)

(** [update_one]: the first document that matches is rewritten. *)
Fixpoint update_first {A : Type} (p : A -> bool) (f : A -> A) (l : list A)
  : list A :=
  match l with
  | [] => []
  | x :: rest => if p x then f x :: rest else x :: update_first p f rest
  end.

(** [delete_one]: the first document that matches is removed. *)
Fixpoint delete_first {A : Type} (p : A -> bool) (l : list A) : list A :=
  match l with
  | [] => []
  | x :: rest => if p x then rest else x :: delete_first p rest
  end.

(** [v is not None] *)
Definition is_set {A : Type} (o : option A) : bool :=
  match o with
  | Some _ => true
  | None => false
  end.

(** [s.split(sep)] for a separator of one character. *)
Fixpoint py_split (sep : ascii) (s : string) : list string :=
  match s with
  | EmptyString => [EmptyString]
  | String c rest =>
      if Ascii.eqb c sep then EmptyString :: py_split sep rest
      else match py_split sep rest with
           | word :: words => String c word :: words
           | [] => [String c EmptyString]
           end
  end.

Section Endpoints.

Context {geojson geom : Type} {K : Shapely geojson geom}.

Local Abbreviation Zone := (@Zone geojson).
Local Abbreviation Route := (@Route geojson).
Local Abbreviation Database := (@Database geojson).

Variable utcnow : string.
Variable uuid4 : nat -> string.
Variable py_format : pynum -> string.

Definition set_zones (zones : list Zone) (db : Database) : Database :=
  {| db_zones := zones; db_routes := db_routes db;
     db_favorites := db_favorites db;
     db_notifications := db_notifications db; db_uuids := db_uuids db |}.

Definition set_routes (routes : list Route) (db : Database) : Database :=
  {| db_zones := db_zones db; db_routes := routes;
     db_favorites := db_favorites db;
     db_notifications := db_notifications db; db_uuids := db_uuids db |}.

Definition set_favorites (favorites : list Favorite) (db : Database)
  : Database :=
  {| db_zones := db_zones db; db_routes := db_routes db;
     db_favorites := favorites;
     db_notifications := db_notifications db; db_uuids := db_uuids db |}.

Definition set_notifications (notifications : list Notification)
    (db : Database) : Database :=
  {| db_zones := db_zones db; db_routes := db_routes db;
     db_favorites := db_favorites db;
     db_notifications := notifications; db_uuids := db_uuids db |}.

(** *** Zones *)

Definition has_zone_id (zone_id : string) (zone : Zone) : bool :=
  String.eqb (z_id zone) zone_id.

(** [db.zones.find_one({"id": zone_id})] *)
Definition find_zone (zone_id : string) (db : Database) : option Zone :=
  List.find (has_zone_id zone_id) (db_zones db).

(** [get_my_zones(user)] *)
Definition get_my_zones (user : User) (db : Database) : list Zone :=
  firstn 1000
    (List.filter (fun zone => String.eqb (z_created_by zone) (u_id user))
       (db_zones db)).

(** [get_zone(zone_id)] *)
Definition get_zone (zone_id : string) (db : Database) : result Zone :=
  match find_zone zone_id db with
  | Some zone => Ok zone
  | None => Raise (HTTPException 404 "Zone not found")
  end.

Record ZoneUpdate : Type := {
  zu_name : option string;
  zu_description : option string;
  zu_geometry : option geojson;
  zu_start_time : option string;
  zu_end_time : option string;
  zu_buffer_meters : option Z
}.

(** [update_data], the fields of the request that are not [None], is not
    empty. *)
Definition has_update (data : ZoneUpdate) : bool :=
  is_set (zu_name data) || is_set (zu_description data)
  || is_set (zu_geometry data) || is_set (zu_start_time data)
  || is_set (zu_end_time data) || is_set (zu_buffer_meters data).

(** [update_data["buffered_geometry"]], when the request changes the
    polygon or the buffer.  [update_data.get("buffer_meters",
    zone["buffer_meters"])] reads the zone's own buffer before it looks at
    the request, so a zone document without one raises. *)
Definition updated_buffer (zone : Zone) (data : ZoneUpdate)
  : result (option geojson) :=
  match zu_geometry data with
  | Some geometry =>
      match z_buffer_meters zone with
      | None => Raise (PyException "KeyError: 'buffer_meters'")
      | Some zone_buffer =>
          let buffer_m := default zone_buffer (zu_buffer_meters data) in
          Ok (Some (compute_buffer geometry buffer_m))
      end
  | None =>
      match zu_buffer_meters data with
      | Some buffer_meters =>
          Ok (Some (compute_buffer (z_geometry zone) buffer_meters))
      | None => Ok None
      end
  end.

(** [{"$set": update_data}] on a zone document. *)
Definition set_zone_fields (data : ZoneUpdate) (buffered : option geojson)
    (zone : Zone) : Zone :=
  {| z_id := z_id zone;
     z_name := default (z_name zone) (zu_name data);
     z_description := default (z_description zone) (zu_description data);
     z_geometry := default (z_geometry zone) (zu_geometry data);
     z_buffered_geometry :=
       match buffered with
       | Some b => Some b
       | None => z_buffered_geometry zone
       end;
     z_start_time := default (z_start_time zone) (zu_start_time data);
     z_end_time := default (z_end_time zone) (zu_end_time data);
     z_buffer_meters :=
       match zu_buffer_meters data with
       | Some m => Some m
       | None => z_buffer_meters zone
       end;
     z_created_by := z_created_by zone;
     z_association_name := z_association_name zone;
     z_created_at := z_created_at zone |}.

(** [update_zone(zone_id, data, user)]: what the last [find_one] returns,
    and the database. *)
Definition update_zone (zone_id : string) (data : ZoneUpdate) (user : User)
    (db : Database) : result (option Zone * Database) :=
  if negb (String.eqb (u_role user) "admin")
  then Raise (HTTPException 403 "Only admins can update zones")
  else
    match find_zone zone_id db with
    | None => Raise (HTTPException 404 "Zone not found")
    | Some zone =>
        if negb (String.eqb (z_created_by zone) (u_id user))
        then Raise (HTTPException 403 "You can only edit your own zones")
        else
          let! buffered := updated_buffer zone data in
          let db' :=
            if has_update data
            then set_zones
                   (update_first (has_zone_id zone_id)
                      (set_zone_fields data buffered) (db_zones db)) db
            else db in
          Ok (find_zone zone_id db', db')
    end.

(** [delete_zone(zone_id, user)] *)
Definition delete_zone (zone_id : string) (user : User) (db : Database)
  : result (string * Database) :=
  if negb (String.eqb (u_role user) "admin")
  then Raise (HTTPException 403 "Only admins can delete zones")
  else
    match find_zone zone_id db with
    | None => Raise (HTTPException 404 "Zone not found")
    | Some zone =>
        if negb (String.eqb (z_created_by zone) (u_id user))
        then Raise (HTTPException 403 "You can only delete your own zones")
        else
          Ok ("Zone deleted",
              set_zones (delete_first (has_zone_id zone_id) (db_zones db)) db)
    end.

(** *** Routes *)

Definition has_route_id (route_id : string) (route : Route) : bool :=
  String.eqb (r_id route) route_id.

(** [db.routes.find_one({"id": route_id})] *)
Definition find_route (route_id : string) (db : Database) : option Route :=
  List.find (has_route_id route_id) (db_routes db).

(** [get_routes(user)] *)
Definition get_routes (user : User) (db : Database) : list Route :=
  firstn 1000
    (List.filter (fun route => String.eqb (r_user_id route) (u_id user))
       (db_routes db)).

(** [get_route_detail(route_id)] *)
Definition get_route_detail (route_id : string) (db : Database)
  : result Route :=
  match find_route route_id db with
  | Some route => Ok route
  | None => Raise (HTTPException 404 "Route not found")
  end.

Definition set_is_public (is_public : bool) (route : Route) : Route :=
  {| r_id := r_id route; r_name := r_name route;
     r_geometry := r_geometry route; r_user_id := r_user_id route;
     r_file_name := r_file_name route; r_is_public := is_public;
     r_owner_name := r_owner_name route; r_created_at := r_created_at route |}.

(** [toggle_route_visibility(route_id, user)]: the new [is_public]. *)
Definition toggle_route_visibility (route_id : string) (user : User)
    (db : Database) : result (bool * Database) :=
  match find_route route_id db with
  | None => Raise (HTTPException 404 "Route not found")
  | Some route =>
      if negb (String.eqb (r_user_id route) (u_id user))
      then Raise (HTTPException 403 "Not your route")
      else
        let new_vis := negb (r_is_public route) in
        Ok (new_vis,
            set_routes
              (update_first (has_route_id route_id) (set_is_public new_vis)
                 (db_routes db)) db)
  end.

(** [delete_route(route_id, user)] *)
Definition delete_route (route_id : string) (user : User) (db : Database)
  : result (string * Database) :=
  match find_route route_id db with
  | None => Raise (HTTPException 404 "Route not found")
  | Some route =>
      if negb (String.eqb (r_user_id route) (u_id user))
      then Raise (HTTPException 403 "Not your route")
      else
        Ok ("Route deleted",
            set_routes (delete_first (has_route_id route_id) (db_routes db))
              db)
  end.

(** *** Favourites *)

(** The document [add_favorite] builds and returns.  [db_favorites] keeps
    of it the fields that the favourite endpoints below and the fan-out
    read. *)
Record FavoriteDoc : Type := {
  fd_id : string;
  fd_user_id : string;
  fd_route_id : string;
  fd_route_name : string;
  fd_owner_name : string;
  fd_created_at : string
}.

Definition stored_favorite (doc : FavoriteDoc) : Favorite :=
  {| f_id := fd_id doc; f_user_id := fd_user_id doc;
     f_route_id := fd_route_id doc |}.

(** The query [{"user_id": user_id, "route_id": route_id}]. *)
Definition is_favorite (user_id route_id : string) (fav : Favorite) : bool :=
  String.eqb (f_user_id fav) user_id && String.eqb (f_route_id fav) route_id.

(** [add_favorite(route_id, user)] *)
Definition add_favorite (route_id : string) (user : User) (db : Database)
  : result (FavoriteDoc * Database) :=
  match find_route route_id db with
  | None => Raise (HTTPException 404 "Route not found")
  | Some route =>
      match List.find (is_favorite (u_id user) route_id) (db_favorites db) with
      | Some _ => Raise (HTTPException 400 "Already in favorites")
      | None =>
          let '(fav_id, db1) := draw_uuid uuid4 db in
          let fav_doc :=
            {| fd_id := fav_id;
               fd_user_id := u_id user;
               fd_route_id := route_id;
               fd_route_name := r_name route;
               fd_owner_name := r_owner_name route;
               fd_created_at := utcnow |} in
          Ok (fav_doc,
              set_favorites (db_favorites db1 ++ [stored_favorite fav_doc])
                db1)
      end
  end.

(** [remove_favorite(route_id, user)] *)
Definition remove_favorite (route_id : string) (user : User) (db : Database)
  : result (string * Database) :=
  match List.find (is_favorite (u_id user) route_id) (db_favorites db) with
  | None => Raise (HTTPException 404 "Not in favorites")
  | Some _ =>
      Ok ("Removed from favorites",
          set_favorites
            (delete_first (is_favorite (u_id user) route_id)
               (db_favorites db)) db)
  end.

(** [get_favorite_ids(user)] *)
Definition get_favorite_ids (user : User) (db : Database) : list string :=
  map f_route_id
    (firstn 500
       (List.filter (fun fav => String.eqb (f_user_id fav) (u_id user))
          (db_favorites db))).

(** *** The inbox *)

Definition n_user_id (n : Notification) : string := dr_user_id (n_draft n).

(** The query [{"user_id": user_id, "read": False}]. *)
Definition is_unread_of (user_id : string) (n : Notification) : bool :=
  String.eqb (n_user_id n) user_id && negb (n_read n).

(** The query [{"id": notification_id, "user_id": user_id}]. *)
Definition is_notification (notification_id user_id : string)
    (n : Notification) : bool :=
  String.eqb (n_id n) notification_id && String.eqb (n_user_id n) user_id.

Definition set_read (n : Notification) : Notification :=
  {| n_id := n_id n; n_draft := n_draft n; n_read := true;
     n_created_at := n_created_at n |}.

(** [get_unread_count(user)], the number under ["count"]. *)
Definition get_unread_count (user : User) (db : Database) : nat :=
  List.length (List.filter (is_unread_of (u_id user)) (db_notifications db)).

(** [mark_notification_read(notification_id, user)]: [modified_count] is
    0 when no notification matches and when the one that matches is
    already read. *)
Definition mark_notification_read (notification_id : string) (user : User)
    (db : Database) : result (string * Database) :=
  match List.find (is_notification notification_id (u_id user))
          (db_notifications db) with
  | Some n =>
      if n_read n
      then Raise (HTTPException 404 "Notification not found")
      else
        Ok ("Marked as read",
            set_notifications
              (update_first (is_notification notification_id (u_id user))
                 set_read (db_notifications db)) db)
  | None => Raise (HTTPException 404 "Notification not found")
  end.

(** [mark_all_read(user)] *)
Definition mark_all_read (user : User) (db : Database) : string * Database :=
  ("All marked as read",
   set_notifications
     (map (fun n => if is_unread_of (u_id user) n then set_read n else n)
        (db_notifications db)) db).

(** [delete_notification(notification_id, user)] *)
Definition delete_notification (notification_id : string) (user : User)
    (db : Database) : string * Database :=
  ("Deleted",
   set_notifications
     (delete_first (is_notification notification_id (u_id user))
        (db_notifications db)) db).

(** *** The report *)

(** One entry of the list [intersecting] of [generate_pdf_report]. *)
Record ReportRow : Type := {
  row_name : string;
  row_association : string;
  row_start : string;
  row_end : string;
  row_overlap : string
}.

(** The body of the [try] of the loop of [generate_pdf_report]. *)
Definition report_row (route_shape : geom) (zone : Zone)
  : result (option ReportRow) :=
  let! zone_shape := shape (zone_geom zone) in
  let! is_intersecting := intersects route_shape zone_shape in
  if is_intersecting then
    let! pct := overlap_pct route_shape zone_shape in
    Ok (Some {| row_name := z_name zone;
                row_association :=
                  default EmptyString (z_association_name zone);
                row_start := z_start_time zone;
                row_end := z_end_time zone;
                row_overlap := py_format pct +:+ "%" |})
  else Ok None.

Fixpoint report_rows (route_shape : geom) (active_zones : list Zone)
  : list ReportRow :=
  match active_zones with
  | [] => []
  | zone :: rest =>
      match report_row route_shape zone with
      | Ok (Some row) => row :: report_rows route_shape rest
      | Ok None => report_rows route_shape rest
      | Raise _ => report_rows route_shape rest
      end
  end.

(** [s[:n]] *)
Definition py_prefix (n : nat) (s : string) : string := String.substring 0 n s.

(** The five cells of the line of the table for one entry. *)
Definition report_cells (z : ReportRow) : list string :=
  [py_prefix 25 (row_name z);
   py_prefix 20 (row_association z);
   py_prefix 16 (row_start z);
   py_prefix 16 (row_end z);
   row_overlap z].

(** The texts of the [pdf.cell] calls, line by line, in the order the
    document is drawn.  [generated] is
    [datetime.now(timezone.utc).strftime('%Y-%m-%d %H:%M UTC')]. *)
Definition report_lines (route_name check_time generated : string)
    (intersecting : list ReportRow) : list (list string) :=
  [["RangeGuard - Safety Report"];
   ["Route: " +:+ route_name];
   ["Check Time: " +:+ check_time];
   ["Generated: " +:+ generated]]
  ++ match intersecting with
     | _ :: _ =>
         [["WARNING: "
           +:+ py_format (PyInt (Z.of_nat (List.length intersecting)))
           +:+ " intersection(s) found!"];
          ["Zone Name"; "Association"; "Start"; "End"; "Overlap"]]
         ++ map report_cells intersecting
     | [] => [["SAFE: No intersections with active hunting zones."]]
     end
  ++ [["This report is informational. Always verify locally and follow "
       +:+ "safety guidelines."];
      ["RangeGuard - Promoting coexistence between hikers and hunters."]].

(** [generate_pdf_report(data)]: the texts the document is drawn from.
    The layout, the fonts and the bytes of the file are FPDF's. *)
Definition generate_pdf_report (generated : string)
    (data : @IntersectionRequest geojson) (db : Database)
  : result (list (list string)) :=
  let check_time := default utcnow (str_truthy (ir_check_time data)) in
  let! named :=
    match str_truthy (ir_route_id data) with
    | Some route_id =>
        match find_route route_id db with
        | None => Raise (HTTPException 404 "Route not found")
        | Some route => Ok (Some (r_geometry route), r_name route)
        end
    | None => Ok (ir_route_geometry data, "Uploaded Route")
    end in
  match fst named with
  | None => Raise (HTTPException 400 "No route geometry provided")
  | Some g =>
      if negb (geojson_truthy g)
      then Raise (HTTPException 400 "No route geometry provided")
      else
        let active_zones := active_zones_at check_time db in
        let! route_shape := shape g in
        let intersecting := report_rows route_shape active_zones in
        Ok (report_lines (snd named) check_time generated intersecting)
  end.

End Endpoints.

(** ** Accounts

    [jwt] and [bcrypt] are parameters; the users are a collection of their
    own. *)

(** What [jwt.decode] does with a token: the payload, of which the server
    reads ["user_id"], or one of the exceptions. *)
Inductive jwt_outcome : Type :=
| JwtPayload (user_id : option string)
| ExpiredSignatureError
| InvalidTokenError
| JwtOtherError (msg : string).

Record UserDoc : Type := {
  ud_id : string;
  ud_email : string;
  ud_password_hash : string;
  ud_name : string;
  ud_role : string;
  ud_organization_name : string;
  ud_cif : string;
  ud_created_at : string
}.

Record UserRegister : Type := {
  ur_email : string;
  ur_password : string;
  ur_name : string;
  ur_role : string;
  ur_organization_name : option string;
  ur_cif : option string
}.

Record UserLogin : Type := {
  ul_email : string;
  ul_password : string
}.

(** The ["user"] part of the answers of [register], [login] and [get_me]. *)
Record UserView : Type := {
  uv_id : string;
  uv_email : string;
  uv_name : string;
  uv_role : string;
  uv_organization_name : string;
  uv_created_at : string
}.

Record AuthResponse : Type := {
  ar_token : string;
  ar_user : UserView
}.

Record UserStore : Type := {
  us_users : list UserDoc;
  (** how many [uuid4()] identifiers and [gensalt()] salts were drawn *)
  us_uuids : nat;
  us_salts : nat
}.

Section Accounts.

Variable utcnow : string.
(** [datetime.now(timezone.utc).timestamp()] *)
Variable utc_timestamp : Q.
Variable uuid4 : nat -> string.
(** [jwt.encode({"user_id": u, "role": r, "exp": e}, JWT_SECRET)] *)
Variable jwt_encode : string -> string -> Q -> string.
(** [jwt.decode(token, JWT_SECRET)] *)
Variable jwt_decode : string -> jwt_outcome.
(** [bcrypt.hashpw(password, salt)], by the number of the salt drawn *)
Variable bcrypt_hashpw : string -> nat -> string.
Variable bcrypt_checkpw : string -> string -> bool.

(** [create_token(user_id, role)] *)
Definition create_token (user_id role : string) : string :=
  jwt_encode user_id role (utc_timestamp + 86400 * 7)%Q.

(** [verify_password(password, hashed)] *)
Definition verify_password (password hashed : string) : bool :=
  bcrypt_checkpw password hashed.

(** [db.users.find_one({"id": user_id})] *)
Definition find_user (user_id : string) (users : list UserDoc)
  : option UserDoc :=
  List.find (fun u => String.eqb (ud_id u) user_id) users.

(** [db.users.find_one({"email": email})] *)
Definition find_email (email : string) (users : list UserDoc)
  : option UserDoc :=
  List.find (fun u => String.eqb (ud_email u) email) users.

(** [not authorization or not authorization.startswith("Bearer ")] *)
Definition no_bearer (authorization : option string) : bool :=
  match str_truthy authorization with
  | None => true
  | Some header => negb (String.prefix "Bearer " header)
  end.

(** [authorization.split(" ")[1]] *)
Definition bearer_token (header : string) : result string :=
  match nth_error (py_split " "%char header) 1 with
  | Some token => Ok token
  | None => Raise (PyException "IndexError: list index out of range")
  end.

(** [get_current_user(authorization)] *)
Definition get_current_user (authorization : option string)
    (users : list UserDoc) : result UserDoc :=
  if no_bearer authorization
  then Raise (HTTPException 401 "Not authenticated")
  else
    let! token := bearer_token (default EmptyString authorization) in
    match jwt_decode token with
    | JwtPayload (Some user_id) =>
        match find_user user_id users with
        | Some user => Ok user
        | None => Raise (HTTPException 401 "User not found")
        end
    | JwtPayload None => Raise (PyException "KeyError: 'user_id'")
    | ExpiredSignatureError => Raise (HTTPException 401 "Token expired")
    | InvalidTokenError => Raise (HTTPException 401 "Invalid token")
    | JwtOtherError msg => Raise (PyException msg)
    end.

(** [get_optional_user(authorization)] *)
Definition get_optional_user (authorization : option string)
    (users : list UserDoc) : option UserDoc :=
  if no_bearer authorization then None
  else
    match bearer_token (default EmptyString authorization) with
    | Ok token =>
        match jwt_decode token with
        | JwtPayload (Some user_id) => find_user user_id users
        | _ => None
        end
    | Raise _ => None
    end.

Definition user_view (user : UserDoc) : UserView :=
  {| uv_id := ud_id user; uv_email := ud_email user;
     uv_name := ud_name user; uv_role := ud_role user;
     uv_organization_name := ud_organization_name user;
     uv_created_at := ud_created_at user |}.

(** [get_me(user)] *)
Definition get_me (user : UserDoc) : UserView := user_view user.

(** [register(data)] *)
Definition register (data : UserRegister) (store : UserStore)
  : result (AuthResponse * UserStore) :=
  match find_email (ur_email data) (us_users store) with
  | Some _ => Raise (HTTPException 400 "Email already registered")
  | None =>
      let user_id := uuid4 (us_uuids store) in
      let user_doc :=
        {| ud_id := user_id;
           ud_email := ur_email data;
           ud_password_hash :=
             bcrypt_hashpw (ur_password data) (us_salts store);
           ud_name := ur_name data;
           ud_role := ur_role data;
           ud_organization_name :=
             default EmptyString (str_truthy (ur_organization_name data));
           ud_cif := default EmptyString (str_truthy (ur_cif data));
           ud_created_at := utcnow |} in
      Ok ({| ar_token := create_token user_id (ur_role data);
             ar_user := user_view user_doc |},
          {| us_users := us_users store ++ [user_doc];
             us_uuids := S (us_uuids store);
             us_salts := S (us_salts store) |})
  end.

(** [login(data)] *)
Definition login (data : UserLogin) (store : UserStore)
  : result AuthResponse :=
  match find_email (ul_email data) (us_users store) with
  | Some user =>
      if verify_password (ul_password data) (ud_password_hash user)
      then Ok {| ar_token := create_token (ud_id user) (ud_role user);
                 ar_user := user_view user |}
      else Raise (HTTPException 401 "Invalid credentials")
  | None => Raise (HTTPException 401 "Invalid credentials")
  end.

End Accounts.

(** [get_stats()] *)
Record Stats : Type := {
  total_zones : nat;
  active_zones : nat;
  total_users : nat;
  total_routes : nat
}.

Definition get_stats {geojson : Type} (utcnow : string)
    (db : @Database geojson) (users : list UserDoc) : Stats :=
  {| total_zones := List.length (db_zones db);
     active_zones :=
       List.length (List.filter (active_at utcnow) (db_zones db));
     total_users := List.length users;
     total_routes := List.length (db_routes db) |}.

(** ** A planar instance of the geometry library

    Rectangles with sides parallel to the axes, what [buffer] makes of
    them, and horizontal segments.  On these shapes the predicates are
    those of plane geometry.  The instance is partial: a polygon that is
    not such a rectangle, a line that is not a horizontal segment, and a
    segment at the height of a round corner of a buffer are [outside] it,
    where it raises although shapely has an answer; no scenario below runs
    into them.  Only a ring or a line with too few points is [malformed]:
    shapely refuses to build it.  Coordinates are doubles, and the
    scenarios keep to values whose sums and differences are doubles too. *)

Module Planar.

Inductive dict : Type :=
(** [{"type": "Polygon", "coordinates": [ring]}] *)
| Polygon (ring : list (Q * Q))
(** the [mapping] of the polygon [ring] buffered by [distance]; its
    vertices are not listed *)
| BufferedPolygon (ring : list (Q * Q)) (distance : Q)
(** [{"type": "LineString", "coordinates": pts}] *)
| LineString (pts : list (Q * Q))
(** [{}] *)
| EmptyDict.

Inductive geometry : Type :=
(** the rectangle [x0, x1] x [y0, y1] *)
| Box (x0 y0 x1 y1 : Q)
(** that rectangle buffered by [d]: the points at distance at most [d]
    from it when [0 < d], the rectangle itself when [d] is 0, and the
    points of it at distance at least [-d] from its boundary otherwise *)
| Dilated (x0 y0 x1 y1 d : Q)
(** the segment from [(a, y)] to [(b, y)] *)
| HSeg (a b y : Q)
(** the empty geometry *)
| Nothing.

(** The instance has no answer. *)
Definition outside {A : Type} : result A :=
  Raise (PyException "outside the planar instance").

(** Shapely refuses the coordinates. *)
Definition malformed {A : Type} : result A :=
  Raise (PyException "too few points").

(** A ring that starts at the lower left corner and runs counterclockwise. *)
Definition box_of_ring (ring : list (Q * Q)) : option (Q * Q * Q * Q) :=
  match ring with
  | [(ax, ay); (bx, b_y); (cx, cy); (dx, dy); (ex, ey)] =>
      if Qeq_bool ay b_y && Qeq_bool bx cx && Qeq_bool cy dy
         && Qeq_bool dx ax && Qeq_bool ex ax && Qeq_bool ey ay
         && Qltb ax bx && Qltb ay cy
      then Some (ax, ay, bx, cy)
      else None
  | _ => None
  end.

Definition ring_of_box (x0 y0 x1 y1 : Q) : list (Q * Q) :=
  [(x0, y0); (x1, y0); (x1, y1); (x0, y1); (x0, y0)].

(** A ring of one or two points, a line of one point. *)
Definition too_few (least : nat) (pts : list (Q * Q)) : bool :=
  (0 <? List.length pts)%nat && (List.length pts <? least)%nat.

Definition shape (d : dict) : result geometry :=
  match d with
  | Polygon ring =>
      if too_few 3 ring then malformed
      else
        match box_of_ring ring with
        | Some (x0, y0, x1, y1) => Ok (Box x0 y0 x1 y1)
        | None => outside
        end
  | BufferedPolygon ring dist =>
      match box_of_ring ring with
      | Some (x0, y0, x1, y1) => Ok (Dilated x0 y0 x1 y1 dist)
      | None => outside
      end
  | LineString pts =>
      if too_few 2 pts then malformed
      else
        match pts with
        | [(a, y); (b, y')] =>
            if Qeq_bool y y' then Ok (HSeg a b y) else outside
        | _ => outside
        end
  | EmptyDict => Raise (PyException "no type")
  end.

Definition mapping (g : geometry) : result dict :=
  match g with
  | Box x0 y0 x1 y1 => Ok (Polygon (ring_of_box x0 y0 x1 y1))
  | Dilated x0 y0 x1 y1 d => Ok (BufferedPolygon (ring_of_box x0 y0 x1 y1) d)
  | HSeg a b y => Ok (LineString [(a, y); (b, y)])
  | Nothing => outside
  end.

Definition buffer (g : geometry) (d : Q) : result geometry :=
  match g with
  | Box x0 y0 x1 y1 => Ok (Dilated x0 y0 x1 y1 d)
  | _ => outside
  end.

Definition Qmin (a b : Q) : Q := if Qle_bool a b then a else b.
Definition Qmax (a b : Q) : Q := if Qle_bool a b then b else a.

(** Whether what a negative buffer leaves of the rectangle has an
    interior. *)
Definition eroded_nonempty (x0 y0 x1 y1 d : Q) : bool :=
  Qltb (x0 - d) (x1 + d) && Qltb (y0 - d) (y1 + d).

(** The section of a polygon by the horizontal line at height [y]:
    [Some (Some (l, r))] is the interval [l, r], [Some None] the empty
    section, [None] a height where the boundary is a round corner. *)
Definition section_at (g : geometry) (y : Q) : option (option (Q * Q)) :=
  match g with
  | Box x0 y0 x1 y1 =>
      if Qle_bool y0 y && Qle_bool y y1 then Some (Some (x0, x1))
      else Some None
  | Dilated x0 y0 x1 y1 d =>
      if Qltb 0 d then
        if Qle_bool y0 y && Qle_bool y y1 then Some (Some (x0 - d, x1 + d)%Q)
        else if Qltb y (y0 - d) || Qltb (y1 + d) y then Some None
        else None
      else if eroded_nonempty x0 y0 x1 y1 d
              && Qle_bool (y0 - d) y && Qle_bool y (y1 + d)
      then Some (Some (x0 - d, x1 + d)%Q)
      else Some None
  | _ => None
  end.

(** Whether the line at height [y] meets the interior of the polygon. *)
Definition inside_height (g : geometry) (y : Q) : bool :=
  match g with
  | Box x0 y0 x1 y1 => Qltb y0 y && Qltb y y1
  | Dilated x0 y0 x1 y1 d =>
      (Qltb 0 d || eroded_nonempty x0 y0 x1 y1 d)
      && Qltb (y0 - d) y && Qltb y (y1 + d)
  | _ => false
  end.

(** [poly.contains(seg)]: no point of the segment outside the polygon and
    one of them in its interior. *)
Definition contains (poly seg : geometry) : result bool :=
  match seg with
  | HSeg a b y =>
      match section_at poly y with
      | Some (Some (l, r)) =>
          let lo := Qmin a b in
          let hi := Qmax a b in
          if Qeq_bool lo hi
          then Ok (inside_height poly y && Qltb l lo && Qltb hi r)
          else Ok (inside_height poly y && Qle_bool l lo && Qle_bool hi r)
      | Some None => Ok false
      | None => outside
      end
  | _ => outside
  end.

Definition meets (poly : geometry) (a b y : Q) : result (option (Q * Q)) :=
  match section_at poly y with
  | Some (Some (l, r)) =>
      let lo := Qmax (Qmin a b) l in
      let hi := Qmin (Qmax a b) r in
      if Qle_bool lo hi then Ok (Some (lo, hi)) else Ok None
  | Some None => Ok None
  | None => outside
  end.

(** [a.intersects(b)] for a segment and a polygon, in either order. *)
Definition intersects (g1 g2 : geometry) : result bool :=
  match g1, g2 with
  | HSeg a b y, (Box _ _ _ _ | Dilated _ _ _ _ _)  =>
      let! m := meets g2 a b y in Ok (bool_decide (is_Some m))
  | (Box _ _ _ _ | Dilated _ _ _ _ _), HSeg a b y =>
      let! m := meets g1 a b y in Ok (bool_decide (is_Some m))
  | _, _ => outside
  end.

(** [seg.intersection(poly)] *)
Definition intersection (g1 g2 : geometry) : result geometry :=
  match g1, g2 with
  | HSeg a b y, (Box _ _ _ _ | Dilated _ _ _ _ _) =>
      let! m := meets g2 a b y in
      match m with
      | Some (lo, hi) => Ok (HSeg lo hi y)
      | None => Ok Nothing
      end
  | _, _ => outside
  end.

(** [g.length], a double.  The server measures routes and what a zone
    cuts out of them, here segments; the perimeter of a buffered
    rectangle, which has round corners, is not computed. *)
Definition geom_length (g : geometry) : pyfloat :=
  match g with
  | Box x0 y0 x1 y1 => fl (2 * ((x1 - x0) + (y1 - y0)))
  | Dilated x0 y0 x1 y1 d => NaN
  | HSeg a b y => fl (Qmax a b - Qmin a b)
  | Nothing => Finite 0
  end.

Definition truthy (d : dict) : bool :=
  match d with
  | EmptyDict => false
  | _ => true
  end.

#[global] Instance planar : Shapely dict geometry :=
  Build_Shapely dict geometry truthy LineString
    shape mapping buffer contains intersects intersection geom_length.

End Planar.

(** ** A scenario on the planar instance

    One zone, the rectangle [2, 6] x [0, 2] with a buffer of 111320 m (one
    degree), created through [create_zone]; routes along the line of
    height 1. *)

Module Scenario.
Import Planar.

Local Abbreviation Zone := (@Zone dict).
Local Abbreviation Route := (@Route dict).
Local Abbreviation ZoneCreate := (@ZoneCreate dict).
Local Abbreviation Database := (@Database dict).
Local Abbreviation IntersectionRequest := (@IntersectionRequest dict).

Definition now : string := "2024-06-01T12:00:00+00:00".
Definition june : string := "2024-06-01T12:00:00".

Definition digit (n : nat) : string :=
  String (ascii_of_nat (48 + n mod 10)) EmptyString.

(** Decimal text of a number below 10000. *)
Definition decimal (n : nat) : string :=
  (if (n <? 1000)%nat then EmptyString else digit (n / 1000))
  +:+ (if (n <? 100)%nat then EmptyString else digit (n / 100))
  +:+ (if (n <? 10)%nat then EmptyString else digit (n / 10))
  +:+ digit n.

Definition uuid (n : nat) : string := "uuid-" +:+ decimal n.

(** The text of a number between 0 and 1000; a float is one that
    [round(x, 1)] returned. *)
Definition format (n : pynum) : string :=
  match n with
  | PyInt z => decimal (Z.to_nat z)
  | PyFloat (Finite q) =>
      let tenths := Z.to_nat (round_half_even (q * 10)) in
      decimal (tenths / 10) +:+ "." +:+ digit tenths
  | PyFloat PosInf => "inf"
  | PyFloat NegInf => "-inf"
  | PyFloat NaN => "nan"
  end.

(** The files the scenario uploads, already parsed. *)
Definition parse (content : string) : result GPX :=
  if String.eqb content "crossing.gpx" then
    Ok {| gpx_name := Some "Crossing";
          gpx_tracks := [[[(0, 1); (10, 1)]]]%Q;
          gpx_waypoints := [] |}
  else if String.eqb content "inside.gpx" then
    Ok {| gpx_name := Some "Inside";
          gpx_tracks := [[[(3, 1); (5, 1)]]]%Q;
          gpx_waypoints := [] |}
  else Raise (PyException "not a GPX file").

Definition admin : User :=
  {| u_id := "admin-1"; u_name := "Ana"; u_role := "admin";
     u_organization_name := Some "Club de Caza" |}.

Definition hiker : User :=
  {| u_id := "hiker-1"; u_name := "Luis"; u_role := "user";
     u_organization_name := Some EmptyString |}.

Definition raw_polygon : dict := Polygon (ring_of_box 2 0 6 2)%Q.

Definition zone_data : ZoneCreate :=
  {| zc_name := "Coto Norte";
     zc_description := None;
     zc_geometry := raw_polygon;
     zc_start_time := "2024-01-01T00:00:00";
     zc_end_time := "2024-12-31T23:59:59";
     zc_buffer_meters := 111320 |}.

Definition mk_route (id name : string) (pts : list (Q * Q)) (owner : string)
  : Route :=
  {| r_id := id; r_name := name; r_geometry := LineString pts;
     r_user_id := owner; r_file_name := None; r_is_public := true;
     r_owner_name := "Luis"; r_created_at := now |}.

(** crosses the rectangle from side to side *)
Definition crossing : Route :=
  mk_route "r-cross" "Crossing" [(0, 1); (10, 1)]%Q "hiker-1".
(** stops inside the buffer, half a degree short of the rectangle *)
Definition margin : Route :=
  mk_route "r-margin" "Margin" [(0, 1); (3 # 2, 1)]%Q "hiker-1".
(** lies inside the rectangle *)
Definition inside : Route :=
  mk_route "r-inside" "Inside" [(3, 1); (5, 1)]%Q "hiker-1".
(** two coincident points on the edge of the buffer *)
Definition degenerate : Route :=
  mk_route "r-point" "Point" [(1, 1); (1, 1)]%Q "hiker-1".
(** a line of one point: [shape] raises on it *)
Definition broken : Route :=
  mk_route "r-bad" "Bad" [(0, 0)]%Q "hiker-1".

Definition empty_db : Database :=
  {| db_zones := []; db_routes := []; db_favorites := [];
     db_notifications := []; db_uuids := 0 |}.

Definition with_routes (routes : list Route) (db : Database) : Database :=
  {| db_zones := db_zones db; db_routes := routes;
     db_favorites := db_favorites db;
     db_notifications := db_notifications db; db_uuids := db_uuids db |}.

(** The zone document [create_zone] stores for [zone_data]. *)
Definition the_zone : Zone :=
  {| z_id := "uuid-0";
     z_name := "Coto Norte";
     z_description := EmptyString;
     z_geometry := raw_polygon;
     z_buffered_geometry :=
       Some (BufferedPolygon (ring_of_box 2 0 6 2)%Q (111320 # 111320));
     z_start_time := "2024-01-01T00:00:00";
     z_end_time := "2024-12-31T23:59:59";
     z_buffer_meters := Some 111320%Z;
     z_created_by := "admin-1";
     z_association_name := Some "Club de Caza";
     z_created_at := now |}.

Definition zone_db : Database :=
  {| db_zones := [the_zone]; db_routes := []; db_favorites := [];
     db_notifications := []; db_uuids := 1 |}.

Definition route_shape_of (route : Route) : geometry :=
  match shape (r_geometry route) with
  | Ok g => g
  | Raise _ => Nothing
  end.

Definition request (route : Route) : IntersectionRequest :=
  {| ir_route_id := None;
     ir_route_geometry := Some (r_geometry route);
     ir_check_time := Some june |}.

(** a ring of two points: [shape] raises on it *)
Definition bad_polygon : dict := Polygon [(0, 0); (1, 0)]%Q.

Definition bad_zone : Zone :=
  {| z_id := "z-bad";
     z_name := "Coto Roto";
     z_description := EmptyString;
     z_geometry := bad_polygon;
     z_buffered_geometry := Some bad_polygon;
     z_start_time := "2024-01-01T00:00:00";
     z_end_time := "2024-12-31T23:59:59";
     z_buffer_meters := Some 200%Z;
     z_created_by := "admin-1";
     z_association_name := None;
     z_created_at := now |}.

Definition with_zones (zones : list Zone) (db : Database) : Database :=
  {| db_zones := zones; db_routes := db_routes db;
     db_favorites := db_favorites db;
     db_notifications := db_notifications db; db_uuids := db_uuids db |}.

(** the rectangle and its dilation by one degree *)
Definition raw_shape : geometry := Box 2 0 6 2.
Definition buffered_shape : geometry := Dilated 2 0 6 2 (111320 # 111320).

(** who a notification is for, about which route, with which verdict *)
Definition summary (n : Notification) : string * string * string :=
  (dr_user_id (n_draft n), d_route_id (dr_data (n_draft n)),
   d_conflict_type (dr_data (n_draft n))).

(** 1001 zones, all active through 2024. *)
Definition numbered_zone (i : nat) : Zone :=
  {| z_id := "zone-" +:+ decimal i;
     z_name := "Coto";
     z_description := EmptyString;
     z_geometry := raw_polygon;
     z_buffered_geometry := Some (BufferedPolygon (ring_of_box 2 0 6 2)%Q 0);
     z_start_time := "2024-01-01T00:00:00";
     z_end_time := "2024-12-31T23:59:59";
     z_buffer_meters := Some 0%Z;
     z_created_by := "admin-1";
     z_association_name := None;
     z_created_at := now |}.

Definition many_zones : Database :=
  {| db_zones := map numbered_zone (seq 0 1001); db_routes := [];
     db_favorites := []; db_notifications := []; db_uuids := 0 |}.

End Scenario.

(** ** More of the scenario: stored routes, favourites, an inbox,
    accounts *)

Module Cases.
Import Planar Scenario.

Local Abbreviation Database := (@Database dict).
Local Abbreviation ZoneUpdate := (@ZoneUpdate dict).

Definition walker : User :=
  {| u_id := "walker-2"; u_name := "Eva"; u_role := "user";
     u_organization_name := Some EmptyString |}.

(** the zone and three stored routes *)
Definition route_db : Database :=
  with_routes [crossing; margin; inside] zone_db.

(** [walker] has the route inside the zone among their favourites *)
Definition fav_db : Database :=
  {| db_zones := [the_zone]; db_routes := [crossing; margin; inside];
     db_favorites :=
       [{| f_id := "f-1"; f_user_id := "walker-2"; f_route_id := "r-inside" |}];
     db_notifications := []; db_uuids := 2 |}.

(** the inbox after the fan-out for the zone *)
Definition notified_db : Database :=
  check_routes_against_new_zone now uuid format the_zone route_db.

(** a request that removes the buffer of the zone *)
Definition no_buffer : ZoneUpdate :=
  {| zu_name := None; zu_description := None; zu_geometry := None;
     zu_start_time := None; zu_end_time := None;
     zu_buffer_meters := Some 0%Z |}.

(** Stand-ins for [jwt] and [bcrypt]: the token is the user id, the hash
    the password after a mark. *)
Definition encode (user_id role : string) (exp : Q) : string := user_id.
Definition decode (token : string) : jwt_outcome := JwtPayload (Some token).
Definition hashpw (password : string) (salt : nat) : string :=
  "$2b$" +:+ password.
Definition checkpw (password hashed : string) : bool :=
  String.eqb hashed ("$2b$" +:+ password).

Definition luis : UserDoc :=
  {| ud_id := "hiker-1"; ud_email := "hiker@test.com";
     ud_password_hash := "$2b$test1234"; ud_name := "Luis";
     ud_role := "user"; ud_organization_name := EmptyString;
     ud_cif := EmptyString; ud_created_at := now |}.

Definition one_user : UserStore :=
  {| us_users := [luis]; us_uuids := 1; us_salts := 1 |}.

Definition eva : UserRegister :=
  {| ur_email := "eva@test.com"; ur_password := "secret";
     ur_name := "Eva"; ur_role := "user";
     ur_organization_name := None; ur_cif := None |}.

End Cases.

(** ** Vocabulary of the statements *)

(** A float that is a number between [lo] and [hi]. *)
Definition float_between (lo hi : Q) (x : pyfloat) : Prop :=
  exists v : Q, x = Finite v /\ (lo <= v <= hi)%Q.

(** A float that is a number and not negative. *)
Definition float_nonneg (x : pyfloat) : Prop :=
  exists v : Q, x = Finite v /\ (0 <= v)%Q.

(** A float that is not negative: a number or the positive infinity. *)
Definition nonneg_or_inf (x : pyfloat) : Prop := x = PosInf \/ float_nonneg x.

(** The double of a decimal with one digit after the point. *)
Definition one_decimal (x : pyfloat) : Prop := exists z : Z, x = fl (z # 10).

(** The call returns, it does not raise. *)
Definition returns {A : Type} (r : result A) : Prop := exists a, r = Ok a.

(** The stored buffered polygon of a zone is the buffer of its stored
    polygon by its stored distance. *)
Definition zone_buffer_ok {geojson geom : Type} {K : Shapely geojson geom}
    (zone : @Zone geojson) : Prop :=
  exists m,
    z_buffer_meters zone = Some m /\
    z_buffered_geometry zone = Some (compute_buffer (z_geometry zone) m).

(** Who has which route among their favourites. *)
Definition favorite_key (fav : Favorite) : string * string :=
  (f_user_id fav, f_route_id fav).

(** What one turn of the loop of [check_route_against_zones] appends. *)
Definition conflict_or_nil {A : Type} (r : result (option A)) : list A :=
  match r with
  | Ok (Some conflict) => [conflict]
  | Ok None | Raise _ => []
  end.

(** What a caught exception leaves of a list of drafts. *)
Definition drafts_or_nil {A : Type} (r : result (list A)) : list A :=
  match r with
  | Ok drafts => drafts
  | Raise _ => []
  end.

(** * Properties *)

(** ** Exceptions and numbers *)

Lemma bind_ok {A B : Type} (m : result A) (k : A -> result B) (b : B) :
  bind m k = Ok b -> exists a, m = Ok a /\ k a = Ok b.
Proof. destruct m as [a|e]; simpl; [eauto | discriminate]. Qed.

Lemma bind_raise {A B : Type} (m : result A) (k : A -> result B) (e : exn) :
  bind m k = Raise e ->
  m = Raise e \/ exists a, m = Ok a /\ k a = Raise e.
Proof. destruct m as [a|e']; simpl; [eauto | intros [= ->]; auto]. Qed.

(** Splits a hypothesis [bind m k = Ok b] into its two steps. *)
Ltac bind_inv H :=
  let a := fresh "a" in
  let Ha := fresh "H" a in
  apply bind_ok in H; destruct H as (a & Ha & H).

Lemma Qltb_lt (a b : Q) : Qltb a b = true <-> (a < b)%Q.
Proof.
  unfold Qltb. rewrite negb_true_iff, <- not_true_iff_false, Qle_bool_iff.
  split; [apply Qnot_le_lt | apply Qlt_not_le].
Qed.

Lemma Qltb_ge (a b : Q) : Qltb a b = false <-> (b <= a)%Q.
Proof. unfold Qltb. rewrite negb_false_iff. apply Qle_bool_iff. Qed.

Lemma round_half_even_bounds (q : Q) :
  (Qfloor q <= round_half_even q <= Qfloor q + 1)%Z.
Proof.
  unfold round_half_even.
  destruct (Qcompare _ _); [destruct (Z.even _) | |]; lia.
Qed.

Lemma round_half_even_nonneg (q : Q) : (0 <= q)%Q -> (0 <= round_half_even q)%Z.
Proof.
  intros Hq. pose proof (round_half_even_bounds q) as [Hlo _].
  assert (0 <= Qfloor q)%Z; [| lia].
  change 0%Z with (Qfloor 0). now apply Qfloor_resp_le.
Qed.

Lemma pow2_pos (e : Z) : (0 < pow2 e)%Q.
Proof. unfold pow2. apply Qpower_0_lt. reflexivity. Qed.

Lemma fl_nonneg (q : Q) : (0 <= q)%Q -> nonneg_or_inf (fl q).
Proof.
  intros Hq. unfold fl.
  destruct (Qeq_bool q 0).
  { right. exists 0%Q. split; [reflexivity | apply Qle_refl]. }
  cbv zeta.
  assert (Hq' : Qle_bool 0 q = true) by now apply Qle_bool_iff.
  rewrite Hq'.
  destruct (Qle_bool (pow2 1024) _); [now left |].
  right. eexists. split; [reflexivity |].
  rewrite Qred_correct. apply Qmult_le_0_compat.
  - change 0%Q with (inject_Z 0). rewrite <- Zle_Qle.
    apply round_half_even_nonneg. apply Qle_shift_div_l; [apply pow2_pos |].
    rewrite Qmult_0_l. apply Qabs_nonneg.
  - apply Qlt_le_weak, pow2_pos.
Qed.

Lemma fl_zero (q : Q) : (q == 0)%Q -> fl q = Finite 0.
Proof.
  intros Hq. unfold fl. apply Qeq_bool_iff in Hq. now rewrite Hq.
Qed.

Lemma float_ltb_0_pos (x : pyfloat) :
  float_ltb 0 x = true ->
  x = PosInf \/ exists v, x = Finite v /\ (0 < v)%Q.
Proof.
  destruct x as [v| | |]; simpl; try discriminate; [| now left].
  intros H. apply Qltb_lt in H. right. eauto.
Qed.

Lemma float_div_nonneg (a b : pyfloat) :
  float_nonneg a ->
  (b = PosInf \/ exists v, b = Finite v /\ (0 < v)%Q) ->
  nonneg_or_inf (float_div a b).
Proof.
  intros (p & -> & Hp) [-> | (q & -> & Hq)]; simpl.
  - right. exists 0%Q. split; [reflexivity | apply Qle_refl].
  - apply fl_nonneg. apply Qle_shift_div_l; [assumption |].
    now rewrite Qmult_0_l.
Qed.

Lemma float_mul_100_nonneg (x : pyfloat) :
  nonneg_or_inf x -> nonneg_or_inf (float_mul x 100).
Proof.
  intros [-> | (v & -> & Hv)]; simpl; [now left |].
  apply fl_nonneg.
  rewrite <- (Qmult_0_l 100). apply Qmult_le_compat_r; [assumption |].
  discriminate.
Qed.

Lemma py_round1_nonneg (x : pyfloat) :
  nonneg_or_inf x ->
  py_round1 x = PosInf \/
  (float_nonneg (py_round1 x) /\ one_decimal (py_round1 x)).
Proof.
  intros [-> | (v & -> & Hv)]; simpl; [now left |].
  assert (Hz : (0 <= round_half_even (v * 10))%Z).
  { apply round_half_even_nonneg.
    rewrite <- (Qmult_0_l 10). apply Qmult_le_compat_r; [assumption |].
    discriminate. }
  destruct (fl_nonneg (round_half_even (v * 10) # 10)) as [H | H].
  - unfold Qle. simpl. lia.
  - now left.
  - right. split; [assumption |]. now eexists.
Qed.

(** [min(x, 100)] of a rounded float that is not negative. *)
Lemma py_min_100 (x : pyfloat) :
  x = PosInf \/ (float_nonneg x /\ one_decimal x) ->
  let m := pynum_val (py_min (PyFloat x) (PyInt 100)) in
  float_between 0 100 m /\ one_decimal m.
Proof.
  assert (H100 : float_between 0 100 (Finite (inject_Z 100))
                 /\ one_decimal (Finite (inject_Z 100))).
  { split; [exists (inject_Z 100); repeat split; discriminate |].
    exists 1000%Z. vm_compute. reflexivity. }
  intros [-> | ((v & -> & Hv) & Hd)]; unfold py_min; simpl pynum_val.
  - exact H100.
  - simpl float_ltb.
    destruct (Qltb (inject_Z 100) v) eqn:Hlt; simpl pynum_val; [exact H100 |].
    apply Qltb_ge in Hlt. split; [| assumption].
    exists v. repeat split; assumption.
Qed.

Section Properties.

Set Default Proof Using "Type".

Context {geojson geom : Type} {K : Shapely geojson geom}.

Local Abbreviation Zone := (@Zone geojson).
Local Abbreviation Route := (@Route geojson).
Local Abbreviation ZoneCreate := (@ZoneCreate geojson).
Local Abbreviation Conflict := (@Conflict geojson).
Local Abbreviation Database := (@Database geojson).
Local Abbreviation Task := (@Task geojson).
Local Abbreviation IntersectionRequest := (@IntersectionRequest geojson).
Local Abbreviation IntersectionResult := (@IntersectionResult geojson).

(** ** The classifier *)

Lemma route_length_pos (route_shape : geom) :
  route_length route_shape = PosInf \/
  exists v, route_length route_shape = Finite v /\ (0 < v)%Q.
Proof.
  unfold route_length.
  destruct (float_ltb 0 (geom_length route_shape)) eqn:H.
  - now apply float_ltb_0_pos.
  - right. exists 1%Q. split; reflexivity.
Qed.

(** The division by the route length never raises. *)
Lemma overlap_of_length_ok (len : pyfloat) (route_shape : geom) :
  overlap_of_length len route_shape =
  Ok (py_min
        (PyFloat (py_round1
                    (float_mul (float_div len (route_length route_shape)) 100)))
        (PyInt 100)).
Proof.
  unfold overlap_of_length, py_truediv.
  destruct (float_is_zero (route_length route_shape)) eqn:H; [| reflexivity].
  destruct (route_length_pos route_shape) as [Hr | (v & Hr & Hv)];
    rewrite Hr in H; simpl in H; [discriminate |].
  apply Qeq_bool_iff in H. rewrite H in Hv. discriminate Hv.
Qed.

Lemma overlap_pct_inv (route_shape zone_shape : geom) (pct : pynum) :
  overlap_pct route_shape zone_shape = Ok pct ->
  exists inter,
    intersection route_shape zone_shape = Ok inter /\
    pct = py_min
            (PyFloat (py_round1
                        (float_mul
                           (float_div (geom_length inter)
                              (route_length route_shape)) 100)))
            (PyInt 100).
Proof.
  unfold overlap_pct. intros H. bind_inv H.
  rewrite overlap_of_length_ok in H. injection H as <-. eauto.
Qed.

(** An overlap percentage is a float with one decimal between 0 and 100,
    or the int 100, as soon as the intersection has a length. *)
Lemma overlap_bounds (len : pyfloat) (route_shape : geom) :
  float_nonneg len ->
  let pct :=
    py_min
      (PyFloat (py_round1
                  (float_mul (float_div len (route_length route_shape)) 100)))
      (PyInt 100) in
  float_between 0 100 (pynum_val pct) /\ one_decimal (pynum_val pct).
Proof.
  intros Hlen. apply py_min_100, py_round1_nonneg, float_mul_100_nonneg.
  apply float_div_nonneg; [assumption | apply route_length_pos].
Qed.

(** The four outcomes of [check_zone] when no call raises. *)
Lemma check_zone_cases (route_shape : geom) (zone : Zone) (v : option Conflict) :
  check_zone route_shape zone = Ok v ->
  exists zone_shape original_zone_shape c i w,
    shape (zone_geom zone) = Ok zone_shape /\
    shape (z_geometry zone) = Ok original_zone_shape /\
    is_contained_of original_zone_shape zone_shape route_shape = Ok c /\
    intersects route_shape zone_shape = Ok i /\
    is_within_buffer_of original_zone_shape zone_shape route_shape = Ok w /\
    ((c = true /\ v = Some (mk_conflict zone (PyFloat 100) "contained")) \/
     (c = false /\ i = true /\ w = true /\
      exists pct, overlap_pct route_shape zone_shape = Ok pct /\
                  v = Some (mk_conflict zone pct "buffer")) \/
     (c = false /\ i = true /\ w = false /\
      exists pct, overlap_pct route_shape zone_shape = Ok pct /\
                  v = Some (mk_conflict zone pct "intersects")) \/
     (c = false /\ i = false /\ v = None)).
Proof.
  unfold check_zone. intros H.
  bind_inv H. bind_inv H. bind_inv H. bind_inv H. bind_inv H.
  rename a into zs, a0 into os, a1 into c, a2 into i, a3 into w.
  exists zs, os, c, i, w. repeat (split; [assumption |]).
  destruct c; simpl in H.
  - left. injection H as <-. auto.
  - destruct i; simpl in H.
    + destruct w; bind_inv H; injection H as <-; [right; left | right; right; left];
        eauto 10.
    + right; right; right. injection H as <-. auto.
Qed.


Lemma check_route_against_zones_flat_map (route_shape : geom)
    (zones : list Zone) :
  check_route_against_zones route_shape zones
  = flat_map (fun zone => conflict_or_nil (check_zone route_shape zone)) zones.
Proof.
  induction zones as [|zone zones IH]; simpl; [reflexivity |].
  destruct (check_zone route_shape zone) as [[c|]|e]; simpl; now rewrite IH.
Qed.

Lemma check_route_against_zones_In (route_shape : geom) (zones : list Zone)
    (c : Conflict) :
  In c (check_route_against_zones route_shape zones) <->
  exists zone, In zone zones /\ check_zone route_shape zone = Ok (Some c).
Proof.
  induction zones as [|zone zones IH]; simpl.
  - split; [tauto | intros (z & [] & _)].
  - destruct (check_zone route_shape zone) as [[c'|]|e] eqn:Hz; simpl;
      rewrite ?IH; split.
    + intros [<- | (z & Hin & Hc)]; eauto.
    + intros (z & [<- | Hin] & Hc); [left; congruence | eauto].
    + intros (z & Hin & Hc); eauto.
    + intros (z & [<- | Hin] & Hc); [congruence | eauto].
    + intros (z & Hin & Hc); eauto.
    + intros (z & [<- | Hin] & Hc); [congruence | eauto].
Qed.

(** C1, as the code has it: when the verdict is [intersects], the overlap
    percentage is [min(round(length(intersection(route, zone_shape)) /
    route_length * 100, 1), 100)], each operation that of the floats, where
    [zone_shape] is the shape of the stored buffered polygon (of the raw
    polygon only for a zone document without [buffered_geometry]), and
    [route_length] is the length of the route, or 1 when that is not
    positive. *)
Theorem C1_intersects_overlap_on_zone_shape
    (route_shape : geom) (zone : Zone) (c : Conflict) :
  check_zone route_shape zone = Ok (Some c) ->
  c_conflict_type c = "intersects" ->
  exists zone_shape inter,
    shape (default (z_geometry zone) (z_buffered_geometry zone))
      = Ok zone_shape /\
    intersection route_shape zone_shape = Ok inter /\
    c_overlap_percentage c =
      py_min
        (PyFloat (py_round1
                    (float_mul
                       (float_div (geom_length inter)
                          (if float_ltb 0 (geom_length route_shape)
                           then geom_length route_shape else 1))
                       100)))
        (PyInt 100).
Proof.
  intros H Hty. apply check_zone_cases in H.
  destruct H as (zs & os & b & i & w & Hzs & _ & _ & _ & _ & H).
  destruct H as [[_ [= ->]] | [(_ & _ & _ & p & _ & [= ->])
                  | [(_ & _ & _ & p & Hp & [= ->]) | (_ & _ & [=])]]];
    try discriminate Hty.
  apply overlap_pct_inv in Hp as (inter & Hi & ->).
  exists zs, inter. auto.
Qed.


(** C6: the classification of a pair returns whenever the calls of the
    geometry library for that pair do, whatever the length of the route:
    the division never raises.  For a route of length 0 the overlap that
    a [buffer] or an [intersects] verdict reports is the length of the
    intersection divided by 1.  And, the library measuring every
    intersection by a number that is not negative, every overlap
    percentage reported is between 0 and 100 and is a decimal with one
    digit after the point. *)
Theorem C6_overlap_is_total_and_bounded (route_shape : geom) :
  (forall zone_shape inter,
     intersection route_shape zone_shape = Ok inter ->
     float_nonneg (geom_length inter)) ->
  (forall zone zone_shape original_zone_shape,
     shape (zone_geom zone) = Ok zone_shape ->
     shape (z_geometry zone) = Ok original_zone_shape ->
     returns (is_contained_of original_zone_shape zone_shape route_shape) ->
     returns (intersects route_shape zone_shape) ->
     returns (is_within_buffer_of original_zone_shape zone_shape route_shape) ->
     returns (intersection route_shape zone_shape) ->
     returns (check_zone route_shape zone)) /\
  (float_is_zero (geom_length route_shape) = true ->
   forall zone c,
     check_zone route_shape zone = Ok (Some c) ->
     c_conflict_type c <> "contained" ->
     exists zone_shape inter,
       shape (zone_geom zone) = Ok zone_shape /\
       intersection route_shape zone_shape = Ok inter /\
       c_overlap_percentage c =
         py_min
           (PyFloat (py_round1
                       (float_mul (float_div (geom_length inter) 1) 100)))
           (PyInt 100)) /\
  (forall zone c,
     check_zone route_shape zone = Ok (Some c) ->
     float_between 0 100 (pynum_val (c_overlap_percentage c)) /\
     one_decimal (pynum_val (c_overlap_percentage c))).
Proof.
  intros Hlen. split; [| split].
  - intros zone zs os Hzs Hos [c Hc] [i Hi] [w Hw] [inter Hinter].
    unfold check_zone. rewrite Hzs, Hos. simpl. rewrite Hc. simpl.
    rewrite Hi. simpl. rewrite Hw. simpl.
    assert (Hp : returns (overlap_pct route_shape zs)).
    { unfold overlap_pct. rewrite Hinter. simpl.
      rewrite overlap_of_length_ok. now eexists. }
    destruct Hp as [pct Hp]. rewrite Hp.
    destruct c, i, w; simpl; now eexists.
  - intros H0 zone c H Hty. apply check_zone_cases in H.
    destruct H as (zs & os & b & i & w & Hzs & _ & _ & _ & _ & H).
    assert (Hr : route_length route_shape = 1%Q).
    { unfold route_length.
      destruct (geom_length route_shape) as [q| | |]; try discriminate H0.
      simpl in H0. apply Qeq_bool_iff in H0. simpl.
      destruct (Qltb 0 q) eqn:Hlt; [| reflexivity].
      apply Qltb_lt in Hlt. rewrite H0 in Hlt. discriminate Hlt. }
    destruct H as [[_ [= ->]] | [(_ & _ & _ & p & Hp & [= ->])
                    | [(_ & _ & _ & p & Hp & [= ->]) | (_ & _ & [=])]]];
      [now contradiction Hty | |];
      apply overlap_pct_inv in Hp as (inter & Hi & ->);
      exists zs, inter; rewrite <- Hr; auto.
  - intros zone c H. apply check_zone_cases in H.
    destruct H as (zs & os & b & i & w & _ & _ & _ & _ & _ & H).
    assert (Hpct : forall pct, overlap_pct route_shape zs = Ok pct ->
              float_between 0 100 (pynum_val pct)
              /\ one_decimal (pynum_val pct)).
    { intros pct Hp. apply overlap_pct_inv in Hp as (inter & Hi & ->).
      apply overlap_bounds. now apply Hlen in Hi. }
    destruct H as [[_ [= ->]] | [(_ & _ & _ & p & Hp & [= ->])
                    | [(_ & _ & _ & p & Hp & [= ->]) | (_ & _ & [=])]]];
      simpl; auto.
    split; [exists 100%Q; repeat split; discriminate |].
    exists 1000%Z. vm_compute. reflexivity.
Qed.

(** ** The on-demand check *)

Variable utcnow : string.
Variable uuid4 : nat -> string.
Variable gpx_parse : string -> result GPX.
Variable py_format : pynum -> string.



(** The two ways [check_intersection] answers. *)
Lemma check_intersection_ok (data : IntersectionRequest) (db : Database)
    (resp : IntersectionResult) :
  check_intersection utcnow data db = Ok resp ->
  let check_time := default utcnow (str_truthy (ir_check_time data)) in
  (active_zones_at check_time db = [] /\
   resp = {| res_intersects := false; res_zones := [];
             res_safe_message := MSG_NO_ACTIVE |}) \/
  (active_zones_at check_time db <> [] /\
   exists route_shape,
     resp = intersection_result
              (check_route_against_zones route_shape
                 (active_zones_at check_time db))).
Proof.
  unfold check_intersection. intros H. bind_inv H.
  destruct a as [g|]; [| discriminate].
  destruct (geojson_truthy g); simpl in H; [| discriminate].
  destruct (active_zones_at _ db) as [|zone zones] eqn:Hz.
  - left. injection H as <-. auto.
  - right. split; [discriminate |].
    destruct (shape g) as [route_shape|e]; [| discriminate].
    injection H as <-. eauto.
Qed.


(** C10: [intersects] is true exactly when the list of conflicts is not
    empty, so also when every conflict in it is [buffer]. *)
Theorem C10_intersects_iff_some_conflict
    (data : IntersectionRequest) (db : Database) (resp : IntersectionResult) :
  check_intersection utcnow data db = Ok resp ->
  (res_intersects resp = true <-> res_zones resp <> []) /\
  (res_zones resp <> [] ->
   Forall (fun c => c_conflict_type c = "buffer") (res_zones resp) ->
   res_intersects resp = true).
Proof.
  intros H.
  assert (Hiff : res_intersects resp = true <-> res_zones resp <> []).
  { apply check_intersection_ok in H.
    destruct H as [[_ ->] | (_ & route_shape & ->)]; simpl.
    - split; [discriminate | intros Hne; now contradiction Hne].
    - destruct (check_route_against_zones _ _); simpl; split;
        try discriminate; try reflexivity.
      intros Hne. now contradiction Hne. }
  split; [assumption |]. intros Hne _. now apply Hiff.
Qed.

(** ** Active zones *)

Lemma firstn_prefix {A : Type} (n : nat) (l : list A) :
  exists rest, l = firstn n l ++ rest.
Proof. exists (skipn n l). symmetry. apply firstn_skipn. Qed.

Lemma In_firstn {A : Type} (n : nat) (l : list A) (x : A) :
  In x (firstn n l) -> In x l.
Proof.
  intros H. rewrite <- (firstn_skipn n l). apply in_or_app. now left.
Qed.

(** C7, as the code has it: the zones selected for an instant are zones
    whose interval covers it under the byte-wise order of the timestamp
    strings, in store order: all of them when at most 1000 zones cover the
    instant, and the first 1000 of them otherwise.  [get_zones] selects
    the same way when it is given a date, or [active] alone. *)
Theorem C7_active_zones_first_thousand (check_time : string) (db : Database) :
  let covers zone :=
    String.leb (z_start_time zone) check_time = true /\
    String.leb check_time (z_end_time zone) = true in
  (forall zone, In zone (active_zones_at check_time db) ->
     In zone (db_zones db) /\ covers zone) /\
  List.length (active_zones_at check_time db)
  = Nat.min 1000
      (List.length (List.filter (active_at check_time) (db_zones db))) /\
  (exists rest,
     List.filter (active_at check_time) (db_zones db)
     = active_zones_at check_time db ++ rest) /\
  ((List.length (List.filter (active_at check_time) (db_zones db)) <= 1000)%nat ->
   forall zone, In zone (active_zones_at check_time db) <->
                In zone (db_zones db) /\ covers zone) /\
  (str_truthy (Some check_time) = Some check_time ->
   forall active,
     get_zones utcnow active (Some check_time) db
     = active_zones_at check_time db) /\
  get_zones utcnow (Some true) None db = active_zones_at utcnow db.
Proof.
  intros covers.
  assert (Hcov : forall zone, In zone (List.filter (active_at check_time) (db_zones db))
                  <-> In zone (db_zones db) /\ covers zone).
  { intros zone. rewrite filter_In. unfold active_at, covers.
    now rewrite andb_true_iff. }
  unfold active_zones_at. split; [| split; [| split; [| split; [| split]]]].
  - intros zone H. apply In_firstn, Hcov in H. exact H.
  - apply length_firstn.
  - apply firstn_prefix.
  - intros Hle zone. rewrite firstn_all2 by assumption. apply Hcov.
  - intros Hd active. unfold get_zones. rewrite Hd. now destruct active as [[]|].
  - reflexivity.
Qed.

(** ** The zone buffer *)

(** C8: when [shape], [buffer] or [mapping] raises, [compute_buffer]
    returns the raw polygon it was given, and [create_zone] stores the
    zone with that polygon as its buffered geometry. *)
Theorem C8_buffer_falls_back_to_raw_polygon
    (geometry : geojson) (buffer_meters : Z) (e : exn) :
  (shape geometry = Raise e \/
   (exists g, shape geometry = Ok g /\
              buffer g (inject_Z buffer_meters / 111320) = Raise e) \/
   (exists g buffered,
      shape geometry = Ok g /\
      buffer g (inject_Z buffer_meters / 111320) = Ok buffered /\
      mapping buffered = Raise e)) ->
  compute_buffer geometry buffer_meters = geometry /\
  forall data user db,
    zc_geometry data = geometry ->
    zc_buffer_meters data = buffer_meters ->
    u_role user = "admin" ->
    exists zone_doc db' tasks,
      create_zone utcnow uuid4 data user db = Ok (zone_doc, db', tasks) /\
      z_geometry zone_doc = geometry /\
      z_buffered_geometry zone_doc = Some geometry /\
      In zone_doc (db_zones db').
Proof.
  intros H.
  assert (Hb : compute_buffer geometry buffer_meters = geometry).
  { unfold compute_buffer.
    destruct H as [-> | [(g & -> & Hg) | (g & b & -> & Hg & Hm)]]; simpl;
      rewrite ?Hg; simpl; rewrite ?Hm; reflexivity. }
  split; [assumption |].
  intros data user db Hgeo Hm Hrole. unfold create_zone.
  rewrite Hrole, Hgeo, Hm, Hb. simpl.
  do 3 eexists. split; [reflexivity |]. simpl. repeat split.
  apply in_or_app. right. now left.
Qed.

(** ** Notifications *)

Lemma create_notification_drafts (db : Database) (draft : Draft) :
  map n_draft (db_notifications (create_notification utcnow uuid4 db draft))
  = map n_draft (db_notifications db) ++ [draft].
Proof. unfold create_notification. simpl. now rewrite map_app. Qed.

Lemma create_notification_favorites (db : Database) (draft : Draft) :
  db_favorites (create_notification utcnow uuid4 db draft) = db_favorites db.
Proof. reflexivity. Qed.

Lemma create_notifications_drafts (drafts : list Draft) (db : Database) :
  map n_draft
    (db_notifications (fold_left (create_notification utcnow uuid4) drafts db))
  = map n_draft (db_notifications db) ++ drafts.
Proof.
  revert db. induction drafts as [|d drafts IH]; intros db; simpl.
  - now rewrite app_nil_r.
  - rewrite IH, create_notification_drafts, <- app_assoc. reflexivity.
Qed.

Lemma create_notifications_favorites (drafts : list Draft) (db : Database) :
  db_favorites (fold_left (create_notification utcnow uuid4) drafts db)
  = db_favorites db.
Proof.
  revert db. induction drafts as [|d drafts IH]; intros db; simpl;
    [reflexivity | now rewrite IH].
Qed.

Lemma users_to_notify_favorites (route : Route) (db db' : Database) :
  db_favorites db = db_favorites db' ->
  users_to_notify route db = users_to_notify route db'.
Proof. unfold users_to_notify. now intros ->. Qed.

Lemma zone_route_drafts_favorites (zone_doc : Zone) (os zs : geom)
    (db db' : Database) (route : Route) :
  db_favorites db = db_favorites db' ->
  zone_route_drafts py_format zone_doc os zs db route
  = zone_route_drafts py_format zone_doc os zs db' route.
Proof.
  intros H. unfold zone_route_drafts.
  now rewrite (users_to_notify_favorites route db db' H).
Qed.

Lemma zone_route_drafts_raise (zone_doc : Zone) (os zs : geom)
    (db db' : Database) (route : Route) (e : exn) :
  zone_route_drafts py_format zone_doc os zs db route = Raise e ->
  zone_route_drafts py_format zone_doc os zs db' route = Raise e.
Proof.
  unfold zone_route_drafts.
  destruct (shape (r_geometry route)) as [rs|e1]; simpl; [| auto].
  destruct (fanout_conflict os zs rs) as [[v|]|e2]; simpl;
    [discriminate | discriminate | auto].
Qed.

(** The drafts the loop of [check_routes_against_new_zone] adds. *)
Lemma zone_fanout_fold (zone_doc : Zone) (os zs : geom) (db0 : Database)
    (routes : list Route) (db : Database) :
  db_favorites db = db_favorites db0 ->
  map n_draft
    (db_notifications
       (fold_left (zone_route_step utcnow uuid4 py_format zone_doc os zs)
          routes db))
  = map n_draft (db_notifications db)
    ++ flat_map
         (fun route =>
            drafts_or_nil (zone_route_drafts py_format zone_doc os zs db0 route))
         routes.
Proof.
  revert db. induction routes as [|route routes IH]; intros db Hfav; simpl.
  - now rewrite app_nil_r.
  - unfold zone_route_step at 2.
    rewrite (zone_route_drafts_favorites zone_doc os zs db db0 route Hfav).
    destruct (zone_route_drafts py_format zone_doc os zs db0 route)
      as [drafts|e]; simpl.
    + rewrite IH by (now rewrite create_notifications_favorites).
      now rewrite create_notifications_drafts, <- app_assoc.
    + now apply IH.
Qed.

(** What the fan-outs compute for a pair the classifier gives a verdict. *)
Lemma fanout_conflict_of_verdict (route_shape : geom) (zone : Zone)
    (zone_shape original_zone_shape : geom) (v : option Conflict) :
  shape (zone_geom zone) = Ok zone_shape ->
  shape (z_geometry zone) = Ok original_zone_shape ->
  check_zone route_shape zone = Ok v ->
  match v with
  | None => fanout_conflict original_zone_shape zone_shape route_shape = Ok None
  | Some c =>
      exists pct,
        fanout_conflict original_zone_shape zone_shape route_shape
        = Ok (Some (String.eqb (c_conflict_type c) "contained", pct))
  end.
Proof.
  intros Hzs Hos H. apply check_zone_cases in H.
  destruct H as (zs & os & b & i & w & Hzs' & Hos' & Hc & Hi & _ & H).
  rewrite Hzs in Hzs'. injection Hzs' as <-.
  rewrite Hos in Hos'. injection Hos' as <-.
  unfold fanout_conflict. rewrite Hc, Hi. simpl.
  destruct H as [[-> ->] | [(-> & -> & _ & p & Hp & ->)
                  | [(-> & -> & _ & p & Hp & ->) | (-> & -> & ->)]]]; simpl;
    rewrite ?Hp; simpl; eauto.
Qed.

(** C2, as the code has it: the drafts of the zone-creation fan-out are
    those of the routes it reads (the first 5000), route by route; a route
    gives rise to a draft exactly when the classifier gives it a verdict,
    [contained], [intersects] or [buffer], and it has a recipient (an owner
    who is not anonymous, or a user who has it as a favourite); the draft
    says [contained] for a contained route and [intersects] otherwise, also
    for a route that only touches the buffer. *)
Theorem C2_zone_fanout_notifies_every_conflict
    (zone_doc : Zone) (zone_shape original_zone_shape : geom) (db : Database) :
  shape (zone_geom zone_doc) = Ok zone_shape ->
  shape (z_geometry zone_doc) = Ok original_zone_shape ->
  map n_draft
    (db_notifications
       (check_routes_against_new_zone utcnow uuid4 py_format zone_doc db))
  = map n_draft (db_notifications db)
    ++ flat_map
         (fun route =>
            drafts_or_nil
              (zone_route_drafts py_format zone_doc original_zone_shape
                 zone_shape db route))
         (firstn 5000 (db_routes db)) /\
  forall route route_shape v,
    shape (r_geometry route) = Ok route_shape ->
    check_zone route_shape zone_doc = Ok v ->
    exists drafts,
      zone_route_drafts py_format zone_doc original_zone_shape zone_shape
        db route = Ok drafts /\
      (drafts <> [] <-> v <> None /\ users_to_notify route db <> ∅) /\
      forall d, In d drafts ->
        exists c,
          v = Some c /\
          d_conflict_type (dr_data d) =
            if String.eqb (c_conflict_type c) "contained"
            then "contained" else "intersects".
Proof.
  intros Hzs Hos. split.
  - unfold check_routes_against_new_zone. rewrite Hzs, Hos. simpl.
    now apply zone_fanout_fold.
  - intros route route_shape v Hrs Hv.
    pose proof (fanout_conflict_of_verdict _ _ _ _ _ Hzs Hos Hv) as Hf.
    unfold zone_route_drafts. rewrite Hrs. simpl.
    destruct v as [c|].
    + destruct Hf as (pct & ->). simpl. eexists. split; [reflexivity |].
      split.
      * split.
        -- intros Hne. split; [discriminate |]. intros Hempty.
           apply Hne. rewrite Hempty, elements_empty. reflexivity.
        -- intros [_ Hne] Hnil. apply Hne.
           apply map_eq_nil in Hnil.
           apply leibniz_equiv, elements_empty_iff, Hnil.
      * intros d Hin. apply in_map_iff in Hin as (uid & <- & _).
        exists c. split; [reflexivity |]. simpl.
        now destruct (String.eqb (c_conflict_type c) "contained").
    + rewrite Hf. simpl. exists []. split; [reflexivity |].
      split; [| intros d []].
      split; [intros Hne; now contradiction Hne | intros [Hne _]; now contradiction Hne].
Qed.

(** ** Route upload *)

(** C5, as the code has it: a route uploaded without an authenticated
    user starts no conflict check at all, and no notification is written. *)
Theorem C5_anonymous_upload_starts_no_check
    (content_str : string) (filename : option string) (name : string)
    (db : Database) (route_doc : Route) (db' : Database) (tasks : list Task) :
  upload_route utcnow uuid4 gpx_parse content_str filename name None db
    = Ok (route_doc, db', tasks) ->
  tasks = [] /\
  r_user_id route_doc = ANONYMOUS /\
  db_notifications db' = db_notifications db /\
  fold_left (fun d task => run_task utcnow uuid4 py_format task d) tasks db'
    = db'.
Proof.
  unfold upload_route. intros H.
  destruct (gpx_parse content_str) as [gpx|e]; [| discriminate].
  destruct (List.length _ <? 2)%nat; [discriminate |].
  injection H as <- <- <-. simpl. auto.
Qed.

(** ** Errors inside a batch *)

(** The drafts the loop of [check_uploaded_route_against_zones] adds. *)
Lemma upload_fanout_fold (route_doc : Route) (user_id : string)
    (route_shape : geom) (zones : list Zone) (db : Database) :
  map n_draft
    (db_notifications
       (fold_left
          (upload_zone_step utcnow uuid4 py_format route_doc user_id route_shape)
          zones db))
  = map n_draft (db_notifications db)
    ++ flat_map
         (fun zone =>
            drafts_or_nil
              (upload_zone_drafts py_format route_doc user_id route_shape zone))
         zones.
Proof.
  revert db. induction zones as [|zone zones IH]; intros db; simpl.
  - now rewrite app_nil_r.
  - unfold upload_zone_step at 2.
    destruct (upload_zone_drafts py_format route_doc user_id route_shape zone)
      as [drafts|e]; simpl.
    + now rewrite IH, create_notifications_drafts, <- app_assoc.
    + apply IH.
Qed.

(** C9: a pair whose processing raises adds no conflict and no draft, and
    the batch goes on with the other pairs: the on-demand check returns,
    zone by zone and in their order, the conflict the classifier finds for
    each of the other zones; the zone-creation fan-out writes the drafts of
    the other routes, the upload fan-out those of the other zones.  A
    fan-out whose own zone or route cannot be read, so that every pair of
    it fails, ends without a draft and without an exception. *)
Theorem C9_errors_are_isolated_per_pair :
  (forall (route_shape : geom) (zones1 : list Zone) (zone : Zone)
          (zones2 : list Zone) (e : exn),
     check_zone route_shape zone = Raise e ->
     check_route_against_zones route_shape (zones1 ++ zone :: zones2)
     = flat_map (fun other => conflict_or_nil (check_zone route_shape other))
         (zones1 ++ zones2)) /\
  (forall (zone_doc : Zone) (zone_shape original_zone_shape : geom)
          (db : Database) (routes1 : list Route) (route : Route)
          (routes2 : list Route) (e : exn),
     shape (zone_geom zone_doc) = Ok zone_shape ->
     shape (z_geometry zone_doc) = Ok original_zone_shape ->
     firstn 5000 (db_routes db) = routes1 ++ route :: routes2 ->
     zone_route_drafts py_format zone_doc original_zone_shape zone_shape
       db route = Raise e ->
     let drafts_of route :=
       drafts_or_nil
         (zone_route_drafts py_format zone_doc original_zone_shape
            zone_shape db route) in
     map n_draft
       (db_notifications
          (check_routes_against_new_zone utcnow uuid4 py_format zone_doc db))
     = map n_draft (db_notifications db)
       ++ flat_map drafts_of routes1 ++ flat_map drafts_of routes2) /\
  (forall (route_doc : Route) (user_id : string) (route_shape : geom)
          (db : Database) (zones1 : list Zone) (zone : Zone)
          (zones2 : list Zone) (e : exn),
     shape (r_geometry route_doc) = Ok route_shape ->
     upcoming_zones utcnow db = zones1 ++ zone :: zones2 ->
     upload_zone_drafts py_format route_doc user_id route_shape zone
       = Raise e ->
     let drafts_of zone :=
       drafts_or_nil
         (upload_zone_drafts py_format route_doc user_id route_shape zone) in
     map n_draft
       (db_notifications
          (check_uploaded_route_against_zones utcnow uuid4 py_format
             route_doc user_id db))
     = map n_draft (db_notifications db)
       ++ flat_map drafts_of zones1 ++ flat_map drafts_of zones2) /\
  (forall (zone_doc : Zone) (db : Database) (e : exn),
     shape (zone_geom zone_doc) = Raise e ->
     check_routes_against_new_zone utcnow uuid4 py_format zone_doc db = db) /\
  (forall (route_doc : Route) (user_id : string) (db : Database) (e : exn),
     shape (r_geometry route_doc) = Raise e ->
     check_uploaded_route_against_zones utcnow uuid4 py_format
       route_doc user_id db = db).
Proof.
  split; [| split; [| split; [| split]]].
  - intros route_shape zones1 zone zones2 e He.
    rewrite !check_route_against_zones_flat_map, !flat_map_app. simpl.
    now rewrite He.
  - intros zone_doc zs os db routes1 route routes2 e Hzs Hos Hall He drafts_of.
    unfold check_routes_against_new_zone. rewrite Hzs, Hos. simpl.
    rewrite (zone_fanout_fold zone_doc os zs db) by reflexivity.
    rewrite Hall, flat_map_app. simpl. now rewrite He.
  - intros route_doc user_id rs db zones1 zone zones2 e Hrs Hall He drafts_of.
    unfold check_uploaded_route_against_zones. rewrite Hrs.
    rewrite upload_fanout_fold, Hall, flat_map_app. simpl. now rewrite He.
  - intros zone_doc db e He. unfold check_routes_against_new_zone.
    now rewrite He.
  - intros route_doc user_id db e He.
    unfold check_uploaded_route_against_zones. now rewrite He.
Qed.

End Properties.

(** * The scenario, evaluated *)

Section Checks.
Import Scenario.

Local Abbreviation HSeg := Planar.HSeg.

(** [create_zone] stores [the_zone] and starts the fan-out for it. *)
Example create_zone_stores_the_zone :
  create_zone now uuid zone_data admin empty_db
  = Ok (the_zone, zone_db, [CheckRoutesAgainstNewZone the_zone]).
Proof. vm_compute. reflexivity. Qed.

Example the_zone_shapes :
  shape (zone_geom the_zone) = Ok buffered_shape /\
  shape (z_geometry the_zone) = Ok raw_shape.
Proof. split; reflexivity. Qed.

Lemma Qle_bool_false (a b : Q) : Qle_bool a b = false -> (b < a)%Q.
Proof. intros H. apply Qltb_lt. unfold Qltb. now rewrite H. Qed.

(** What a zone cuts out of a route that is a single point has length 0. *)
Lemma planar_point_intersection (x y : Q) (zone_shape inter : Planar.geometry) :
  Planar.intersection (HSeg x x y) zone_shape = Ok inter ->
  float_nonneg (Planar.geom_length inter).
Proof.
  assert (Hzero : float_nonneg (Finite 0)).
  { exists 0%Q. split; [reflexivity | apply Qle_refl]. }
  assert (Hmeets : forall lo hi,
            Planar.meets zone_shape x x y = Ok (Some (lo, hi)) ->
            float_nonneg (Planar.geom_length (HSeg lo hi y))).
  { unfold Planar.meets. intros lo hi H.
    destruct (Planar.section_at zone_shape y) as [[[l r]|]|];
      try discriminate H.
    simpl. rewrite fl_zero; [exact Hzero |].
    revert H. unfold Planar.Qmax, Planar.Qmin.
    destruct (Qle_bool x x) eqn:Hxx;
      destruct (Qle_bool x l) eqn:Hxl;
      destruct (Qle_bool x r) eqn:Hxr;
      try apply Qle_bool_iff in Hxx; try apply Qle_bool_false in Hxx;
      try apply Qle_bool_iff in Hxl; try apply Qle_bool_false in Hxl;
      try apply Qle_bool_iff in Hxr; try apply Qle_bool_false in Hxr;
      match goal with
      | |- context [Qle_bool ?a ?b] =>
          destruct (Qle_bool a b) eqn:Hlh; [| discriminate]
      end;
      intros [= <- <-]; apply Qle_bool_iff in Hlh;
      match goal with
      | |- context [Qle_bool ?a ?b] =>
          destruct (Qle_bool a b) eqn:Hc;
          [apply Qle_bool_iff in Hc | apply Qle_bool_false in Hc]
      end; lra. }
  unfold Planar.intersection. intros H.
  destruct zone_shape; try discriminate H; bind_inv H;
    (destruct a as [[lo hi]|]; injection H as <-;
     [now apply Hmeets | exact Hzero]).
Qed.

(** The crossing route: 4 of its 10 degrees lie in the rectangle, 6 in the
    buffered polygon; the classifier reports 60.0. *)
Lemma C1_counterexample :
  exists route_shape c original_zone_shape claimed,
    shape (r_geometry crossing) = Ok route_shape /\
    check_zone route_shape the_zone = Ok (Some c) /\
    c_conflict_type c = "intersects" /\
    shape (z_geometry the_zone) = Ok original_zone_shape /\
    overlap_pct route_shape original_zone_shape = Ok claimed /\
    claimed = PyFloat 40 /\
    c_overlap_percentage c = PyFloat 60 /\
    c_overlap_percentage c <> claimed.
Proof.
  exists (HSeg 0 10 1), (mk_conflict the_zone (PyFloat 60) "intersects"),
    raw_shape, (PyFloat 40).
  repeat split; try (vm_compute; reflexivity).
  discriminate.
Qed.

Lemma C1_witness :
  exists zone_shape inter,
    shape (default (z_geometry the_zone) (z_buffered_geometry the_zone))
      = Ok zone_shape /\
    intersection (route_shape_of crossing) zone_shape = Ok inter /\
    PyFloat 60 =
      py_min
        (PyFloat (py_round1
                    (float_mul
                       (float_div (geom_length inter)
                          (if float_ltb 0 (geom_length (route_shape_of crossing))
                           then geom_length (route_shape_of crossing) else 1))
                       100)))
        (PyInt 100).
Proof.
  apply (C1_intersects_overlap_on_zone_shape (route_shape_of crossing)
           the_zone (mk_conflict the_zone (PyFloat 60) "intersects")).
  - vm_compute. reflexivity.
  - reflexivity.
Defined.

(** The doubles nearest to a few rationals: one tenth; an integer half
    way between two doubles, which goes to the even one; the smallest
    double and half of it; the largest double and beyond. *)
Example nearest_doubles :
  fl (1 # 10) = Finite (3602879701896397 # 36028797018963968) /\
  fl (inject_Z (2 ^ 53 + 1)) = Finite (inject_Z (2 ^ 53)) /\
  fl (inject_Z (2 ^ 53 + 3)) = Finite (inject_Z (2 ^ 53 + 4)) /\
  fl (pow2 (-1074)) <> Finite 0 /\
  fl (pow2 (-1075)) = Finite 0 /\
  fl (3 * pow2 (-1075)) = fl (pow2 (-1073)) /\
  fl (pow2 1024 - pow2 970 - (1 # 3)) = fl (pow2 1024 - pow2 971) /\
  fl (pow2 1024 - pow2 970) = PosInf /\
  fl (- pow2 1024) = NegInf.
Proof. repeat split; vm_compute; (reflexivity || discriminate). Qed.

(** [round(x, 1)] rounds the double it is given, which is seldom the
    decimal that was written: 0.25 is a tie and goes to 0.2, 0.35 is below
    the tie and 0.45 above it. *)
Example python_round :
  py_round1 (fl (25 # 100)) = fl (2 # 10) /\
  py_round1 (fl (35 # 100)) = fl (3 # 10) /\
  py_round1 (fl (45 # 100)) = fl (5 # 10) /\
  py_round1 (fl (9995 # 100)) = Finite 100 /\
  py_round1 PosInf = PosInf /\
  py_round1 NaN = NaN.
Proof. repeat split; vm_compute; reflexivity. Qed.

(** A route of 4000 degrees of which 6 lie in the buffered polygon: the
    quotient times 100 is the double just below 0.15, and the classifier
    reports 0.1. *)
Example overlap_is_rounded_as_a_double :
  check_zone (HSeg 0 4000 1) the_zone
  = Ok (Some (mk_conflict the_zone (PyFloat (fl (1 # 10))) "intersects")) /\
  float_mul (float_div 6 4000) 100
  = Finite (5404319552844595 # 36028797018963968).
Proof. split; vm_compute; reflexivity. Qed.

(** The route that stops in the buffer, short of the rectangle: the
    classifier says [buffer], and the zone-creation fan-out still notifies
    its owner, with a draft that says [intersects]. *)
Lemma C2_counterexample :
  exists route_shape c,
    shape (r_geometry margin) = Ok route_shape /\
    check_zone route_shape the_zone = Ok (Some c) /\
    c_conflict_type c = "buffer" /\
    map summary
      (db_notifications
         (check_routes_against_new_zone now uuid format the_zone
            (with_routes [margin] zone_db)))
    = [("hiker-1", "r-margin", "intersects")].
Proof.
  exists (HSeg 0 (3 # 2) 1),
    (mk_conflict the_zone (PyFloat (fl (333 # 10))) "buffer").
  repeat split; vm_compute; reflexivity.
Qed.

Lemma C2_witness :
  exists drafts,
    zone_route_drafts format the_zone raw_shape buffered_shape
      (with_routes [margin] zone_db) margin = Ok drafts /\
    drafts <> [] /\
    forall d, In d drafts -> d_conflict_type (dr_data d) = "intersects".
Proof.
  destruct (C2_zone_fanout_notifies_every_conflict now uuid format the_zone
              buffered_shape raw_shape (with_routes [margin] zone_db))
    as [_ H]; [reflexivity | reflexivity |].
  destruct (H margin (HSeg 0 (3 # 2) 1)
              (Some (mk_conflict the_zone (PyFloat (fl (333 # 10))) "buffer")))
    as (drafts & Hd & Hne & Hty).
  - reflexivity.
  - vm_compute. reflexivity.
  - exists drafts. split; [exact Hd |]. split.
    + apply Hne. split; [discriminate |].
      intros Hempty.
      assert (Hel : elements (users_to_notify margin (with_routes [margin] zone_db))
                    = []) by (rewrite Hempty; reflexivity).
      vm_compute in Hel. discriminate Hel.
    + intros d Hin. destruct (Hty d Hin) as (c & [= <-] & Hc). exact Hc.
Defined.

(** Scenario D: a contained route owned by one user and favourited by
    another gives two CRITICAL drafts, one for each. *)
Example zone_fanout_owner_and_favoriter :
  let db :=
    {| db_zones := [the_zone]; db_routes := [inside; broken];
       db_favorites :=
         [{| f_id := "f-1"; f_user_id := "walker-2"; f_route_id := "r-inside" |}];
       db_notifications := []; db_uuids := 1 |} in
  Permutation
    (map (fun n => (dr_user_id (n_draft n), dr_title (n_draft n)))
       (db_notifications
          (check_routes_against_new_zone now uuid format the_zone db)))
    [("hiker-1", "CRITICAL: Your route 'Inside' inside new zone");
     ("walker-2", "CRITICAL: Favorite route 'Inside' inside new zone")].
Proof. vm_compute. apply perm_swap. Qed.



(** An anonymous upload of a route that lies inside an upcoming zone:
    no task is started, so nothing is checked; the same file uploaded by a
    user starts the check, which notifies that user. *)
Lemma C5_counterexample :
  exists route_doc db' route_shape,
    upload_route now uuid parse "inside.gpx" None EmptyString None zone_db
      = Ok (route_doc, db', []) /\
    shape (r_geometry route_doc) = Ok route_shape /\
    upcoming_zones now db' = [the_zone] /\
    check_zone route_shape the_zone
      = Ok (Some (mk_conflict the_zone (PyFloat 100) "contained")) /\
    db_notifications db' = [].
Proof.
  do 2 eexists. exists (HSeg 3 5 1).
  split; [vm_compute; reflexivity |].
  repeat split; vm_compute; reflexivity.
Qed.

Example authenticated_upload_is_checked :
  exists route_doc db',
    upload_route now uuid parse "inside.gpx" None EmptyString (Some hiker) zone_db
      = Ok (route_doc, db',
            [CheckUploadedRouteAgainstZones route_doc "hiker-1"]) /\
    map summary
      (db_notifications
         (run_task now uuid format
            (CheckUploadedRouteAgainstZones route_doc "hiker-1") db'))
    = [("hiker-1", "uuid-1", "contained")].
Proof.
  do 2 eexists. split; [vm_compute; reflexivity | vm_compute; reflexivity].
Qed.

Lemma C5_witness :
  exists route_doc db',
    upload_route now uuid parse "inside.gpx" None EmptyString None zone_db
      = Ok (route_doc, db', []) /\
    r_user_id route_doc = "anonymous" /\
    db_notifications db' = db_notifications zone_db.
Proof.
  assert (H : exists route_doc db' tasks,
             upload_route now uuid parse "inside.gpx" None EmptyString None
               zone_db = Ok (route_doc, db', tasks)).
  { do 3 eexists. vm_compute. reflexivity. }
  destruct H as (route_doc & db' & tasks & H).
  destruct (C5_anonymous_upload_starts_no_check now uuid parse format
              _ _ _ _ _ _ _ H) as (Ht & Hu & Hn & _).
  exists route_doc, db'. rewrite <- Ht. auto.
Defined.


(** The route that is a single point on the edge of the buffer. *)
Lemma C6_witness :
  returns (check_zone (route_shape_of degenerate) the_zone) /\
  (exists zone_shape inter,
     shape (zone_geom the_zone) = Ok zone_shape /\
     intersection (route_shape_of degenerate) zone_shape = Ok inter /\
     PyFloat 0 =
       py_min
         (PyFloat (py_round1
                     (float_mul (float_div (geom_length inter) 1) 100)))
         (PyInt 100)) /\
  check_zone (route_shape_of degenerate) the_zone
  = Ok (Some (mk_conflict the_zone (PyFloat 0) "buffer")) /\
  float_between 0 100 (pynum_val (PyFloat 0)) /\
  one_decimal (pynum_val (PyFloat 0)).
Proof.
  assert (Hc : check_zone (route_shape_of degenerate) the_zone
               = Ok (Some (mk_conflict the_zone (PyFloat 0) "buffer")))
    by (vm_compute; reflexivity).
  destruct (C6_overlap_is_total_and_bounded (route_shape_of degenerate))
    as (Hret & H0 & Hb).
  - intros zone_shape inter. apply planar_point_intersection.
  - split; [| split; [| split]].
    + apply (Hret the_zone buffered_shape raw_shape);
        try reflexivity; eexists; vm_compute; reflexivity.
    + apply (H0 eq_refl the_zone
               (mk_conflict the_zone (PyFloat 0) "buffer") Hc).
      discriminate.
    + exact Hc.
    + exact (Hb the_zone (mk_conflict the_zone (PyFloat 0) "buffer") Hc).
Defined.

(** 1001 zones cover the instant; the last one in store order is not
    selected. *)
Lemma C7_counterexample :
  let zone := numbered_zone 1000 in
  In zone (db_zones many_zones) /\
  String.leb (z_start_time zone) june = true /\
  String.leb june (z_end_time zone) = true /\
  ~ In zone (active_zones_at june many_zones).
Proof.
  intros zone. split; [| split; [reflexivity | split; [reflexivity |]]].
  - apply (in_map numbered_zone (seq 0 1001) 1000), in_seq. lia.
  - intros Hin.
    assert (H : existsb (fun z => String.eqb (z_id z) (z_id zone))
                  (active_zones_at june many_zones) = true).
    { apply existsb_exists. exists zone. split; [exact Hin |].
      apply String.eqb_refl. }
    vm_compute in H. discriminate H.
Qed.

Lemma C7_witness :
  (In the_zone (active_zones_at june zone_db) <->
   In the_zone (db_zones zone_db) /\
   String.leb (z_start_time the_zone) june = true /\
   String.leb june (z_end_time the_zone) = true) /\
  get_zones now None (Some june) zone_db = active_zones_at june zone_db.
Proof.
  destruct (C7_active_zones_first_thousand now june zone_db)
    as (_ & _ & _ & Hiff & Hget & _).
  split.
  - apply Hiff. simpl. lia.
  - apply Hget. reflexivity.
Defined.

Lemma C8_witness :
  compute_buffer bad_polygon 200 = bad_polygon /\
  exists zone_doc db' tasks,
    create_zone now uuid
      {| zc_name := "Coto Roto"; zc_description := None;
         zc_geometry := bad_polygon;
         zc_start_time := "2024-01-01T00:00:00";
         zc_end_time := "2024-12-31T23:59:59";
         zc_buffer_meters := 200 |} admin empty_db
    = Ok (zone_doc, db', tasks) /\
    z_buffered_geometry zone_doc = Some bad_polygon.
Proof.
  destruct (C8_buffer_falls_back_to_raw_polygon now uuid bad_polygon 200
              (PyException "too few points"))
    as [Hb Hc]; [left; reflexivity |].
  split; [exact Hb |].
  destruct (Hc {| zc_name := "Coto Roto"; zc_description := None;
                  zc_geometry := bad_polygon;
                  zc_start_time := "2024-01-01T00:00:00";
                  zc_end_time := "2024-12-31T23:59:59";
                  zc_buffer_meters := 200 |} admin empty_db)
    as (zone_doc & db' & tasks & H & _ & Hbuf & _);
    [reflexivity | reflexivity | reflexivity |].
  exists zone_doc, db', tasks. auto.
Defined.

(** A zone and a route the library raises on, in the middle of a batch. *)
Lemma C9_witness :
  check_route_against_zones (route_shape_of crossing)
    ([the_zone] ++ bad_zone :: [the_zone])
  = [mk_conflict the_zone (PyFloat 60) "intersects";
     mk_conflict the_zone (PyFloat 60) "intersects"] /\
  map summary
    (db_notifications
       (check_routes_against_new_zone now uuid format the_zone
          (with_routes [crossing; broken; inside] zone_db)))
  = [("hiker-1", "r-cross", "intersects");
     ("hiker-1", "r-inside", "contained")] /\
  map summary
    (db_notifications
       (check_uploaded_route_against_zones now uuid format crossing "hiker-1"
          (with_zones [bad_zone; the_zone] zone_db)))
  = [("hiker-1", "r-cross", "intersects")].
Proof.
  destruct (C9_errors_are_isolated_per_pair now uuid format)
    as (Ha & Hb & Hc & _).
  split; [| split].
  - rewrite (Ha (route_shape_of crossing) [the_zone] bad_zone [the_zone]
               (PyException "too few points")) by reflexivity.
    vm_compute. reflexivity.
  - unfold summary.
    rewrite <- (map_map n_draft
                  (fun d => (dr_user_id d, d_route_id (dr_data d),
                             d_conflict_type (dr_data d)))).
    rewrite (Hb the_zone buffered_shape raw_shape
               (with_routes [crossing; broken; inside] zone_db)
               [crossing] broken [inside]
               (PyException "too few points"));
      [| reflexivity ..].
    vm_compute. reflexivity.
  - unfold summary.
    rewrite <- (map_map n_draft
                  (fun d => (dr_user_id d, d_route_id (dr_data d),
                             d_conflict_type (dr_data d)))).
    rewrite (Hc crossing "hiker-1" (route_shape_of crossing)
               (with_zones [bad_zone; the_zone] zone_db)
               [] bad_zone [the_zone]
               (PyException "too few points"));
      [| reflexivity ..].
    vm_compute. reflexivity.
Defined.

(** The route that only touches the buffer: [intersects] is true. *)
Lemma C10_witness :
  exists resp,
    check_intersection now (request margin) zone_db = Ok resp /\
    Forall (fun c => c_conflict_type c = "buffer") (res_zones resp) /\
    res_safe_message resp = MSG_CAUTION /\
    res_intersects resp = true.
Proof.
  exists (intersection_result
            (check_route_against_zones (route_shape_of margin) [the_zone])).
  destruct (C10_intersects_iff_some_conflict now (request margin) zone_db
              (intersection_result
                 (check_route_against_zones (route_shape_of margin)
                    [the_zone]))) as [_ H]; [reflexivity |].
  split; [reflexivity |].
  assert (Hall : Forall (fun c => c_conflict_type c = "buffer")
                   (res_zones (intersection_result
                      (check_route_against_zones (route_shape_of margin)
                         [the_zone])))).
  { repeat constructor. }
  split; [exact Hall |]. split; [reflexivity |].
  apply H; [discriminate | exact Hall].
Defined.

End Checks.

(** * The other endpoints *)

(** ** Collections *)

Lemma find_split {A : Type} (p : A -> bool) (l : list A) (x : A) :
  List.find p l = Some x ->
  exists l1 l2,
    l = l1 ++ x :: l2 /\ p x = true /\
    Forall (fun y => p y = false) l1.
Proof.
  induction l as [|y l IH]; simpl; [discriminate |].
  destruct (p y) eqn:Hy.
  - intros [= ->]. exists [], l. auto.
  - intros H. destruct (IH H) as (l1 & l2 & -> & Hx & Hl1).
    exists (y :: l1), l2. auto.
Qed.

Lemma find_none_app {A : Type} (p : A -> bool) (l1 l2 : list A) :
  Forall (fun y => p y = false) l1 ->
  List.find p (l1 ++ l2) = List.find p l2.
Proof.
  induction 1 as [|y l1 Hy _ IH]; simpl; [reflexivity | now rewrite Hy].
Qed.

Lemma update_first_split {A : Type} (p : A -> bool) (f : A -> A)
    (l1 l2 : list A) (x : A) :
  Forall (fun y => p y = false) l1 -> p x = true ->
  update_first p f (l1 ++ x :: l2) = l1 ++ f x :: l2.
Proof.
  intros H Hx. induction H as [|y l1 Hy _ IH]; simpl.
  - now rewrite Hx.
  - now rewrite Hy, IH.
Qed.

Lemma delete_first_split {A : Type} (p : A -> bool) (l1 l2 : list A) (x : A) :
  Forall (fun y => p y = false) l1 -> p x = true ->
  delete_first p (l1 ++ x :: l2) = l1 ++ l2.
Proof.
  intros H Hx. induction H as [|y l1 Hy _ IH]; simpl.
  - now rewrite Hx.
  - now rewrite Hy, IH.
Qed.

Lemma find_app {A : Type} (p : A -> bool) (l1 l2 : list A) :
  List.find p (l1 ++ l2) =
  match List.find p l1 with
  | Some x => Some x
  | None => List.find p l2
  end.
Proof.
  induction l1 as [|y l1 IH]; simpl; [reflexivity |].
  now destruct (p y).
Qed.

Lemma find_none_forall {A : Type} (p : A -> bool) (l : list A) :
  List.find p l = None <-> Forall (fun y => p y = false) l.
Proof.
  induction l as [|y l IH]; simpl.
  - split; [constructor | reflexivity].
  - destruct (p y) eqn:Hy.
    + split; [discriminate |]. intros H. inversion H; congruence.
    + rewrite IH. split; [now constructor | now inversion 1].
Qed.

(** A query that the rewritten document answers as before, and that does
    not select the document the update selects. *)
Lemma find_update_first_other {A : Type} (p q : A -> bool) (f : A -> A)
    (l : list A) :
  (forall x, p x = true -> q x = false /\ q (f x) = false) ->
  List.find q (update_first p f l) = List.find q l.
Proof.
  intros H. induction l as [|y l IH]; simpl; [reflexivity |].
  destruct (p y) eqn:Hy; simpl.
  - destruct (H y Hy) as [-> ->]. reflexivity.
  - now rewrite IH.
Qed.

Lemma find_delete_first_other {A : Type} (p q : A -> bool) (l : list A) :
  (forall x, p x = true -> q x = false) ->
  List.find q (delete_first p l) = List.find q l.
Proof.
  intros H. induction l as [|y l IH]; simpl; [reflexivity |].
  destruct (p y) eqn:Hy; simpl.
  - now rewrite (H y Hy).
  - now rewrite IH.
Qed.

Lemma eqb_ne (a b c : string) :
  a <> c -> String.eqb b a = true -> String.eqb b c = false.
Proof.
  intros Hne Ha. apply String.eqb_eq in Ha. subst b.
  now apply String.eqb_neq.
Qed.

Section ExtraProperties.

Set Default Proof Using "Type".

Context {geojson geom : Type} {K : Shapely geojson geom}.

Local Abbreviation Zone := (@Zone geojson).
Local Abbreviation Route := (@Route geojson).
Local Abbreviation ZoneCreate := (@ZoneCreate geojson).
Local Abbreviation ZoneUpdate := (@ZoneUpdate geojson).
Local Abbreviation Conflict := (@Conflict geojson).
Local Abbreviation Database := (@Database geojson).
Local Abbreviation Task := (@Task geojson).
Local Abbreviation IntersectionRequest := (@IntersectionRequest geojson).
Local Abbreviation IntersectionResult := (@IntersectionResult geojson).

Variable utcnow : string.
Variable uuid4 : nat -> string.
Variable gpx_parse : string -> result GPX.
Variable py_format : pynum -> string.

(** ** Zones *)

Lemma set_zone_fields_id (data : ZoneUpdate) (buffered : option geojson)
    (zone : Zone) (zone_id : string) :
  has_zone_id zone_id (set_zone_fields data buffered zone)
  = has_zone_id zone_id zone.
Proof. reflexivity. Qed.

Lemma set_zone_fields_none (data : ZoneUpdate) (zone : Zone) :
  has_update data = false -> set_zone_fields data None zone = zone.
Proof.
  destruct data as [[?|] [?|] [?|] [?|] [?|] [?|]]; try discriminate.
  intros _. now destruct zone.
Qed.

Lemma updated_buffer_ok (zone : Zone) (data : ZoneUpdate)
    (buffered : option geojson) :
  zone_buffer_ok zone ->
  updated_buffer zone data = Ok buffered ->
  zone_buffer_ok (set_zone_fields data buffered zone).
Proof.
  intros (m & Hm & Hb). unfold updated_buffer, zone_buffer_ok. simpl.
  rewrite Hm.
  destruct (zu_geometry data) as [g|]; simpl.
  - intros [= <-]. destruct (zu_buffer_meters data) as [m'|]; simpl; eauto.
  - destruct (zu_buffer_meters data) as [m'|]; intros [= <-]; eauto.
Qed.

(** The inversion of a successful [update_zone]. *)
Lemma update_zone_ok (zone_id : string) (data : ZoneUpdate) (user : User)
    (db : Database) (updated : option Zone) (db' : Database) :
  update_zone zone_id data user db = Ok (updated, db') ->
  u_role user = "admin" /\
  exists zone buffered l1 l2,
    db_zones db = l1 ++ zone :: l2 /\
    Forall (fun z => has_zone_id zone_id z = false) l1 /\
    has_zone_id zone_id zone = true /\
    z_created_by zone = u_id user /\
    updated_buffer zone data = Ok buffered /\
    updated = Some (set_zone_fields data buffered zone) /\
    db' = set_zones (l1 ++ set_zone_fields data buffered zone :: l2) db.
Proof.
  unfold update_zone.
  destruct (String.eqb (u_role user) "admin") eqn:Hrole; [| discriminate].
  apply String.eqb_eq in Hrole. simpl.
  destruct (find_zone zone_id db) as [zone|] eqn:Hfind; [| discriminate].
  destruct (String.eqb (z_created_by zone) (u_id user)) eqn:Hown;
    [| discriminate].
  apply String.eqb_eq in Hown. simpl. intros H. bind_inv H.
  rename a into buffered.
  apply find_split in Hfind as (l1 & l2 & Hl & Hz & Hl1).
  split; [assumption |]. exists zone, buffered, l1, l2.
  repeat (split; [assumption |]).
  assert (Hfound : forall z,
            has_zone_id zone_id z = true ->
            find_zone zone_id (set_zones (l1 ++ z :: l2) db) = Some z).
  { intros z Hzid. unfold find_zone. simpl.
    rewrite find_none_app by assumption. simpl. now rewrite Hzid. }
  destruct (has_update data) eqn:Hup.
  - rewrite Hl, update_first_split in H by assumption.
    rewrite Hfound in H by (now rewrite set_zone_fields_id).
    injection H as <- <-. auto.
  - assert (Hbuf : buffered = None).
    { unfold updated_buffer in Ha.
      destruct data as [[?|] [?|] [?|] [?|] [?|] [?|]]; try discriminate.
      simpl in Ha. now injection Ha as <-. }
    subst buffered. rewrite set_zone_fields_none by assumption.
    unfold find_zone in H. rewrite Hl, find_none_app in H by assumption.
    simpl in H. rewrite Hz in H. injection H as <- <-.
    split; [reflexivity |]. unfold set_zones. rewrite <- Hl. now destruct db.
Qed.

(** X1.  [create_zone], [update_zone] and [delete_zone] keep every stored
    zone's buffered polygon equal to [compute_buffer] of its polygon and
    buffer distance: the buffer is recomputed whenever either changes. *)
Theorem X1_zones_keep_their_buffer (db : Database) :
  Forall zone_buffer_ok (db_zones db) ->
  (forall data user zone_doc db' tasks,
     create_zone utcnow uuid4 data user db = Ok (zone_doc, db', tasks) ->
     Forall zone_buffer_ok (db_zones db')) /\
  (forall zone_id data user updated db',
     update_zone zone_id data user db = Ok (updated, db') ->
     Forall zone_buffer_ok (db_zones db')) /\
  (forall zone_id user msg db',
     delete_zone zone_id user db = Ok (msg, db') ->
     Forall zone_buffer_ok (db_zones db')).
Proof.
  intros Hok. split; [| split].
  - intros data user zone_doc db' tasks. unfold create_zone.
    destruct (negb _); [discriminate |]. simpl. intros [= <- <- <-]. simpl.
    apply Forall_app. split; [assumption |]. constructor; [| constructor].
    eexists. split; reflexivity.
  - intros zone_id data user updated db' H.
    apply update_zone_ok in H
      as (_ & zone & buffered & l1 & l2 & Hl & _ & _ & _ & Hb & _ & ->).
    simpl. rewrite Hl in Hok. apply Forall_app in Hok as [H1 H2].
    inversion H2 as [|? ? Hz H3]; subst.
    apply Forall_app. split; [assumption |]. constructor; [| assumption].
    now apply updated_buffer_ok.
  - intros zone_id user msg db'. unfold delete_zone.
    destruct (negb _); [discriminate |].
    destruct (find_zone zone_id db) as [zone|] eqn:Hfind; [| discriminate].
    destruct (negb _); [discriminate |]. intros [= <- <-]. simpl.
    apply find_split in Hfind as (l1 & l2 & Hl & Hz & Hl1).
    rewrite Hl, delete_first_split by assumption.
    rewrite Hl in Hok. apply Forall_app in Hok as [H1 H2].
    inversion H2; subst. apply Forall_app. auto.
Qed.

(** X2.  [update_zone] succeeds only for an admin on a zone that user
    created; it answers with that zone, each field replaced by the one
    the request gives, and leaves every zone with another id, the routes,
    the favourites and the notifications as they were. *)
Theorem X2_update_zone_rewrites_one_zone
    (zone_id : string) (data : ZoneUpdate) (user : User) (db : Database)
    (updated : option Zone) (db' : Database) :
  update_zone zone_id data user db = Ok (updated, db') ->
  u_role user = "admin" /\
  exists zone buffered,
    find_zone zone_id db = Some zone /\
    z_created_by zone = u_id user /\
    updated_buffer zone data = Ok buffered /\
    updated = Some (set_zone_fields data buffered zone) /\
    find_zone zone_id db' = updated /\
    (forall other, other <> zone_id ->
       find_zone other db' = find_zone other db) /\
    List.length (db_zones db') = List.length (db_zones db) /\
    db_routes db' = db_routes db /\
    db_favorites db' = db_favorites db /\
    db_notifications db' = db_notifications db.
Proof.
  intros H. apply update_zone_ok in H
    as (Hrole & zone & buffered & l1 & l2 & Hl & Hl1 & Hz & Hown & Hb & -> & ->).
  split; [assumption |]. exists zone, buffered.
  assert (Hother : forall other z z',
            other <> zone_id -> has_zone_id zone_id z = true ->
            has_zone_id zone_id z' = true ->
            List.find (has_zone_id other) (l1 ++ z :: l2)
            = List.find (has_zone_id other) (l1 ++ z' :: l2)).
  { intros other z z' Hne Hzz Hzz'. rewrite !find_app. simpl.
    unfold has_zone_id in *.
    rewrite (eqb_ne _ _ _ (not_eq_sym Hne) Hzz).
    now rewrite (eqb_ne _ _ _ (not_eq_sym Hne) Hzz'). }
  unfold find_zone. simpl. rewrite Hl.
  repeat split; try reflexivity; try assumption.
  - rewrite find_none_app by assumption. simpl. now rewrite Hz.
  - rewrite find_none_app by assumption. simpl.
    now rewrite set_zone_fields_id, Hz.
  - intros other Hne. now apply Hother.
  - now rewrite !length_app.
Qed.

(** X3.  When zone ids are unique, a deleted zone is no longer found, the
    zones with other ids still are, and one zone less is stored. *)
Theorem X3_delete_zone_removes_the_zone
    (zone_id : string) (user : User) (db : Database) (msg : string)
    (db' : Database) :
  List.NoDup (map z_id (db_zones db)) ->
  delete_zone zone_id user db = Ok (msg, db') ->
  get_zone zone_id db' = Raise (HTTPException 404 "Zone not found") /\
  (forall other, other <> zone_id -> get_zone other db' = get_zone other db) /\
  S (List.length (db_zones db')) = List.length (db_zones db) /\
  List.NoDup (map z_id (db_zones db')).
Proof.
  intros Hnd. unfold delete_zone.
  destruct (negb _); [discriminate |].
  destruct (find_zone zone_id db) as [zone|] eqn:Hfind; [| discriminate].
  destruct (negb _); [discriminate |]. intros [= <- <-].
  apply find_split in Hfind as (l1 & l2 & Hl & Hz & Hl1).
  unfold get_zone, find_zone. simpl.
  rewrite Hl, delete_first_split by assumption.
  rewrite Hl, map_app in Hnd. simpl in Hnd.
  apply String.eqb_eq in Hz.
  assert (Hl2 : Forall (fun z => has_zone_id zone_id z = false) l2).
  { apply List.Forall_forall. intros z Hin. unfold has_zone_id.
    apply String.eqb_neq. intros Heq.
    apply NoDup_remove_2 in Hnd. apply Hnd, in_or_app. right.
    rewrite Hz, <- Heq. now apply in_map. }
  repeat split.
  - rewrite find_none_app by assumption.
    apply find_none_forall in Hl2. now rewrite Hl2.
  - intros other Hne. rewrite !find_app. simpl.
    assert (Hz' : has_zone_id other zone = false).
    { unfold has_zone_id. rewrite Hz.
      now apply String.eqb_neq, not_eq_sym. }
    now rewrite Hz'.
  - rewrite !length_app. simpl. lia.
  - rewrite map_app. now apply NoDup_remove_1 in Hnd.
Qed.

(** X4.  After [create_zone], when no stored zone had the new id,
    [get_zone] with that id answers with the new zone; every zone found
    before is found as before, and the new zone is in the listing of
    [get_zones] when fewer than 1000 zones were stored. *)
Theorem X4_created_zone_is_found
    (data : ZoneCreate) (user : User) (db : Database) (zone_doc : Zone)
    (db' : Database) (tasks : list Task) :
  create_zone utcnow uuid4 data user db = Ok (zone_doc, db', tasks) ->
  find_zone (uuid4 (db_uuids db)) db = None ->
  z_id zone_doc = uuid4 (db_uuids db) /\
  get_zone (z_id zone_doc) db' = Ok zone_doc /\
  (forall zone_id zone,
     find_zone zone_id db = Some zone -> get_zone zone_id db' = Ok zone) /\
  ((List.length (db_zones db) < 1000)%nat ->
   In zone_doc (get_zones utcnow None None db')).
Proof.
  unfold create_zone. destruct (negb _); [discriminate |]. simpl.
  intros [= <- <- <-] Hfresh.
  unfold get_zone, find_zone, get_zones in *. simpl. repeat split.
  - rewrite find_app, Hfresh. simpl. unfold has_zone_id. simpl.
    now rewrite String.eqb_refl.
  - intros zone_id zone Hf. rewrite find_app. now rewrite Hf.
  - intros Hlt. rewrite firstn_all2 by (rewrite length_app; simpl; lia).
    apply in_or_app. right. now left.
Qed.

(** ** Routes *)

Lemma set_is_public_twice (route : Route) (b : bool) :
  set_is_public (r_is_public route) (set_is_public b route) = route.
Proof. now destruct route. Qed.

(** X5.  [toggle_route_visibility] works for the owner alone and answers
    with the opposite of the stored flag; a second call undoes the first
    and gives back the database as it was. *)
Theorem X5_toggle_visibility_twice_restores
    (route_id : string) (user : User) (db : Database) (vis : bool)
    (db1 : Database) :
  toggle_route_visibility route_id user db = Ok (vis, db1) ->
  (exists route,
     find_route route_id db = Some route /\
     r_user_id route = u_id user /\
     vis = negb (r_is_public route) /\
     get_route_detail route_id db1 = Ok (set_is_public vis route)) /\
  toggle_route_visibility route_id user db1 = Ok (negb vis, db).
Proof.
  unfold toggle_route_visibility.
  destruct (find_route route_id db) as [route|] eqn:Hfind; [| discriminate].
  destruct (String.eqb (r_user_id route) (u_id user)) eqn:Hown;
    [| discriminate].
  simpl. intros [= <- <-].
  unfold find_route in Hfind.
  apply find_split in Hfind as (l1 & l2 & Hl & Hr & Hl1).
  assert (Hfind1 :
    find_route route_id
      (set_routes
         (update_first (has_route_id route_id)
            (set_is_public (negb (r_is_public route))) (db_routes db)) db)
    = Some (set_is_public (negb (r_is_public route)) route)).
  { unfold find_route. simpl. rewrite Hl, update_first_split by assumption.
    rewrite find_none_app by assumption. simpl.
    unfold has_route_id in *. simpl. now rewrite Hr. }
  split.
  - exists route. apply String.eqb_eq in Hown.
    unfold get_route_detail. rewrite Hfind1. repeat split; auto.
  - rewrite Hfind1. simpl. rewrite Hown. simpl.
    rewrite negb_involutive. do 2 f_equal.
    unfold set_routes. simpl. rewrite Hl.
    rewrite !update_first_split by assumption.
    replace (set_is_public (r_is_public route)
               (set_is_public (negb (r_is_public route)) route))
      with route by (symmetry; apply set_is_public_twice).
    rewrite <- Hl. now destruct db.
Qed.

(** X6.  A route that [upload_route] stores is named by the form field
    [name], else by the name the GPX file gives, else by the name of the
    file, else ['Unnamed Route'], the first of them that is not empty, so
    that its name is never empty; its line is made of the points of the
    tracks, followed by the waypoints when the tracks have fewer than two
    points, and has at least two points; it has the uploader (or
    ['anonymous']) as its owner and is public; it is added at the end of
    the routes, nothing else is written, and the conflict check is started
    for it exactly when the uploader is authenticated. *)
Theorem X6_uploaded_route_is_well_formed
    (content_str : string) (filename : option string) (name : string)
    (user : option User) (db : Database) (route_doc : Route)
    (db' : Database) (tasks : list Task) :
  upload_route utcnow uuid4 gpx_parse content_str filename name user db
    = Ok (route_doc, db', tasks) ->
  (exists gpx,
     gpx_parse content_str = Ok gpx /\
     r_name route_doc =
       match name, gpx_name gpx, filename with
       | String _ _, _, _ => name
       | EmptyString, Some (String a n), _ => String a n
       | EmptyString, _, Some (String a f) => String a f
       | EmptyString, _, _ => "Unnamed Route"
       end /\
     let track_points := concat (concat (gpx_tracks gpx)) in
     r_geometry route_doc =
       LineString_dict
         (if (List.length track_points <? 2)%nat
          then track_points ++ gpx_waypoints gpx
          else track_points)) /\
  r_name route_doc <> EmptyString /\
  (exists coordinates,
     r_geometry route_doc = LineString_dict coordinates /\
     (2 <= List.length coordinates)%nat) /\
  r_user_id route_doc
    = match user with Some u => u_id u | None => ANONYMOUS end /\
  r_is_public route_doc = true /\
  db_routes db' = db_routes db ++ [route_doc] /\
  db_zones db' = db_zones db /\
  db_favorites db' = db_favorites db /\
  db_notifications db' = db_notifications db /\
  tasks =
    if is_set user && negb (String.eqb (r_user_id route_doc) ANONYMOUS)
    then [CheckUploadedRouteAgainstZones route_doc (r_user_id route_doc)]
    else [].
Proof.
  unfold upload_route. intros H.
  destruct (gpx_parse content_str) as [gpx|e] eqn:Hgpx; [| discriminate].
  set (track_points := concat (concat (gpx_tracks gpx))) in H.
  set (coordinates := if (List.length track_points <? 2)%nat
                      then track_points ++ gpx_waypoints gpx
                      else track_points) in H.
  destruct (List.length coordinates <? 2)%nat eqn:Hlen; [discriminate |].
  apply Nat.ltb_ge in Hlen.
  injection H as H1 H2 H3. subst route_doc db' tasks. simpl.
  split; [| split; [| split; [eauto | repeat split]]].
  - exists gpx. split; [reflexivity |]. split; [| reflexivity].
    destruct name as [|c name']; simpl; [| reflexivity].
    destruct (gpx_name gpx) as [[|c n]|]; simpl; try reflexivity;
      destruct filename as [[|c' f]|]; reflexivity.
  - destruct name as [|c name']; simpl; [| discriminate].
    destruct (gpx_name gpx) as [[|c n]|]; simpl; try discriminate;
      destruct filename as [[|c' f]|]; simpl; discriminate.
  - now destruct user.
Qed.

Lemma find_delete_first_nodup {A : Type} (key : A -> string) (id : string)
    (l : list A) :
  List.NoDup (map key l) ->
  List.find (fun x => String.eqb (key x) id)
    (delete_first (fun x => String.eqb (key x) id) l) = None.
Proof.
  induction l as [|x l IH]; simpl; [reflexivity |].
  intros Hnd. inversion Hnd as [|? ? Hx Hl]; subst.
  destruct (String.eqb (key x) id) eqn:Hk; simpl.
  - apply String.eqb_eq in Hk. apply find_none_forall, List.Forall_forall.
    intros y Hin. apply String.eqb_neq. intros Hy. apply Hx.
    rewrite Hk, <- Hy. now apply in_map.
  - rewrite Hk. now apply IH.
Qed.

(** X7.  [delete_route] works for the owner alone and removes the route
    and nothing else: the favourites that name the route stay, so
    [get_favorite_ids] still lists it, and so do the notifications. *)
Theorem X7_delete_route_keeps_favourites
    (route_id : string) (user : User) (db : Database) (msg : string)
    (db' : Database) :
  delete_route route_id user db = Ok (msg, db') ->
  (exists route,
     find_route route_id db = Some route /\ r_user_id route = u_id user) /\
  db_favorites db' = db_favorites db /\
  db_notifications db' = db_notifications db /\
  db_zones db' = db_zones db /\
  (forall someone, get_favorite_ids someone db' = get_favorite_ids someone db) /\
  S (List.length (db_routes db')) = List.length (db_routes db) /\
  (List.NoDup (map r_id (db_routes db)) ->
   get_route_detail route_id db'
   = Raise (HTTPException 404 "Route not found")).
Proof.
  unfold delete_route.
  destruct (find_route route_id db) as [route|] eqn:Hfind; [| discriminate].
  destruct (String.eqb (r_user_id route) (u_id user)) eqn:Hown;
    [| discriminate].
  simpl. intros [= <- <-]. apply String.eqb_eq in Hown.
  repeat split; eauto.
  - unfold find_route in Hfind.
    apply find_split in Hfind as (l1 & l2 & Hl & Hr & Hl1). simpl.
    rewrite Hl, delete_first_split by assumption.
    rewrite !length_app. simpl. lia.
  - intros Hnd. unfold get_route_detail, find_route. simpl.
    unfold has_route_id.
    now rewrite (find_delete_first_nodup r_id route_id _ Hnd).
Qed.

(** ** Favourites *)

Lemma is_favorite_key (user_id route_id : string) (fav : Favorite) :
  is_favorite user_id route_id fav = true
  <-> favorite_key fav = (user_id, route_id).
Proof.
  unfold is_favorite, favorite_key.
  rewrite andb_true_iff, !String.eqb_eq. split.
  - now intros [-> ->].
  - now intros [= -> ->].
Qed.

Lemma add_favorite_ok (route_id : string) (user : User) (db : Database)
    (doc : FavoriteDoc) (db' : Database) :
  add_favorite utcnow uuid4 route_id user db = Ok (doc, db') ->
  exists route,
    find_route route_id db = Some route /\
    List.find (is_favorite (u_id user) route_id) (db_favorites db) = None /\
    fd_user_id doc = u_id user /\ fd_route_id doc = route_id /\
    fd_route_name doc = r_name route /\
    db_favorites db' = db_favorites db ++ [stored_favorite doc] /\
    db_routes db' = db_routes db /\
    db_zones db' = db_zones db /\
    db_notifications db' = db_notifications db.
Proof.
  unfold add_favorite.
  destruct (find_route route_id db) as [route|] eqn:Hfind; [| discriminate].
  destruct (List.find _ (db_favorites db)) eqn:Hfav; [discriminate |].
  simpl. intros [= <- <-]. exists route. simpl. auto 10.
Qed.

(** X8.  No user ever has the same route twice among their favourites:
    [add_favorite] and [remove_favorite] keep the pairs (user, route)
    distinct, a second [add_favorite] of the same route is refused with
    400, and a second [remove_favorite] with 404. *)
Theorem X8_favourites_stay_unique (db : Database) :
  List.NoDup (map favorite_key (db_favorites db)) ->
  (forall route_id user doc db',
     add_favorite utcnow uuid4 route_id user db = Ok (doc, db') ->
     List.NoDup (map favorite_key (db_favorites db')) /\
     add_favorite utcnow uuid4 route_id user db'
     = Raise (HTTPException 400 "Already in favorites")) /\
  (forall route_id user msg db',
     remove_favorite route_id user db = Ok (msg, db') ->
     List.NoDup (map favorite_key (db_favorites db')) /\
     remove_favorite route_id user db'
     = Raise (HTTPException 404 "Not in favorites")).
Proof.
  intros Hnd. split.
  - intros route_id user doc db' H.
    apply add_favorite_ok in H
      as (route & Hr & Hnone & Hu & Hrid & _ & Hf & Hroutes & _).
    assert (Hkey : favorite_key (stored_favorite doc) = (u_id user, route_id)).
    { unfold favorite_key. simpl. congruence. }
    split.
    + rewrite Hf, map_app. simpl.
      rewrite <- (rev_involutive (_ ++ _)). apply NoDup_rev.
      rewrite rev_app_distr. simpl. constructor.
      * rewrite <- in_rev, Hkey. intros Hin.
        apply in_map_iff in Hin as (fav & Hfk & Hin).
        apply find_none_forall in Hnone.
        rewrite List.Forall_forall in Hnone.
        apply is_favorite_key in Hfk. rewrite (Hnone fav Hin) in Hfk.
        discriminate.
      * now apply NoDup_rev.
    + unfold add_favorite, find_route. rewrite Hroutes.
      unfold find_route in Hr. rewrite Hr, Hf, find_app, Hnone. simpl.
      apply is_favorite_key in Hkey. now rewrite Hkey.
  - intros route_id user msg db'. unfold remove_favorite.
    destruct (List.find _ (db_favorites db)) as [fav|] eqn:Hfind;
      [| discriminate].
    intros [= <- <-]. simpl.
    apply find_split in Hfind as (l1 & l2 & Hl & Hfav & Hl1).
    rewrite Hl, delete_first_split by assumption.
    rewrite Hl, map_app in Hnd. simpl in Hnd.
    split; [rewrite map_app; now apply NoDup_remove_1 in Hnd |].
    assert (Hl2 : Forall (fun y => is_favorite (u_id user) route_id y = false)
                    l2).
    { apply List.Forall_forall. intros y Hin.
      destruct (is_favorite (u_id user) route_id y) eqn:Hy; [| reflexivity].
      exfalso. apply NoDup_remove_2 in Hnd. apply Hnd, in_or_app. right.
      apply is_favorite_key in Hfav, Hy. rewrite Hfav, <- Hy.
      now apply in_map. }
    rewrite find_none_app by assumption.
    apply find_none_forall in Hl2. now rewrite Hl2.
Qed.

(** X9.  After [add_favorite] the route is among the ids
    [get_favorite_ids] lists for the user (when it lists fewer than 500),
    and [remove_favorite] right after it leaves the favourites exactly as
    they were before the two calls. *)
Theorem X9_add_then_remove_favourite
    (route_id : string) (user : User) (db : Database) (doc : FavoriteDoc)
    (db1 : Database) :
  add_favorite utcnow uuid4 route_id user db = Ok (doc, db1) ->
  ((List.length (get_favorite_ids user db) < 500)%nat ->
   get_favorite_ids user db1 = get_favorite_ids user db ++ [route_id]) /\
  exists db2,
    remove_favorite route_id user db1 = Ok ("Removed from favorites", db2) /\
    db_favorites db2 = db_favorites db /\
    get_favorite_ids user db2 = get_favorite_ids user db.
Proof.
  intros H. apply add_favorite_ok in H
    as (route & Hr & Hnone & Hu & Hrid & _ & Hf & _).
  assert (Hkey : is_favorite (u_id user) route_id (stored_favorite doc) = true).
  { apply is_favorite_key. unfold favorite_key. simpl. congruence. }
  split.
  - unfold get_favorite_ids. rewrite length_map. intros Hlen.
    rewrite Hf, List.filter_app. simpl. rewrite Hu, String.eqb_refl.
    assert (Hlt : (List.length
                     (List.filter
                        (fun fav => String.eqb (f_user_id fav) (u_id user))
                        (db_favorites db)) < 500)%nat).
    { destruct (le_lt_dec 500 (List.length
                 (List.filter
                    (fun fav => String.eqb (f_user_id fav) (u_id user))
                    (db_favorites db)))) as [Hge|]; [| assumption].
      rewrite firstn_length_le in Hlen by assumption. lia. }
    rewrite !firstn_all2 by (rewrite ?length_app; simpl; lia).
    rewrite map_app. simpl. now rewrite Hrid.
  - unfold remove_favorite. rewrite Hf, find_app, Hnone. simpl.
    rewrite Hkey. eexists. split; [reflexivity |].
    apply find_none_forall in Hnone.
    assert (Hdel : delete_first (is_favorite (u_id user) route_id)
                     (db_favorites db ++ [stored_favorite doc])
                   = db_favorites db).
    { rewrite delete_first_split by assumption. apply app_nil_r. }
    unfold get_favorite_ids. simpl. rewrite Hdel. auto.
Qed.

(** X10.  A user who has added a route to their favourites is among
    those the zone-creation fan-out notifies for it: whenever a new zone
    conflicts with the route, one of the drafts is for that user (as long
    as fewer than 5000 users had the route as a favourite). *)
Theorem X10_favoriter_is_notified
    (route_id : string) (user : User) (db : Database) (doc : FavoriteDoc)
    (db' : Database) (zone_doc : Zone) (original_zone_shape zone_shape : geom)
    (route : Route) (route_shape : geom) (verdict : bool * option pynum) :
  add_favorite utcnow uuid4 route_id user db = Ok (doc, db') ->
  r_id route = route_id ->
  (List.length
     (List.filter (fun fav => String.eqb (f_route_id fav) route_id)
        (db_favorites db)) < 5000)%nat ->
  shape (r_geometry route) = Ok route_shape ->
  fanout_conflict original_zone_shape zone_shape route_shape
    = Ok (Some verdict) ->
  u_id user ∈ users_to_notify route db' /\
  exists drafts,
    zone_route_drafts py_format zone_doc original_zone_shape zone_shape
      db' route = Ok drafts /\
    In (zone_draft py_format zone_doc route verdict (u_id user)) drafts.
Proof.
  intros H Hid Hlen Hrs Hv. apply add_favorite_ok in H
    as (_ & _ & _ & Hu & Hrid & _ & Hf & _).
  assert (Hin : u_id user ∈ users_to_notify route db').
  { unfold users_to_notify. apply elem_of_union. right.
    apply elem_of_list_to_set, list_elem_of_In.
    rewrite Hf, Hid, List.filter_app. simpl. rewrite Hrid, String.eqb_refl.
    rewrite firstn_all2 by (rewrite length_app; simpl; lia).
    rewrite map_app. apply in_or_app. right. simpl. auto. }
  split; [assumption |].
  unfold zone_route_drafts. rewrite Hrs. simpl. rewrite Hv. simpl.
  eexists. split; [reflexivity |].
  apply in_map. now apply list_elem_of_In, elem_of_elements.
Qed.

(** ** The inbox *)

Lemma unread_other (user_id other : string) (n : Notification) :
  other <> user_id -> n_user_id n = user_id ->
  is_unread_of other n = false.
Proof.
  intros Hne Hn. unfold is_unread_of. rewrite Hn.
  apply not_eq_sym, String.eqb_neq in Hne. now rewrite Hne.
Qed.

Lemma mark_read_step (user_id : string) (n : Notification) :
  let n' := if is_unread_of user_id n then set_read n else n in
  is_unread_of user_id n' = false /\
  (forall other, other <> user_id ->
     is_unread_of other n' = is_unread_of other n) /\
  n_id n' = n_id n /\ n_draft n' = n_draft n.
Proof.
  simpl. destruct (is_unread_of user_id n) eqn:Hn.
  - split; [unfold is_unread_of; simpl; apply andb_false_r |].
    split; [| auto]. intros other Hne.
    apply andb_true_iff in Hn as [Hu _]. apply String.eqb_eq in Hu.
    rewrite (unread_other _ _ n Hne Hu).
    now apply (unread_other user_id other (set_read n)).
  - auto.
Qed.

(** X11.  After [mark_all_read] the user has no unread notification;
    the unread count of every other user, and the notifications
    themselves, are as before. *)
Theorem X11_mark_all_read_clears_the_count (user : User) (db : Database) :
  let db' := snd (mark_all_read user db) in
  get_unread_count user db' = 0%nat /\
  (forall other, u_id other <> u_id user ->
     get_unread_count other db' = get_unread_count other db) /\
  map n_id (db_notifications db') = map n_id (db_notifications db) /\
  map n_draft (db_notifications db') = map n_draft (db_notifications db).
Proof.
  unfold get_unread_count. simpl.
  induction (db_notifications db) as [|n l (IH1 & IH2 & IH3 & IH4)];
    [simpl; auto |].
  destruct (mark_read_step (u_id user) n) as (H1 & H2 & H3 & H4).
  cbn [map List.filter]. rewrite H1, H3, H4, IH3, IH4.
  split; [exact IH1 |]. split; [| auto].
  intros other Hne. rewrite (H2 (u_id other) Hne).
  destruct (is_unread_of (u_id other) n); cbn [List.length];
    now rewrite (IH2 other Hne).
Qed.

(** X12.  [mark_notification_read] succeeds only on an unread
    notification of the user: the user's unread count then drops by one,
    the other users' counts stay, and marking the same notification
    again answers 404. *)
Theorem X12_mark_read_once
    (notification_id : string) (user : User) (db : Database) (msg : string)
    (db' : Database) :
  mark_notification_read notification_id user db = Ok (msg, db') ->
  S (get_unread_count user db') = get_unread_count user db /\
  (forall other, u_id other <> u_id user ->
     get_unread_count other db' = get_unread_count other db) /\
  mark_notification_read notification_id user db'
  = Raise (HTTPException 404 "Notification not found") /\
  map n_draft (db_notifications db') = map n_draft (db_notifications db).
Proof.
  unfold mark_notification_read.
  destruct (List.find _ (db_notifications db)) as [n|] eqn:Hfind;
    [| discriminate].
  destruct (n_read n) eqn:Hread; [discriminate |].
  intros [= <- <-]. simpl.
  apply find_split in Hfind as (l1 & l2 & Hl & Hn & Hl1).
  rewrite Hl, update_first_split by assumption.
  assert (Hu : n_user_id n = u_id user).
  { unfold is_notification in Hn. apply andb_true_iff in Hn as [_ Hn].
    now apply String.eqb_eq. }
  assert (Hn1 : is_unread_of (u_id user) n = true).
  { unfold is_unread_of. now rewrite Hu, String.eqb_refl, Hread. }
  assert (Hn2 : is_unread_of (u_id user) (set_read n) = false).
  { unfold is_unread_of. simpl. apply andb_false_r. }
  unfold get_unread_count. simpl. rewrite Hl.
  repeat split.
  - rewrite !List.filter_app, !length_app. cbn [List.filter].
    rewrite Hn1, Hn2. simpl. lia.
  - intros other Hne. rewrite !List.filter_app, !length_app.
    cbn [List.filter]. rewrite (unread_other _ _ n Hne Hu).
    now rewrite (unread_other (u_id user) _ (set_read n) Hne Hu).
  - rewrite find_none_app by assumption. simpl.
    replace (is_notification notification_id (u_id user) (set_read n))
      with true by (symmetry; exact Hn).
    reflexivity.
  - rewrite !map_app. reflexivity.
Qed.

(** X22.  [delete_notification] removes at most one notification, one
    of the caller's with the given id; the notifications of every other
    user stay, in their order, and when none matches nothing changes
    although the answer is the same. *)
Theorem X22_delete_notification_is_scoped_to_the_user
    (notification_id : string) (user : User) (db : Database) :
  let db' := snd (delete_notification notification_id user db) in
  fst (delete_notification notification_id user db) = "Deleted" /\
  (forall other, u_id other <> u_id user ->
     List.filter (fun n => String.eqb (n_user_id n) (u_id other))
       (db_notifications db')
     = List.filter (fun n => String.eqb (n_user_id n) (u_id other))
         (db_notifications db)) /\
  match List.find (is_notification notification_id (u_id user))
          (db_notifications db) with
  | Some n =>
      n_user_id n = u_id user /\ n_id n = notification_id /\
      S (List.length (db_notifications db'))
      = List.length (db_notifications db) /\
      (List.NoDup (map n_id (db_notifications db)) ->
       ~ In n (db_notifications db'))
  | None => db_notifications db' = db_notifications db
  end.
Proof.
  simpl. split; [reflexivity |]. split.
  - intros other Hne.
    induction (db_notifications db) as [|n l IH]; simpl; [reflexivity |].
    destruct (is_notification notification_id (u_id user) n) eqn:Hn; simpl.
    + apply andb_true_iff in Hn as [_ Hu]. apply String.eqb_eq in Hu.
      rewrite Hu. apply not_eq_sym, String.eqb_neq in Hne. now rewrite Hne.
    + now rewrite IH.
  - destruct (List.find _ (db_notifications db)) as [n|] eqn:Hfind.
    + apply find_split in Hfind as (l1 & l2 & Hl & Hn & Hl1).
      rewrite Hl, delete_first_split by assumption.
      apply andb_true_iff in Hn as [Hid Hu].
      apply String.eqb_eq in Hid, Hu.
      repeat split; try assumption.
      * rewrite !length_app. simpl. lia.
      * rewrite map_app. simpl. intros Hnd Hin.
        apply NoDup_remove_2 in Hnd. apply Hnd.
        rewrite <- map_app. now apply in_map.
    + apply find_none_forall in Hfind.
      induction Hfind as [|n l Hn _ IH]; simpl; [reflexivity |].
      now rewrite Hn, IH.
Qed.

Lemma create_notifications_new (drafts : list Draft) (db : Database) :
  let db' := fold_left (create_notification utcnow uuid4) drafts db in
  exists news,
    db_notifications db' = db_notifications db ++ news /\
    map n_draft news = drafts /\
    Forall (fun n => n_read n = false) news /\
    db_zones db' = db_zones db /\
    db_routes db' = db_routes db /\
    db_favorites db' = db_favorites db.
Proof.
  revert db. induction drafts as [|d drafts IH]; intros db; simpl.
  - exists []. rewrite app_nil_r. repeat split; auto.
  - destruct (IH (create_notification utcnow uuid4 db d))
      as (news & Hn & Hd & Hr & Hz & Hro & Hf).
    eexists (_ :: news). rewrite Hn. simpl. rewrite <- app_assoc. simpl.
    split; [reflexivity |]. rewrite Hd. repeat split; auto.
Qed.

(** X13.  The upload fan-out writes at most one notification for each
    upcoming zone, every one of them unread, of type [route_warning],
    about the uploaded route and for the uploader: no other user's unread
    count changes, and zones, routes and favourites are not written. *)
Theorem X13_upload_fanout_notifies_the_uploader_only
    (route_doc : Route) (user_id : string) (db : Database) :
  let db' :=
    check_uploaded_route_against_zones utcnow uuid4 py_format
      route_doc user_id db in
  exists news,
    db_notifications db' = db_notifications db ++ news /\
    Forall (fun n =>
              n_user_id n = user_id /\ n_read n = false /\
              dr_notif_type (n_draft n) = "route_warning" /\
              d_route_id (dr_data (n_draft n)) = r_id route_doc) news /\
    (List.length news <= List.length (upcoming_zones utcnow db))%nat /\
    db_zones db' = db_zones db /\
    db_routes db' = db_routes db /\
    db_favorites db' = db_favorites db /\
    forall other, u_id other <> user_id ->
      get_unread_count other db' = get_unread_count other db.
Proof.
  clear gpx_parse. intros db'.
  assert (Hloop : forall route_shape zones db0,
    let db1 :=
      fold_left
        (upload_zone_step utcnow uuid4 py_format route_doc user_id route_shape)
        zones db0 in
    exists news,
      db_notifications db1 = db_notifications db0 ++ news /\
      Forall (fun n =>
                n_user_id n = user_id /\ n_read n = false /\
                dr_notif_type (n_draft n) = "route_warning" /\
                d_route_id (dr_data (n_draft n)) = r_id route_doc) news /\
      (List.length news <= List.length zones)%nat /\
      db_zones db1 = db_zones db0 /\
      db_routes db1 = db_routes db0 /\
      db_favorites db1 = db_favorites db0).
  { intros route_shape zones.
    induction zones as [|zone zones IH]; intros db0; simpl.
    - exists []. rewrite app_nil_r. auto 10.
    - destruct (upload_zone_drafts py_format route_doc user_id route_shape zone)
        as [drafts|e] eqn:Hd.
      + assert (Hstep :
          upload_zone_step utcnow uuid4 py_format route_doc user_id
            route_shape db0 zone
          = fold_left (create_notification utcnow uuid4) drafts db0)
          by (unfold upload_zone_step; now rewrite Hd).
        rewrite Hstep.
        assert (Hdrafts : drafts = [] \/
                  exists v, drafts = [upload_draft py_format route_doc user_id zone v]).
        { unfold upload_zone_drafts in Hd.
          bind_inv Hd. bind_inv Hd. bind_inv Hd.
          destruct a1 as [v|]; injection Hd as <-; eauto. }
        destruct (create_notifications_new drafts db0)
          as (news0 & Hn0 & Hd0 & Hr0 & Hz0 & Hro0 & Hf0).
        destruct (IH (fold_left (create_notification utcnow uuid4) drafts db0))
          as (news & Hn & Hall & Hlen & Hz & Hro & Hf).
        exists (news0 ++ news). rewrite Hn, Hn0, <- app_assoc.
        split; [reflexivity |]. split; [| split].
        * apply Forall_app. split; [| assumption].
          destruct Hdrafts as [-> | [[c pct] ->]].
          -- destruct news0; [constructor | discriminate].
          -- destruct news0 as [|n0 [|? ?]]; try discriminate.
             injection Hd0 as Hd0. inversion Hr0; subst.
             constructor; [| constructor]. unfold n_user_id. rewrite Hd0.
             auto.
        * rewrite length_app.
          assert (List.length news0 <= 1)%nat; [| lia].
          rewrite <- (length_map n_draft), Hd0.
          destruct Hdrafts as [-> | [v ->]]; simpl; lia.
        * rewrite Hz, Hro, Hf. auto.
      + assert (Hstep :
          upload_zone_step utcnow uuid4 py_format route_doc user_id
            route_shape db0 zone = db0)
          by (unfold upload_zone_step; now rewrite Hd).
        rewrite Hstep.
        destruct (IH db0) as (news & Hn & Hall & Hlen & Hrest).
        exists news. repeat split; try tauto. lia. }
  assert (Hcount : forall news other,
    Forall (fun n =>
              n_user_id n = user_id /\ n_read n = false /\
              dr_notif_type (n_draft n) = "route_warning" /\
              d_route_id (dr_data (n_draft n)) = r_id route_doc) news ->
    u_id other <> user_id ->
    List.filter (is_unread_of (u_id other)) news = []).
  { intros news other Hall Hne.
    induction Hall as [|n news (Hu & _) _ IH]; simpl; [reflexivity |].
    now rewrite (unread_other _ _ n Hne Hu). }
  subst db'. unfold check_uploaded_route_against_zones.
  destruct (shape (r_geometry route_doc)) as [route_shape|e].
  - destruct (Hloop route_shape (upcoming_zones utcnow db) db)
      as (news & Hn & Hall & Hlen & Hz & Hro & Hf).
    exists news. repeat split; try assumption.
    intros other Hne. unfold get_unread_count.
    rewrite Hn, List.filter_app, (Hcount news other Hall Hne).
    now rewrite app_nil_r.
  - exists []. rewrite app_nil_r. repeat split; auto. simpl. lia.
Qed.

Lemma zone_draft_user (zone_doc : Zone) (route : Route)
    (v : bool * option pynum) (uid : string) :
  dr_user_id (zone_draft py_format zone_doc route v uid) = uid.
Proof. now destruct v. Qed.

(** Who the zone-creation fan-out notifies about a route. *)
Lemma users_to_notify_spec (route : Route) (db : Database) (uid : string) :
  In uid (elements (users_to_notify route db)) <->
  (uid = r_user_id route /\ r_user_id route <> ANONYMOUS) \/
  exists fav,
    In fav (firstn 5000
              (List.filter
                 (fun fav => String.eqb (f_route_id fav) (r_id route))
                 (db_favorites db))) /\
    f_user_id fav = uid.
Proof.
  rewrite <- list_elem_of_In, elem_of_elements.
  unfold users_to_notify. rewrite elem_of_union, elem_of_list_to_set.
  rewrite list_elem_of_In, in_map_iff.
  destruct (String.eqb (r_user_id route) ANONYMOUS) eqn:Hanon.
  - apply String.eqb_eq in Hanon. rewrite elem_of_empty. split.
    + intros [[] | (fav & Hu & Hin)]. right. eauto.
    + intros [[_ Hne] | (fav & Hin & Hu)]; [now contradiction Hne |].
      right. eauto.
  - apply String.eqb_neq in Hanon. rewrite elem_of_singleton. split.
    + intros [-> | (fav & Hu & Hin)]; [left; auto | right; eauto].
    + intros [[-> _] | (fav & Hin & Hu)]; [left; reflexivity | right; eauto].
Qed.

(** X14.  For a route the zone-creation fan-out finds in conflict, it
    writes exactly one draft for each recipient: the owner of the route
    unless anonymous, and every user who has the route among their
    favourites (the first 5000 favourites of the route are read); no two
    drafts are for the same user.  For a route that is not in conflict it
    writes none.  Every draft is of type [zone_conflict] and names the
    route and the zone. *)
Theorem X14_zone_fanout_one_draft_per_recipient
    (zone_doc : Zone) (original_zone_shape zone_shape : geom)
    (db : Database) (route : Route) (drafts : list Draft) :
  zone_route_drafts py_format zone_doc original_zone_shape zone_shape
    db route = Ok drafts ->
  (exists route_shape verdict,
     shape (r_geometry route) = Ok route_shape /\
     fanout_conflict original_zone_shape zone_shape route_shape = Ok verdict /\
     match verdict with
     | None => drafts = []
     | Some v =>
         (forall uid,
            In uid (map dr_user_id drafts) <->
            (uid = r_user_id route /\ r_user_id route <> ANONYMOUS) \/
            exists fav,
              In fav (firstn 5000
                        (List.filter
                           (fun fav =>
                              String.eqb (f_route_id fav) (r_id route))
                           (db_favorites db))) /\
              f_user_id fav = uid) /\
         (forall d, In d drafts ->
            d = zone_draft py_format zone_doc route v (dr_user_id d))
     end) /\
  List.NoDup (map dr_user_id drafts) /\
  Forall (fun d =>
            dr_notif_type d = "zone_conflict" /\
            d_route_id (dr_data d) = r_id route /\
            d_zone_id (dr_data d) = z_id zone_doc /\
            ((dr_user_id d = r_user_id route /\
              r_user_id route <> ANONYMOUS) \/
             exists fav, In fav (db_favorites db) /\
                         f_route_id fav = r_id route /\
                         f_user_id fav = dr_user_id d)) drafts.
Proof.
  unfold zone_route_drafts. intros H. bind_inv H. bind_inv H.
  rename a into route_shape, a0 into verdict.
  assert (Hids : forall v,
            map dr_user_id
              (map (zone_draft py_format zone_doc route v)
                 (elements (users_to_notify route db)))
            = elements (users_to_notify route db)).
  { intros v. rewrite map_map. erewrite map_ext; [apply map_id |].
    intros uid. apply zone_draft_user. }
  split; [| split].
  - exists route_shape, verdict. repeat split; try assumption.
    destruct verdict as [v|]; injection H as <-; [| reflexivity].
    split.
    + intros uid. rewrite Hids. apply users_to_notify_spec.
    + intros d Hin. apply in_map_iff in Hin as (uid & <- & _).
      now rewrite zone_draft_user.
  - destruct verdict as [v|]; injection H as <-; [| constructor].
    rewrite Hids. apply NoDup_ListNoDup, NoDup_elements.
  - destruct verdict as [[c pct]|]; injection H as <-; [| constructor].
    apply List.Forall_forall. intros d Hin.
    apply in_map_iff in Hin as (uid & <- & Hin). simpl.
    repeat split.
    apply users_to_notify_spec in Hin as [Hin | (fav & Hin & Hfu)].
    + now left.
    + right. apply In_firstn, filter_In in Hin as [Hin Hfr].
      apply String.eqb_eq in Hfr. eauto.
Qed.

Lemma zone_route_drafts_about (zone_doc : Zone)
    (original_zone_shape zone_shape : geom) (db : Database) (route : Route)
    (drafts : list Draft) :
  zone_route_drafts py_format zone_doc original_zone_shape zone_shape
    db route = Ok drafts ->
  Forall (fun d =>
            dr_notif_type d = "zone_conflict" /\
            d_zone_id (dr_data d) = z_id zone_doc /\
            d_route_id (dr_data d) = r_id route) drafts.
Proof.
  unfold zone_route_drafts. intros H. bind_inv H. bind_inv H.
  destruct a0 as [[c pct]|]; injection H as <-; [| constructor].
  apply List.Forall_forall. intros d Hin.
  apply in_map_iff in Hin as (uid & <- & _). simpl. auto.
Qed.

(** X21.  The zone-creation fan-out only adds notifications: each one
    is unread, of type [zone_conflict], about the new zone and about one
    of the routes it read; zones, routes and favourites are not
    written. *)
Theorem X21_zone_fanout_writes_notifications_only
    (zone_doc : Zone) (db : Database) :
  let db' :=
    check_routes_against_new_zone utcnow uuid4 py_format zone_doc db in
  exists news,
    db_notifications db' = db_notifications db ++ news /\
    Forall (fun n =>
              n_read n = false /\
              dr_notif_type (n_draft n) = "zone_conflict" /\
              d_zone_id (dr_data (n_draft n)) = z_id zone_doc /\
              exists route,
                In route (firstn 5000 (db_routes db)) /\
                d_route_id (dr_data (n_draft n)) = r_id route) news /\
    db_zones db' = db_zones db /\
    db_routes db' = db_routes db /\
    db_favorites db' = db_favorites db.
Proof.
  clear gpx_parse. intros db'.
  assert (Hloop : forall os zs routes db0,
    let db1 :=
      fold_left (zone_route_step utcnow uuid4 py_format zone_doc os zs)
        routes db0 in
    exists news,
      db_notifications db1 = db_notifications db0 ++ news /\
      Forall (fun n =>
                n_read n = false /\
                dr_notif_type (n_draft n) = "zone_conflict" /\
                d_zone_id (dr_data (n_draft n)) = z_id zone_doc /\
                exists route,
                  In route routes /\
                  d_route_id (dr_data (n_draft n)) = r_id route) news /\
      db_zones db1 = db_zones db0 /\
      db_routes db1 = db_routes db0 /\
      db_favorites db1 = db_favorites db0).
  { intros os zs routes.
    induction routes as [|route routes IH]; intros db0; simpl.
    - exists []. rewrite app_nil_r. repeat split; auto.
    - assert (Hweaken : forall news,
        Forall (fun n =>
                  n_read n = false /\
                  dr_notif_type (n_draft n) = "zone_conflict" /\
                  d_zone_id (dr_data (n_draft n)) = z_id zone_doc /\
                  exists r, In r routes /\
                            d_route_id (dr_data (n_draft n)) = r_id r) news ->
        Forall (fun n =>
                  n_read n = false /\
                  dr_notif_type (n_draft n) = "zone_conflict" /\
                  d_zone_id (dr_data (n_draft n)) = z_id zone_doc /\
                  exists r, (route = r \/ In r routes) /\
                            d_route_id (dr_data (n_draft n)) = r_id r) news).
      { intros news. apply List.Forall_impl.
        intros n (H1 & H2 & H3 & r & Hr & H4). eauto 10. }
      destruct (zone_route_drafts py_format zone_doc os zs db0 route)
        as [drafts|e] eqn:Hd.
      + assert (Hstep :
          zone_route_step utcnow uuid4 py_format zone_doc os zs db0 route
          = fold_left (create_notification utcnow uuid4) drafts db0)
          by (unfold zone_route_step; now rewrite Hd).
        rewrite Hstep.
        apply zone_route_drafts_about in Hd.
        destruct (create_notifications_new drafts db0)
          as (news0 & Hn0 & Hd0 & Hr0 & Hz0 & Hro0 & Hf0).
        destruct (IH (fold_left (create_notification utcnow uuid4) drafts db0))
          as (news & Hn & Hall & Hz & Hro & Hf).
        exists (news0 ++ news). rewrite Hn, Hn0, <- app_assoc.
        split; [reflexivity |]. split.
        * apply Forall_app. split; [| now apply Hweaken].
          subst drafts. clear - Hd Hr0.
          induction news0 as [|n news0 IHn]; [constructor |].
          inversion Hd as [|? ? (H1 & H2 & H3) Hd']; subst.
          inversion Hr0; subst.
          constructor; [| now apply IHn]. eauto 10.
        * rewrite Hz, Hro, Hf. auto.
      + assert (Hstep :
          zone_route_step utcnow uuid4 py_format zone_doc os zs db0 route
          = db0)
          by (unfold zone_route_step; now rewrite Hd).
        rewrite Hstep.
        destruct (IH db0) as (news & Hn & Hall & Hrest).
        exists news. split; [exact Hn |]. split; [now apply Hweaken | exact Hrest]. }
  subst db'. unfold check_routes_against_new_zone.
  destruct (shape (zone_geom zone_doc)) as [zs|e]; simpl.
  - destruct (shape (z_geometry zone_doc)) as [os|e]; simpl.
    + apply Hloop.
    + exists []. rewrite app_nil_r. repeat split; auto.
  - exists []. rewrite app_nil_r. repeat split; auto.
Qed.

(** ** The check and the report *)

(** X15.  A check by [route_id] is the check of the stored route's
    geometry: a geometry sent along with the id is ignored, and an id
    that no route has answers 404, whatever geometry comes with it. *)
Theorem X15_check_by_id_reads_the_stored_route
    (route_id : string) (geometry : option geojson)
    (check_time : option string) (db : Database) :
  route_id <> EmptyString ->
  let by_id :=
    {| ir_route_id := Some route_id; ir_route_geometry := geometry;
       ir_check_time := check_time |} in
  match find_route route_id db with
  | Some route =>
      check_intersection utcnow by_id db
      = check_intersection utcnow
          {| ir_route_id := None;
             ir_route_geometry := Some (r_geometry route);
             ir_check_time := check_time |} db
  | None =>
      check_intersection utcnow by_id db
      = Raise (HTTPException 404 "Route not found")
  end.
Proof.
  intros Hne. unfold check_intersection, find_route, has_route_id. simpl.
  destruct route_id as [|c rest]; [now contradiction Hne |]. simpl.
  now destruct (List.find _ (db_routes db)).
Qed.

Lemma report_rows_In (route_shape : geom) (zones : list Zone) (zone : Zone)
    (row : ReportRow) :
  In zone zones ->
  report_row py_format route_shape zone = Ok (Some row) ->
  In row (report_rows py_format route_shape zones).
Proof.
  intros Hin Hrow. induction zones as [|z zones IH]; [destruct Hin |].
  simpl. destruct Hin as [-> | Hin].
  - rewrite Hrow. now left.
  - destruct (report_row py_format route_shape z) as [[r|]|e]; simpl; auto.
Qed.

Lemma report_lines_In (route_name check_time generated : string)
    (intersecting : list ReportRow) (row : ReportRow) :
  In row intersecting ->
  In (report_cells row)
     (report_lines py_format route_name check_time generated intersecting).
Proof.
  intros Hin. unfold report_lines.
  apply in_or_app. right. apply in_or_app. left.
  destruct intersecting as [|r rest]; [destruct Hin |].
  apply in_or_app. right. now apply in_map.
Qed.

(** X16.  The report and the on-demand check agree on every conflict
    that is not [contained]: the table of the report has a line for the
    zone, whose cells are the name of the zone cut to 25 characters, its
    association cut to 20, its start and its end cut to 16, and the overlap
    percentage of the conflict followed by a percent sign. *)
Theorem X16_report_lists_the_conflicts_of_the_check
    (generated : string) (data : IntersectionRequest) (db : Database)
    (resp : IntersectionResult) (document : list (list string)) :
  check_intersection utcnow data db = Ok resp ->
  generate_pdf_report utcnow py_format generated data db = Ok document ->
  forall c,
    In c (res_zones resp) -> c_conflict_type c <> "contained" ->
    In [String.substring 0 25 (c_zone_name c);
        String.substring 0 20 (c_association c);
        String.substring 0 16 (c_start_time c);
        String.substring 0 16 (c_end_time c);
        py_format (c_overlap_percentage c) +:+ "%"]
       document.
Proof.
  unfold check_intersection, generate_pdf_report.
  intros Hc Hr c Hin Hty. bind_inv Hc. bind_inv Hr.
  assert (Hsame : fst a0 = a).
  { unfold find_route, has_route_id in Ha0.
    destruct (str_truthy (ir_route_id data)) as [rid|].
    - destruct (List.find _ (db_routes db)) as [route|]; [| discriminate].
      injection Ha as <-. now injection Ha0 as <-.
    - injection Ha as <-. now injection Ha0 as <-. }
  rewrite Hsame in Hr. destruct a as [g|]; [| discriminate].
  destruct (geojson_truthy g); simpl in Hc, Hr; [| discriminate].
  bind_inv Hr. rename a into route_shape. rewrite Ha1 in Hc.
  injection Hr as <-.
  destruct (active_zones_at _ db) as [|z zs] eqn:Hz.
  { injection Hc as <-. destruct Hin. }
  injection Hc as <-. unfold intersection_result in Hin.
  cbn [res_zones] in Hin.
  apply (check_route_against_zones_In route_shape (z :: zs)) in Hin
    as (zone & Hzone & Hcz).
  set (row := {| row_name := c_zone_name c;
                 row_association := c_association c;
                 row_start := c_start_time c;
                 row_end := c_end_time c;
                 row_overlap := py_format (c_overlap_percentage c) +:+ "%" |}).
  change (In (report_cells row)
            (report_lines py_format (snd a0)
               (default utcnow (str_truthy (ir_check_time data))) generated
               (report_rows py_format route_shape (z :: zs)))).
  apply report_lines_In.
  apply (report_rows_In _ _ zone); [assumption |].
  apply check_zone_cases in Hcz
    as (zsh & os & b & i & w & Hzs & _ & _ & Hi & _ & H).
  unfold report_row. rewrite Hzs. simpl. rewrite Hi. simpl.
  destruct H as [[_ [= ->]] | [(_ & -> & _ & p & Hp & [= ->])
                  | [(_ & -> & _ & p & Hp & [= ->]) | (_ & _ & [=])]]];
    [now contradiction Hty | |]; rewrite Hp; reflexivity.
Qed.

(** X17.  [get_stats] counts every zone and every active zone, while
    the listings stop at 1000: [get_zones] returns min(1000, count) zones,
    with [active] as without. *)
Theorem X17_stats_count_beyond_the_listing (db : Database)
    (users : list UserDoc) :
  let stats := get_stats utcnow db users in
  (active_zones stats <= total_zones stats)%nat /\
  List.length (get_zones utcnow (Some true) None db)
  = Nat.min 1000 (active_zones stats) /\
  List.length (get_zones utcnow None None db)
  = Nat.min 1000 (total_zones stats).
Proof.
  simpl. unfold get_zones. simpl.
  split; [apply filter_length_le |].
  now rewrite !length_firstn.
Qed.

End ExtraProperties.

(** ** Accounts *)

Lemma py_split_nonempty (sep : ascii) (s : string) : py_split sep s <> [].
Proof.
  destruct s as [|c s]; simpl; [discriminate |].
  destruct (Ascii.eqb c sep); [discriminate |].
  destruct (py_split sep s); discriminate.
Qed.

Lemma py_split_no_separator (sep : ascii) (s : string) :
  ~ In sep (list_ascii_of_string s) -> py_split sep s = [s].
Proof.
  induction s as [|c s IH]; simpl; [reflexivity |].
  intros Hnot. destruct (Ascii.eqb c sep) eqn:Hc.
  - apply Ascii.eqb_eq in Hc. exfalso. apply Hnot. now left.
  - rewrite IH; [reflexivity |]. intros Hin. apply Hnot. now right.
Qed.

Section AccountProperties.

Set Default Proof Using "Type".

Variable utcnow : string.
Variable utc_timestamp : Q.
Variable uuid4 : nat -> string.
Variable jwt_encode : string -> string -> Q -> string.
Variable jwt_decode : string -> jwt_outcome.
Variable bcrypt_hashpw : string -> nat -> string.
Variable bcrypt_checkpw : string -> string -> bool.

(** X18.  [get_optional_user] finds a user exactly when
    [get_current_user] returns that user; a request without a header
    that starts with ["Bearer "] is refused with 401 by the one and is
    anonymous for the other. *)
Theorem X18_optional_user_agrees_with_current_user
    (authorization : option string) (users : list UserDoc) :
  (forall user,
     get_current_user jwt_decode authorization users = Ok user <->
     get_optional_user jwt_decode authorization users = Some user) /\
  (no_bearer authorization = true ->
   get_current_user jwt_decode authorization users
   = Raise (HTTPException 401 "Not authenticated") /\
   get_optional_user jwt_decode authorization users = None).
Proof.
  unfold get_current_user, get_optional_user.
  destruct (no_bearer authorization); simpl.
  - split; [| auto]. intros user. split; discriminate.
  - split; [| discriminate]. intros user.
    destruct (bearer_token (default EmptyString authorization)) as [token|e];
      simpl; [| split; discriminate].
    destruct (jwt_decode token) as [[user_id|]| | |msg];
      try (split; discriminate).
    destruct (find_user user_id users) as [u|]; split; congruence.
Qed.

(** X19.  For the header ["Bearer " + token] the token that is decoded
    is the text after ["Bearer "] up to its first space, hence the whole
    token when it has no space. *)
Theorem X19_bearer_token_is_decoded (token : string) (users : list UserDoc) :
  no_bearer (Some ("Bearer " +:+ token)) = false /\
  bearer_token ("Bearer " +:+ token)
  = Ok (hd EmptyString (py_split " "%char token)) /\
  (~ In " "%char (list_ascii_of_string token) ->
   get_optional_user jwt_decode (Some ("Bearer " +:+ token)) users
   = match jwt_decode token with
     | JwtPayload (Some user_id) => find_user user_id users
     | _ => None
     end).
Proof.
  assert (Hb : no_bearer (Some ("Bearer " +:+ token)) = false).
  { unfold no_bearer. simpl. now destruct token. }
  assert (Ht : bearer_token ("Bearer " +:+ token)
               = Ok (hd EmptyString (py_split " "%char token))).
  { unfold bearer_token. simpl. change (EmptyString +:+ token) with token.
    pose proof (py_split_nonempty " "%char token) as Hne.
    destruct (py_split " "%char token) as [|w ws]; [now contradiction Hne |].
    reflexivity. }
  split; [exact Hb |]. split; [exact Ht |].
  intros Hnot. unfold get_optional_user. rewrite Hb.
  change (default EmptyString (Some ("Bearer " +:+ token)))
    with ("Bearer " +:+ token).
  rewrite Ht, (py_split_no_separator _ _ Hnot). reflexivity.
Qed.

(** X20.  A user who has registered can log in with the same email and
    password (given that [bcrypt.checkpw] accepts the hash that
    [bcrypt.hashpw] made of it) and gets the same account back; the email
    cannot be registered again; emails stay distinct; and the logins of
    the other emails are as before. *)
Theorem X20_register_then_login
    (data : UserRegister) (store : UserStore) (resp : AuthResponse)
    (store' : UserStore) :
  register utcnow utc_timestamp uuid4 jwt_encode bcrypt_hashpw data store
    = Ok (resp, store') ->
  bcrypt_checkpw (ur_password data)
    (bcrypt_hashpw (ur_password data) (us_salts store)) = true ->
  (exists resp',
     login utc_timestamp jwt_encode bcrypt_checkpw
       {| ul_email := ur_email data; ul_password := ur_password data |}
       store' = Ok resp' /\
     ar_user resp' = ar_user resp /\
     uv_email (ar_user resp) = ur_email data /\
     uv_role (ar_user resp) = ur_role data) /\
  register utcnow utc_timestamp uuid4 jwt_encode bcrypt_hashpw data store'
  = Raise (HTTPException 400 "Email already registered") /\
  (List.NoDup (map ud_email (us_users store)) ->
   List.NoDup (map ud_email (us_users store'))) /\
  (forall other,
     ul_email other <> ur_email data ->
     login utc_timestamp jwt_encode bcrypt_checkpw other store'
     = login utc_timestamp jwt_encode bcrypt_checkpw other store).
Proof.
  unfold register.
  destruct (find_email (ur_email data) (us_users store)) eqn:Hfind;
    [discriminate |].
  intros [= <- <-] Hcheck. unfold login, find_email in *. simpl.
  rewrite !find_app, Hfind. simpl. rewrite String.eqb_refl.
  unfold verify_password. simpl. rewrite Hcheck.
  split; [eexists; repeat split |]. split; [reflexivity |]. split.
  - intros Hnd. rewrite map_app. simpl.
    rewrite <- (rev_involutive (_ ++ _)). apply NoDup_rev.
    rewrite rev_app_distr. simpl. constructor; [| now apply NoDup_rev].
    rewrite <- in_rev. intros Hin.
    apply in_map_iff in Hin as (u & Hu & Hin).
    apply find_none_forall in Hfind. rewrite List.Forall_forall in Hfind.
    specialize (Hfind u Hin). simpl in Hfind.
    rewrite Hu, String.eqb_refl in Hfind. discriminate.
  - intros other Hne. rewrite find_app.
    destruct (List.find (fun u => String.eqb (ud_email u) (ul_email other))
                (us_users store)); [reflexivity |]. simpl.
    apply not_eq_sym, String.eqb_neq in Hne. now rewrite Hne.
Qed.

End AccountProperties.

(** * The other endpoints, evaluated *)

Section ExtraChecks.
Import Scenario Cases.

Lemma X1_witness :
  Forall zone_buffer_ok (db_zones zone_db) /\
  exists updated db',
    update_zone "uuid-0" no_buffer admin zone_db = Ok (updated, db') /\
    Forall zone_buffer_ok (db_zones db').
Proof.
  assert (Hok : Forall zone_buffer_ok (db_zones zone_db)).
  { constructor; [| constructor]. exists 111320%Z. split; reflexivity. }
  split; [exact Hok |].
  destruct (X1_zones_keep_their_buffer now uuid zone_db Hok) as (_ & Hu & _).
  do 2 eexists. split; [reflexivity |].
  eapply (Hu "uuid-0" no_buffer admin). reflexivity.
Defined.

(** With a buffer of 0 m the zone is stored with what the library makes
    of its polygon for the distance 0. *)
Example update_zone_removes_the_buffer :
  exists updated db',
    update_zone "uuid-0" no_buffer admin zone_db = Ok (Some updated, db') /\
    z_buffer_meters updated = Some 0%Z /\
    z_buffered_geometry updated
    = Some (Planar.BufferedPolygon (Planar.ring_of_box 2 0 6 2)%Q
              (0 # 111320)) /\
    get_zone "uuid-0" db' = Ok updated.
Proof. do 2 eexists. repeat split; reflexivity. Qed.

Lemma X2_witness :
  exists updated db',
    update_zone "uuid-0" no_buffer admin zone_db = Ok (updated, db') /\
    find_zone "uuid-0" db' = updated /\
    db_notifications db' = db_notifications zone_db.
Proof.
  do 2 eexists. split; [reflexivity |].
  destruct (X2_update_zone_rewrites_one_zone "uuid-0" no_buffer admin zone_db
              _ _ eq_refl)
    as (_ & zone & buffered & _ & _ & _ & _ & Hf & _ & _ & _ & _ & Hn).
  split; [exact Hf | exact Hn].
Defined.

Lemma X3_witness :
  exists db',
    delete_zone "uuid-0" admin zone_db = Ok ("Zone deleted", db') /\
    get_zone "uuid-0" db' = Raise (HTTPException 404 "Zone not found").
Proof.
  eexists. split; [reflexivity |].
  eapply (X3_delete_zone_removes_the_zone "uuid-0" admin zone_db).
  - repeat constructor. intros [].
  - reflexivity.
Defined.

Lemma X4_witness :
  get_zone "uuid-0" zone_db = Ok the_zone /\
  In the_zone (get_zones now None None zone_db).
Proof.
  destruct (X4_created_zone_is_found now uuid zone_data admin empty_db
              the_zone zone_db [CheckRoutesAgainstNewZone the_zone])
    as (_ & Hget & _ & Hin).
  - reflexivity.
  - reflexivity.
  - split; [exact Hget |]. apply Hin. simpl. lia.
Defined.

Lemma X5_witness :
  exists db1,
    toggle_route_visibility "r-cross" hiker route_db = Ok (false, db1) /\
    toggle_route_visibility "r-cross" hiker db1 = Ok (true, route_db).
Proof.
  eexists. split; [reflexivity |].
  eapply (X5_toggle_visibility_twice_restores "r-cross" hiker route_db false).
  reflexivity.
Defined.

Lemma X6_witness :
  exists route_doc db',
    upload_route now uuid parse "crossing.gpx" None EmptyString (Some hiker)
      zone_db
    = Ok (route_doc, db',
          [CheckUploadedRouteAgainstZones route_doc "hiker-1"]) /\
    r_name route_doc = "Crossing" /\
    r_geometry route_doc = Planar.LineString [(0, 1); (10, 1)]%Q /\
    db_routes db' = db_routes zone_db ++ [route_doc].
Proof.
  do 2 eexists. split; [reflexivity |].
  destruct (X6_uploaded_route_is_well_formed now uuid parse "crossing.gpx"
              None EmptyString (Some hiker) zone_db _ _ _ eq_refl)
    as ((gpx & Hg & Hname & Hgeo) & _ & _ & _ & _ & Hroutes & _).
  injection Hg as <-.
  split; [exact Hname | split; [exact Hgeo | exact Hroutes]].
Defined.

Lemma X7_witness :
  exists db',
    delete_route "r-cross" hiker route_db = Ok ("Route deleted", db') /\
    db_favorites db' = db_favorites route_db /\
    get_route_detail "r-cross" db'
    = Raise (HTTPException 404 "Route not found").
Proof.
  eexists. split; [reflexivity |].
  destruct (X7_delete_route_keeps_favourites "r-cross" hiker route_db
              _ _ eq_refl) as (_ & Hf & _ & _ & _ & _ & H404).
  split; [exact Hf |]. apply H404.
  repeat constructor; simpl; intuition discriminate.
Defined.

Lemma X8_witness :
  exists doc db',
    add_favorite now uuid "r-inside" walker route_db = Ok (doc, db') /\
    List.NoDup (map favorite_key (db_favorites db')) /\
    add_favorite now uuid "r-inside" walker db'
    = Raise (HTTPException 400 "Already in favorites").
Proof.
  destruct (X8_favourites_stay_unique now uuid route_db) as [Hadd _].
  - constructor.
  - do 2 eexists. split; [reflexivity |].
    eapply (Hadd "r-inside" walker). reflexivity.
Defined.

Lemma X9_witness :
  exists doc db1 db2,
    add_favorite now uuid "r-inside" walker route_db = Ok (doc, db1) /\
    get_favorite_ids walker db1 = ["r-inside"] /\
    remove_favorite "r-inside" walker db1
    = Ok ("Removed from favorites", db2) /\
    db_favorites db2 = db_favorites route_db.
Proof.
  destruct (X9_add_then_remove_favourite now uuid "r-inside" walker route_db
              _ _ eq_refl) as (Hids & db2 & Hrem & Hf & _).
  do 2 eexists. exists db2. split; [reflexivity |].
  split; [apply Hids; simpl; lia |]. split; [exact Hrem | exact Hf].
Defined.

Lemma X10_witness :
  exists doc db' drafts,
    add_favorite now uuid "r-inside" walker route_db = Ok (doc, db') /\
    zone_route_drafts format the_zone raw_shape buffered_shape db' inside
    = Ok drafts /\
    In (zone_draft format the_zone inside (true, None) "walker-2") drafts.
Proof.
  destruct (X10_favoriter_is_notified now uuid format "r-inside" walker
              route_db _ _ the_zone raw_shape buffered_shape inside
              (route_shape_of inside) (true, None) eq_refl)
    as (_ & drafts & Hd & Hin).
  - reflexivity.
  - simpl. lia.
  - reflexivity.
  - reflexivity.
  - do 2 eexists. exists drafts. split; [reflexivity |].
    split; [exact Hd | exact Hin].
Defined.

(** The inbox after the fan-out: three notifications, all for the owner
    of the routes. *)
Example inbox_after_the_fanout :
  map n_id (db_notifications notified_db) = ["uuid-1"; "uuid-2"; "uuid-3"] /\
  get_unread_count hiker notified_db = 3%nat /\
  get_unread_count walker notified_db = 0%nat.
Proof. repeat split; vm_compute; reflexivity. Qed.

Lemma X12_witness :
  exists db',
    mark_notification_read "uuid-2" hiker notified_db
    = Ok ("Marked as read", db') /\
    get_unread_count hiker db' = 2%nat /\
    mark_notification_read "uuid-2" hiker db'
    = Raise (HTTPException 404 "Notification not found").
Proof.
  assert (H : exists db',
             mark_notification_read "uuid-2" hiker notified_db
             = Ok ("Marked as read", db')).
  { eexists. vm_compute. reflexivity. }
  destruct H as (db' & H). exists db'. split; [exact H |].
  destruct (X12_mark_read_once "uuid-2" hiker notified_db _ _ H)
    as (Hcount & _ & Hagain & _).
  split; [| exact Hagain].
  assert (H3 : get_unread_count hiker notified_db = 3%nat)
    by (vm_compute; reflexivity).
  rewrite H3 in Hcount. now injection Hcount.
Defined.

Lemma X14_witness :
  exists drafts,
    zone_route_drafts format the_zone raw_shape buffered_shape fav_db inside
    = Ok drafts /\
    In "hiker-1" (map dr_user_id drafts) /\
    In "walker-2" (map dr_user_id drafts) /\
    List.length drafts = 2%nat /\
    List.NoDup (map dr_user_id drafts).
Proof.
  eexists. split; [reflexivity |].
  edestruct (X14_zone_fanout_one_draft_per_recipient format the_zone raw_shape
               buffered_shape fav_db inside)
    as ((route_shape & verdict & Hrs & Hv & Hm) & Hnd & _); [reflexivity |].
  injection Hrs as <-. injection Hv as <-. destruct Hm as [Hiff _].
  split; [| split; [| split; [vm_compute; reflexivity | exact Hnd]]].
  - apply (proj2 (Hiff "hiker-1")). left. split; [reflexivity | discriminate].
  - apply (proj2 (Hiff "walker-2")). right.
    exists {| f_id := "f-1"; f_user_id := "walker-2";
              f_route_id := "r-inside" |}.
    split; [left; reflexivity | reflexivity].
Defined.

Lemma X15_witness :
  check_intersection now
    {| ir_route_id := Some "r-cross"; ir_route_geometry := None;
       ir_check_time := Some june |} route_db
  = check_intersection now (request crossing) route_db.
Proof.
  apply (X15_check_by_id_reads_the_stored_route now "r-cross" None
           (Some june) route_db).
  discriminate.
Defined.

Lemma X16_witness :
  exists document,
    generate_pdf_report now format "2024-06-01 12:00 UTC" (request crossing)
      zone_db
    = Ok document /\
    In ["Coto Norte"; "Club de Caza"; "2024-01-01T00:00"; "2024-12-31T23:59";
        "60.0%"] document.
Proof.
  assert (Hc : check_intersection now (request crossing) zone_db
               = Ok (intersection_result
                       (check_route_against_zones (route_shape_of crossing)
                          [the_zone]))) by reflexivity.
  eexists. split; [reflexivity |].
  refine (X16_report_lists_the_conflicts_of_the_check now format
            "2024-06-01 12:00 UTC" (request crossing) zone_db _ _ Hc _
            (mk_conflict the_zone (PyFloat 60) "intersects") _ _).
  - reflexivity.
  - left. reflexivity.
  - discriminate.
Defined.

(** The whole report for the crossing route. *)
Example report_for_the_crossing_route :
  generate_pdf_report now format "2024-06-01 12:00 UTC" (request crossing)
    zone_db
  = Ok [["RangeGuard - Safety Report"];
        ["Route: Uploaded Route"];
        ["Check Time: 2024-06-01T12:00:00"];
        ["Generated: 2024-06-01 12:00 UTC"];
        ["WARNING: 1 intersection(s) found!"];
        ["Zone Name"; "Association"; "Start"; "End"; "Overlap"];
        ["Coto Norte"; "Club de Caza"; "2024-01-01T00:00"; "2024-12-31T23:59";
         "60.0%"];
        ["This report is informational. Always verify locally and follow "
         +:+ "safety guidelines."];
        ["RangeGuard - Promoting coexistence between hikers and hunters."]].
Proof. vm_compute. reflexivity. Qed.

Lemma X11_witness :
  get_unread_count hiker (snd (mark_all_read hiker notified_db)) = 0%nat /\
  get_unread_count walker (snd (mark_all_read hiker notified_db))
  = get_unread_count walker notified_db.
Proof.
  destruct (X11_mark_all_read_clears_the_count hiker notified_db)
    as (H0 & Hother & _).
  split; [exact H0 |]. apply Hother. discriminate.
Defined.

Lemma X13_witness :
  get_unread_count walker
    (check_uploaded_route_against_zones now uuid format crossing "hiker-1"
       zone_db)
  = get_unread_count walker zone_db.
Proof.
  destruct (X13_upload_fanout_notifies_the_uploader_only now uuid format
              crossing "hiker-1" zone_db) as (news & _ & _ & _ & _ & _ & _ & H).
  apply H. discriminate.
Defined.

Lemma X21_witness :
  exists news,
    db_notifications notified_db = db_notifications route_db ++ news /\
    db_routes notified_db = db_routes route_db /\
    db_favorites notified_db = db_favorites route_db.
Proof.
  destruct (X21_zone_fanout_writes_notifications_only now uuid format
              the_zone route_db) as (news & Hn & _ & _ & Hr & Hf).
  exists news. auto.
Defined.

Lemma X22_witness :
  List.filter (fun n => String.eqb (n_user_id n) "walker-2")
    (db_notifications (snd (delete_notification "uuid-2" hiker notified_db)))
  = List.filter (fun n => String.eqb (n_user_id n) "walker-2")
      (db_notifications notified_db) /\
  List.length
    (db_notifications (snd (delete_notification "uuid-2" hiker notified_db)))
  = 2%nat.
Proof.
  destruct (X22_delete_notification_is_scoped_to_the_user "uuid-2" hiker
              notified_db) as (_ & Hother & _).
  split; [apply (Hother walker); discriminate |].
  vm_compute. reflexivity.
Defined.

End ExtraChecks.

Section AccountChecks.
Import Scenario Cases.

Lemma X18_witness :
  get_current_user decode (Some "Bearer hiker-1") [luis] = Ok luis /\
  get_optional_user decode (Some "Bearer hiker-1") [luis] = Some luis /\
  get_current_user decode (Some "Basic abc") [luis]
  = Raise (HTTPException 401 "Not authenticated").
Proof.
  destruct (X18_optional_user_agrees_with_current_user decode
              (Some "Bearer hiker-1") [luis]) as [Hiff _].
  destruct (X18_optional_user_agrees_with_current_user decode
              (Some "Basic abc") [luis]) as [_ Hno].
  split; [apply Hiff; reflexivity |].
  split; [reflexivity |]. apply Hno. reflexivity.
Defined.

Lemma X19_witness :
  get_optional_user decode (Some ("Bearer " +:+ "hiker-1")) [luis]
  = match decode "hiker-1" with
    | JwtPayload (Some user_id) => find_user user_id [luis]
    | _ => None
    end.
Proof.
  apply (X19_bearer_token_is_decoded decode "hiker-1" [luis]).
  simpl. intuition discriminate.
Defined.

Lemma X20_witness :
  exists resp store' resp',
    register now 0 uuid encode hashpw eva one_user = Ok (resp, store') /\
    login 0 encode checkpw
      {| ul_email := "eva@test.com"; ul_password := "secret" |} store'
    = Ok resp' /\
    ar_user resp' = ar_user resp.
Proof.
  assert (H : exists resp store',
             register now 0 uuid encode hashpw eva one_user
             = Ok (resp, store')).
  { do 2 eexists. reflexivity. }
  destruct H as (resp & store' & H).
  destruct (X20_register_then_login now 0 uuid encode hashpw checkpw
              eva one_user resp store' H)
    as ((resp' & Hlogin & Huser & _) & _).
  - reflexivity.
  - exists resp, store', resp'. auto.
Defined.

End AccountChecks.
